(** * Multi-account containers: background page

    A shallow embedding of the background page of the extension, in its two
    variants

      - [V0]: src-refactor/background-page/background-page.ts
      - [V1]: src-refactor/background-page-1.ts

    together with a model of the parts of the browser platform the code
    talks to (URL parsing, the key-value store, the tab strip), and the
    properties of the design that the code was checked against. *)

From Stdlib Require Import ZArith Ascii DecimalString Lia.
From Stdlib Require String.
From stdpp Require Import base option gmap list strings sorting.

Set Default Proof Using "Type".

(** ** JavaScript strings *)

Module JS.

(** [s.slice(n)] *)
Fixpoint drop (n : nat) (s : string) : string :=
  match n, s with
  | O, _ => s
  | S _, EmptyString => EmptyString
  | S n', String _ s' => drop n' s'
  end.

(** [s.startsWith(p)] *)
Definition startsWith (s p : string) : bool := String.prefix p s.

(** [s.replace(pat, rep)] for a string pattern: only the first occurrence
    is replaced. *)
Fixpoint replace (pat rep s : string) : string :=
  if String.prefix pat s then rep +:+ drop (String.length pat) s
  else match s with
       | EmptyString => EmptyString
       | String c s' => String c (replace pat rep s')
       end.

(** [s.replace(/^pat/, rep)] for a literal pattern anchored at the start. *)
Definition replace_anchored (pat rep s : string) : string :=
  if String.prefix pat s then rep +:+ drop (String.length pat) s else s.

(** Truthiness of a string: only the empty string is falsy. *)
Definition truthy (s : string) : bool :=
  match s with EmptyString => false | _ => true end.

(** Truthiness of a possibly undefined string. *)
Definition truthy_opt (s : option string) : bool :=
  match s with Some s => truthy s | None => false end.

(** [String(n)] for an integer. *)
Definition string_of_Z (n : Z) : string := NilZero.string_of_int (Z.to_int n).

Definition string_of_N (n : N) : string := NilZero.string_of_uint (N.to_uint n).

(** Character classes. *)
Definition code (c : ascii) : nat := nat_of_ascii c.
Definition is_upper (c : ascii) : bool := (65 <=? code c)%nat && (code c <=? 90)%nat.
Definition is_lower (c : ascii) : bool := (97 <=? code c)%nat && (code c <=? 122)%nat.
Definition is_alpha (c : ascii) : bool := is_upper c || is_lower c.
Definition is_digit (c : ascii) : bool := (48 <=? code c)%nat && (code c <=? 57)%nat.
Definition to_lower (c : ascii) : ascii :=
  if is_upper c then ascii_of_nat (code c + 32) else c.

Fixpoint map (f : ascii → ascii) (s : string) : string :=
  match s with
  | EmptyString => EmptyString
  | String c s' => String (f c) (map f s')
  end.

Fixpoint forallb (p : ascii → bool) (s : string) : bool :=
  match s with
  | EmptyString => true
  | String c s' => p c && forallb p s'
  end.

(** Splits at the first character satisfying [p]: the part before it, and
    the rest starting with that character. *)
Fixpoint break (p : ascii → bool) (s : string) : string * string :=
  match s with
  | EmptyString => (EmptyString, EmptyString)
  | String c s' =>
      if p c then (EmptyString, s)
      else let '(a, b) := break p s' in (String c a, b)
  end.

(** The part after the last character satisfying [p], if there is one. *)
Fixpoint after_last (p : ascii → bool) (s : string) : option string :=
  match s with
  | EmptyString => None
  | String c s' =>
      match after_last p s' with
      | Some r => Some r
      | None => if p c then Some s' else None
      end
  end.

(** Decimal digits to a number. *)
Fixpoint digits_to_N (acc : N) (s : string) : N :=
  match s with
  | EmptyString => acc
  | String c s' => digits_to_N (acc * 10 + N.of_nat (code c - 48))%N s'
  end.

Definition hex_digit_lower (n : nat) : ascii :=
  if (n <? 10)%nat then ascii_of_nat (48 + n) else ascii_of_nat (87 + n).
Definition hex_digit_upper (n : nat) : ascii :=
  if (n <? 10)%nat then ascii_of_nat (48 + n) else ascii_of_nat (55 + n).

End JS.

(** ** The platform's [URL] class

    [new URL(s)] for an absolute URL [s], after the WHATWG URL standard, for
    the three components the program reads.  The parser throws a [TypeError]
    on a string that is not an absolute URL ([None] here).  Hosts are taken
    to be ASCII domain names; they are lower-cased, and a port equal to the
    scheme's default port is dropped, as the standard requires. *)

Module Url.

Record t := mk { protocol : string; hostname : string; port : string }.

Definition is_special (scheme : string) : bool :=
  bool_decide (scheme ∈ ["http"; "https"; "ws"; "wss"; "ftp"]).

Definition default_port (scheme : string) : option N :=
  if bool_decide (scheme = "http") then Some 80%N
  else if bool_decide (scheme = "https") then Some 443%N
  else if bool_decide (scheme = "ws") then Some 80%N
  else if bool_decide (scheme = "wss") then Some 443%N
  else if bool_decide (scheme = "ftp") then Some 21%N
  else None.

Definition is_scheme_char (c : ascii) : bool :=
  JS.is_alpha c || JS.is_digit c
  || bool_decide (c = "+"%char) || bool_decide (c = "-"%char)
  || bool_decide (c = "."%char).

Definition valid_scheme (s : string) : bool :=
  match s with
  | EmptyString => false
  | String c s' => JS.is_alpha c && JS.forallb is_scheme_char s'
  end.

Definition is_slash (special : bool) (c : ascii) : bool :=
  bool_decide (c = "/"%char) || (special && bool_decide (c = "\"%char)).

Definition ends_authority (special : bool) (c : ascii) : bool :=
  is_slash special c || bool_decide (c = "?"%char) || bool_decide (c = "#"%char).

Definition forbidden_host_char (c : ascii) : bool :=
  (JS.code c <=? 32)%nat
  || bool_decide (c ∈ ["#"; "%"; "/"; ":"; "<"; ">"; "?"; "@"; "["; "\"; "]"; "^"; "|"]%char)
  || (127 <=? JS.code c)%nat.

(** Skips the slashes (and, for a special scheme, backslashes) that
    introduce the authority. *)
Fixpoint skip_slashes (special : bool) (s : string) : string :=
  match s with
  | String c s' => if is_slash special c then skip_slashes special s' else s
  | EmptyString => s
  end.

(** The port component: digits only, at most 65535, dropped when it is the
    scheme's default. *)
Definition parse_port (scheme digits : string) : option string :=
  if negb (JS.forallb JS.is_digit digits) then None
  else match digits with
       | EmptyString => Some EmptyString
       | _ =>
           let n := JS.digits_to_N 0 digits in
           if (65535 <? n)%N then None
           else if bool_decide (default_port scheme = Some n) then Some EmptyString
           else Some (JS.string_of_N n)
       end.

(** Host and port out of an authority (after any credentials). *)
Definition parse_authority (scheme : string) (special : bool) (authority : string)
  : option (string * string) :=
  let hostport :=
    match JS.after_last (λ c, bool_decide (c = "@"%char)) authority with
    | Some r => r
    | None => authority
    end in
  let '(host, rest) := JS.break (λ c, bool_decide (c = ":"%char)) hostport in
  let digits := match rest with String _ d => d | EmptyString => EmptyString end in
  if special && negb (JS.truthy host) then None
  else if negb (JS.forallb (λ c, negb (forbidden_host_char c)) host) then None
  else match parse_port scheme digits with
       | Some p => Some (JS.map JS.to_lower host, p)
       | None => None
       end.

Definition parse (s : string) : option t :=
  let '(scheme0, rest) := JS.break (λ c, bool_decide (c = ":"%char)) s in
  match rest with
  | EmptyString => None
  | String _ after =>
      if negb (valid_scheme scheme0) then None
      else
        let scheme := JS.map JS.to_lower scheme0 in
        let special := is_special scheme in
        if special || JS.startsWith after "//" then
          let body := skip_slashes special after in
          let '(authority, _) := JS.break (ends_authority special) body in
          match parse_authority scheme special authority with
          | Some (h, p) => Some (mk (scheme +:+ ":") h p)
          | None => None
          end
        else Some (mk (scheme +:+ ":") EmptyString EmptyString)
  end.

End Url.

(** ** Data model *)

(** A tab as the [tabs] API reports it.  [tab_hiddenState] is the marker
    that [storeHidden] adds to a snapshot. *)
Record Tab := mkTab {
  tab_id : option Z;
  tab_index : Z;
  tab_windowId : option Z;
  tab_active : bool;
  tab_pinned : bool;
  tab_incognito : bool;
  tab_url : option string;
  tab_cookieStoreId : option string;
  tab_openerTabId : option Z;
  tab_hiddenState : bool
}.

Definition set_hidden (t : Tab) : Tab :=
  mkTab (tab_id t) (tab_index t) (tab_windowId t) false (tab_pinned t)
        (tab_incognito t) (tab_url t) (tab_cookieStoreId t) (tab_openerTabId t) true.

(** A container id as the program meets it: a string; a number (the store
    holds some ids so); [undefined] (an object without the field); or
    [false] (the answer of the id helpers for a tab outside any
    container). *)
Inductive JSId :=
| IdStr (s : string)
| IdNum (n : Z)
| IdUndef
| IdFalse.

(** [String(x)] and the interpolation of [x] in a template literal. *)
Definition String_of (x : JSId) : string :=
  match x with
  | IdStr s => s
  | IdNum n => JS.string_of_Z n
  | IdUndef => "undefined"
  | IdFalse => "false"
  end.

Definition JSId_truthy (x : JSId) : bool :=
  match x with
  | IdStr s => JS.truthy s
  | IdNum n => negb (n =? 0)%Z
  | IdUndef => false
  | IdFalse => false
  end.

(** [a === b] *)
Definition strict_eq (a b : JSId) : bool :=
  match a, b with
  | IdStr s, IdStr s' => bool_decide (s = s')
  | IdNum n, IdNum n' => bool_decide (n = n')
  | IdUndef, IdUndef => true
  | IdFalse, IdFalse => true
  | _, _ => false
  end.

(** The values of the flat key-value store. *)
Inductive StoreVal :=
| VSite (userContextId : JSId) (neverAsk : bool)
| VState (hiddenTabs : list Tab)
| VNum (n : Z)
| VList (l : list string).

Definition val_truthy (v : option StoreVal) : bool :=
  match v with
  | None => false
  | Some (VNum n) => negb (n =? 0)%Z
  | Some _ => true
  end.

(** [v.userContextId] *)
Definition val_userContextId (v : StoreVal) : JSId :=
  match v with VSite u _ => u | _ => IdUndef end.

(** Truthiness of [v.neverAsk] *)
Definition val_neverAsk (v : StoreVal) : bool :=
  match v with VSite _ b => b | _ => false end.

(** [v.hiddenTabs] *)
Definition val_hiddenTabs (v : StoreVal) : option (list Tab) :=
  match v with VState l => Some l | _ => None end.

(** An entry of the ledger of canceled requests. *)
Record Canceled := mkCanceled {
  requestIds : gset string;
  urls : gset string
}.

(** The details object of a [webRequest.onBeforeRequest] event. *)
Record Request := mkRequest {
  req_requestId : string;
  req_url : string;
  req_frameId : Z;
  req_tabId : Z
}.

(** The properties given to [browser.tabs.create]. *)
Record CreateProps := mkCreate {
  cp_url : option string;
  cp_active : option bool;
  cp_pinned : option bool;
  cp_cookieStoreId : option string;
  cp_index : option Z;
  cp_openerTabId : option Z;
  cp_windowId : option Z
}.

(** The filter given to [browser.tabs.query]; an undefined property does
    not filter. *)
Record Query := mkQuery {
  q_cookieStoreId : option string;
  q_windowId : option Z
}.

(** The arguments of a call of [reloadPageInContainer]. *)
Record Reload := mkReload {
  rl_url : string;
  rl_currentUserContextId : JSId;
  rl_userContextId : JSId;
  rl_index : Z;
  rl_active : bool;
  rl_neverAsk : bool;
  rl_openerTabId : option Z
}.

(** What the background page asks of the browser, in the order it asks.
    The menu presenter is an external collaborator: its two entry points
    are logged, not unfolded.  [LReload] marks an entry into
    [reloadPageInContainer]. *)
Inductive Call :=
| LStorageGet (keys : option (list string))
| LStorageSet (key : string) (v : StoreVal)
| LStorageRemove (keys : list string)
| LTabsGet (id : Z)
| LTabsQuery (q : Query)
| LTabsCreate (p : CreateProps)
| LTabsRemove (ids : list (option Z))
| LIdentitiesGet (cookieStoreId : string)
| LIdentitiesRemove (cookieStoreId : string)
| LHistoryDeleteUrl (url : string)
| LSetTimeout (tabId : option Z) (ms : Z)
| LRemoveContextMenu
| LCalculateContextMenu (tab : Tab)
| LReload (r : Reload).

(** The browser and the background page's own variables. *)
Record State := mkState {
  tabs : list Tab;
  storage : gmap string StoreVal;
  identities : list string;
  canceledRequests : gmap (option Z) Canceled;
  exemptedTabs : gmap string (list (option Z));
  lastCreatedTab : option Tab;
  unhideQueue : list (option string);
  extensionURL : string;
  calls : list Call
}.

Definition with_tabs (f : list Tab → list Tab) (s : State) : State :=
  mkState (f (tabs s)) (storage s) (identities s) (canceledRequests s)
          (exemptedTabs s) (lastCreatedTab s) (unhideQueue s) (extensionURL s) (calls s).
Definition with_storage (f : gmap string StoreVal → gmap string StoreVal) (s : State) : State :=
  mkState (tabs s) (f (storage s)) (identities s) (canceledRequests s)
          (exemptedTabs s) (lastCreatedTab s) (unhideQueue s) (extensionURL s) (calls s).
Definition with_identities (f : list string → list string) (s : State) : State :=
  mkState (tabs s) (storage s) (f (identities s)) (canceledRequests s)
          (exemptedTabs s) (lastCreatedTab s) (unhideQueue s) (extensionURL s) (calls s).
Definition with_canceledRequests
    (f : gmap (option Z) Canceled → gmap (option Z) Canceled) (s : State) : State :=
  mkState (tabs s) (storage s) (identities s) (f (canceledRequests s))
          (exemptedTabs s) (lastCreatedTab s) (unhideQueue s) (extensionURL s) (calls s).
Definition with_exemptedTabs
    (f : gmap string (list (option Z)) → gmap string (list (option Z))) (s : State) : State :=
  mkState (tabs s) (storage s) (identities s) (canceledRequests s)
          (f (exemptedTabs s)) (lastCreatedTab s) (unhideQueue s) (extensionURL s) (calls s).
Definition with_unhideQueue (f : list (option string) → list (option string)) (s : State) : State :=
  mkState (tabs s) (storage s) (identities s) (canceledRequests s)
          (exemptedTabs s) (lastCreatedTab s) (f (unhideQueue s)) (extensionURL s) (calls s).
Definition with_calls (f : list Call → list Call) (s : State) : State :=
  mkState (tabs s) (storage s) (identities s) (canceledRequests s)
          (exemptedTabs s) (lastCreatedTab s) (unhideQueue s) (extensionURL s) (f (calls s)).

(** ** Computations

    A function of the background page runs on the state and either returns
    or throws (an [async] function: resolves or rejects).  An [await]ed
    call is sequenced; a call that is not awaited runs where it is made and
    its failure is dropped ([detach]). *)

Inductive Completion (A : Type) :=
| Normal (a : A)
| Throw (msg : string).
Arguments Normal {A} a.
Arguments Throw {A} msg.

Definition M (A : Type) : Type := State → Completion A * State.

Definition ret {A} (a : A) : M A := λ s, (Normal a, s).
Definition throw {A} (msg : string) : M A := λ s, (Throw msg, s).
Definition bind {A B} (k : A → M B) (m : M A) : M B :=
  λ s, match m s with
       | (Normal a, s') => k a s'
       | (Throw e, s') => (Throw e, s')
       end.

#[global] Instance M_ret : MRet M := @ret.
#[global] Instance M_bind : MBind M := @bind.

Definition get_state : M State := λ s, (Normal s, s).
Definition modify (f : State → State) : M unit := λ s, (Normal tt, f s).
Definition log (c : Call) : M unit := modify (with_calls (λ l, l ++ [c])).

(** A promise that is not awaited. *)
Definition detach {A} (m : M A) : M unit :=
  λ s, (Normal tt, (m s).2).

(** [try { x = await m } catch (e) { x = d }] *)
Definition try_catch {A} (m : M A) (d : A) : M A :=
  λ s, match m s with
       | (Normal a, s') => (Normal a, s')
       | (Throw _, s') => (Normal d, s')
       end.

(** [await Promise.all([m1, m2])]: both are started, in this order, and
    the whole rejects when one of them does. *)
Definition promise_all2 {A B} (m1 : M A) (m2 : M B) : M (A * B) :=
  λ s, let '(r1, s1) := m1 s in
       let '(r2, s2) := m2 s1 in
       match r1, r2 with
       | Normal a, Normal b => (Normal (a, b), s2)
       | Throw e, _ => (Throw e, s2)
       | _, Throw e => (Throw e, s2)
       end.

(** [await Promise.all(l.map(body))]: every call is started, in order, and
    the whole rejects when one of them does. *)
Fixpoint promise_all {A} (l : list A) (body : A → M unit) : M unit :=
  match l with
  | [] => ret tt
  | x :: l' =>
      λ s, let '(r, s1) := body x s in
           let '(r', s2) := promise_all l' body s1 in
           (match r with Throw e => Throw e | Normal _ => r' end, s2)
  end.

(** [for (const x of l) { body(x) }] *)
Fixpoint for_each {A} (l : list A) (body : A → M unit) : M unit :=
  match l with
  | [] => ret tt
  | x :: l' => body x;; for_each l' body
  end.

Definition lift {A} (c : Completion A) : M A := λ s, (c, s).

(** ** The browser

    The calls of the WebExtensions API that the background page makes, on
    the state above.  Each call is logged. *)

Module browser.

(** [tabs.get(id)] rejects when no tab has this id. *)
Definition tabs_get (id : Z) : M Tab :=
  log (LTabsGet id);;
  s ← get_state;
  match List.find (λ t, bool_decide (tab_id t = Some id)) (tabs s) with
  | Some t => ret t
  | None => throw "Invalid tab ID"
  end.

Definition matches (q : Query) (t : Tab) : bool :=
  match q_cookieStoreId q with
  | Some c => bool_decide (tab_cookieStoreId t = Some c)
  | None => true
  end
  && match q_windowId q with
     | Some w => bool_decide (tab_windowId t = Some w)
     | None => true
     end.

Definition tabs_query (q : Query) : M (list Tab) :=
  log (LTabsQuery q);;
  s ← get_state;
  ret (List.filter (matches q) (tabs s)).

Definition tabs_remove (ids : list (option Z)) : M unit :=
  log (LTabsRemove ids);;
  modify (with_tabs (List.filter (λ t, negb (bool_decide (tab_id t ∈ ids))))).

(** The new tab is not added to [tabs]: no function here reads it back. *)
Definition tabs_create (p : CreateProps) : M unit :=
  log (LTabsCreate p).

Definition history_deleteUrl (url : string) : M unit :=
  log (LHistoryDeleteUrl url).

(** [storage.local.get([key])], then [response[key]] *)
Definition storage_get (key : string) : M (option StoreVal) :=
  log (LStorageGet (Some [key]));;
  s ← get_state;
  ret (storage s !! key).

(** [storage.local.get()] *)
Definition storage_get_all : M (gmap string StoreVal) :=
  log (LStorageGet None);;
  s ← get_state;
  ret (storage s).

Definition storage_set (key : string) (v : StoreVal) : M unit :=
  log (LStorageSet key v);;
  modify (with_storage (insert key v)).

Definition storage_remove (keys : list string) : M unit :=
  log (LStorageRemove keys);;
  modify (with_storage (λ m, foldr delete m keys)).

(** [contextualIdentities.get(id)] rejects when there is no such
    identity. *)
Definition contextualIdentities_get (cookieStoreId : string) : M bool :=
  log (LIdentitiesGet cookieStoreId);;
  s ← get_state;
  if bool_decide (cookieStoreId ∈ identities s) then ret true
  else throw "Invalid contextual identity".

Definition contextualIdentities_remove (cookieStoreId : string) : M unit :=
  log (LIdentitiesRemove cookieStoreId);;
  s ← get_state;
  if bool_decide (cookieStoreId ∈ identities s)
  then modify (with_identities (List.filter (λ c, negb (bool_decide (c = cookieStoreId)))))
  else throw "Invalid contextual identity".

(** [extension.getURL(path)] *)
Definition extension_getURL (path : string) : M string :=
  s ← get_state;
  ret (extensionURL s +:+ path).

(** [setTimeout]: the timer is logged; what it does when it fires is
    [expire] below. *)
Definition setTimeout (tabId : option Z) (ms : Z) : M unit :=
  log (LSetTimeout tabId ms).

(** [tabs.move(id, {windowId, index})] for a tab of the window
    [windowId], on the tab strip of that window.  The tab ends at
    position [index], the tabs after it close the gap; [-1] and an index
    past the end mean the end.  Pinned tabs stay in front of the others:
    a pinned tab may go up to just after the last pinned tab, where it
    ends as the last pinned tab, an unpinned tab may go from there on, and
    any other move is ignored. *)
Definition numPinned (strip : list Tab) : nat :=
  length (List.filter tab_pinned strip).

Definition tabs_move (id : Z) (index : Z) (strip : list Tab) : list Tab :=
  match List.find (λ t, bool_decide (tab_id t = Some id)) strip with
  | None => strip
  | Some t =>
      let insertionPoint :=
        if (index =? -1)%Z then length strip else Z.to_nat index in
      if (if tab_pinned t then insertionPoint <=? numPinned strip
          else numPinned strip <=? insertionPoint)%nat
      then
        let target :=
          if tab_pinned t then insertionPoint `min` (numPinned strip - 1)
          else insertionPoint `max` numPinned strip in
        let others :=
          List.filter (λ t', negb (bool_decide (tab_id t' = Some id))) strip in
        take target others ++ t :: drop target others
      else strip
  end.

End browser.

(** ** What the two files share

    These functions are the same in both files, up to the object they hang
    from. *)

Definition DEFAULT_TAB : string := "about:newtab".
Definition NEW_TAB_PAGES : list string :=
  ["about:startpage"; "about:newtab"; "about:home"; "about:blank"].

(** A value interpolated in a template literal where a string is expected
    and [undefined] may come. *)
Definition tpl (x : option string) : string := default "undefined" x.

Definition getContainerStoreKey (cookieStoreId : option string) : string :=
  "identitiesState@@_" +:+ tpl cookieStoreId.

Definition _createIdentityState : StoreVal := VState [].

Definition identityStateSet (cookieStoreId : option string) (data : StoreVal) : M unit :=
  let storeKey := getContainerStoreKey cookieStoreId in
  browser.storage_set storeKey data.

Definition identityStateGet (cookieStoreId : option string) : M StoreVal :=
  let storeKey := getContainerStoreKey cookieStoreId in
  storageResponse ← browser.storage_get storeKey;
  match storageResponse with
  | Some v => ret v
  | None =>
      let defaultContainerState := _createIdentityState in
      identityStateSet cookieStoreId defaultContainerState;;
      ret defaultContainerState
  end.

Definition identityStateRemove (cookieStoreId : option string) : M unit :=
  let storeKey := getContainerStoreKey cookieStoreId in
  browser.storage_remove [storeKey].

Definition _createTabObject (tab : Tab) : Tab := tab.

(** [containerState.hiddenTabs.push(tabObject)] *)
Definition push_hidden (containerState : StoreVal) (tabObject : Tab) : Completion StoreVal :=
  match containerState with
  | VState l => Normal (VState (l ++ [tabObject]))
  | _ => Throw "containerState.hiddenTabs is undefined"
  end.

(** [containerState.hiddenTabs = []] *)
Definition clear_hidden (containerState : StoreVal) : StoreVal :=
  match containerState with
  | VState _ => VState []
  | v => v
  end.

Definition removeContextMenu : M unit := log LRemoveContextMenu.
Definition calculateContextMenu (tab : Tab) : M unit := log (LCalculateContextMenu tab).

(** [encodeURIComponent], on the bytes of the UTF-8 form of the string. *)
Definition unreserved (c : ascii) : bool :=
  JS.is_alpha c || JS.is_digit c
  || bool_decide (c ∈ ["-"; "_"; "."; "!"; "~"; "*"; "'"; "("; ")"]%char).

Fixpoint encodeURIComponent (s : string) : string :=
  match s with
  | EmptyString => EmptyString
  | String c s' =>
      if unreserved c then String c (encodeURIComponent s')
      else String "%" (String (JS.hex_digit_upper (JS.code c / 16))
             (String (JS.hex_digit_upper (JS.code c mod 16)) (encodeURIComponent s')))
  end.

(** [n.toString(16)] for a character code *)
Definition toString16 (n : nat) : string :=
  if (n <? 16)%nat then String (JS.hex_digit_lower n) EmptyString
  else String (JS.hex_digit_lower (n / 16)) (String (JS.hex_digit_lower (n mod 16)) EmptyString).

Fixpoint replace_marks (s : string) : string :=
  match s with
  | EmptyString => EmptyString
  | String c s' =>
      if bool_decide (c ∈ ["!"; "'"; "("; ")"; "*"]%char)
      then String "%" (toString16 (JS.code c)) +:+ replace_marks s'
      else String c (replace_marks s')
  end.

Definition encodeURLProperty (url : string) : string :=
  replace_marks (encodeURIComponent url).

(** The listeners of [webRequest.onCompleted] and [onErrorOccurred], and
    the timer set by [onBeforeRequest]: each forgets the ledger entry of
    the tab. *)
Definition expire (tabId : option Z) : M unit :=
  s ← get_state;
  if bool_decide (is_Some (canceledRequests s !! tabId))
  then modify (with_canceledRequests (delete tabId))
  else ret tt.

(** An optional property of an options object: absent, or present with a
    value that may be [undefined]. *)
Inductive Field (A : Type) :=
| Absent
| Present (v : A).
Arguments Absent {A}.
Arguments Present {A} v.

Definition is_present {A} (f : Field A) : bool :=
  match f with Absent => false | Present _ => true end.

(** [options[arg]], for a property whose values are [A] or [undefined] *)
Definition field_value {A} (f : Field (option A)) : option A :=
  match f with Absent => None | Present v => v end.

(** The options of [getTabs], [hideTabs] and [moveTabsToWindow]. *)
Record TabsOptions := mkTabsOptions {
  o_cookieStoreId : Field (option string);
  o_windowId : Field (option Z)
}.

(** [arg in options] *)
Definition has_arg (arg : string) (options : TabsOptions) : bool :=
  if bool_decide (arg = "cookieStoreId") then is_present (o_cookieStoreId options)
  else if bool_decide (arg = "windowId") then is_present (o_windowId options)
  else false.

(** Truthiness of [options[arg]] *)
Definition arg_truthy (arg : string) (options : TabsOptions) : bool :=
  if bool_decide (arg = "cookieStoreId") then JS.truthy_opt (field_value (o_cookieStoreId options))
  else if bool_decide (arg = "windowId")
       then match field_value (o_windowId options) with
            | Some w => negb (w =? 0)%Z
            | None => false
            end
  else false.

Record OpenNewTabOptions := mkOpenNewTab {
  on_userContextId : Field JSId;
  on_url : option string;
  on_nofocus : Field (option bool);
  on_pinned : option bool
}.

Record ShowTabsOptions := mkShowTabs {
  st_cookieStoreId : Field (option string);
  st_nofocus : option bool
}.

(** ** src-refactor/background-page-1.ts *)

Module V1.

Definition isPermissibleURL (url : option string) : Completion bool :=
  if negb (JS.truthy_opt url) then Normal false
  else match Url.parse (default EmptyString url) with
       | None => Throw "TypeError: invalid URL"
       | Some u =>
           let protocol := Url.protocol u in
           if bool_decide (protocol = "about:") || bool_decide (protocol = "chrome:")
              || bool_decide (protocol = "moz-extension:")
           then Normal false
           else Normal true
       end.

Definition getUserContextIdFromCookieStoreId (cookieStoreId : option string) : JSId :=
  match cookieStoreId with
  | None => IdUndef
  | Some c =>
      if negb (JS.truthy c) then IdUndef
      else
        let container := JS.replace "firefox-container-" "" c in
        if bool_decide (container ≠ c) then IdStr container else IdUndef
  end.

Definition getCookieStoreId (userContextId : JSId) : string :=
  "firefox-container-" +:+ String_of userContextId.

Definition getSiteStoreKey (pageUrl : option string) : Completion string :=
  if negb (JS.truthy_opt pageUrl) then Normal EmptyString
  else match Url.parse (default EmptyString pageUrl) with
       | None => Throw "TypeError: invalid URL"
       | Some url =>
           let storagePrefix := "siteContainerMap@@_" in
           if bool_decide (Url.port url = "80") || bool_decide (Url.port url = "443")
           then Normal (storagePrefix +:+ Url.hostname url)
           else Normal (storagePrefix +:+ Url.hostname url +:+ Url.port url)
       end.

Definition setExempted (pageUrl : option string) (tabId : Z) : M unit :=
  siteStoreKey ← lift (getSiteStoreKey pageUrl);
  modify (with_exemptedTabs (λ m,
    <[siteStoreKey := default [] (m !! siteStoreKey) ++ [Some tabId]]> m)).

Definition removeExempted (pageUrl : option string) : M unit :=
  siteStoreKey ← lift (getSiteStoreKey pageUrl);
  modify (with_exemptedTabs (<[siteStoreKey := []]>)).

Definition isExempted (pageUrl : option string) (tabId : option Z) : M bool :=
  match tabId with
  | None => ret false
  | Some _ =>
      siteStoreKey ← lift (getSiteStoreKey pageUrl);
      s ← get_state;
      match exemptedTabs s !! siteStoreKey with
      | None => ret false
      | Some l => ret (bool_decide (tabId ∈ l))
      end
  end.

Definition storageAreaGet (pageUrl : option string) : M (option StoreVal) :=
  if negb (JS.truthy_opt pageUrl) then throw "No page url"
  else
    siteStoreKey ← lift (getSiteStoreKey pageUrl);
    browser.storage_get siteStoreKey.

Definition storageAreaSet (pageUrl : option string) (data : StoreVal)
    (exemptedTabIds : option (list (option Z))) : M unit :=
  siteStoreKey ← lift (getSiteStoreKey pageUrl);
  match exemptedTabIds with
  | Some ids =>
      for_each ids (λ tabId,
        match tabId with
        | Some i => setExempted pageUrl i
        | None => ret tt
        end)
  | None => ret tt
  end;;
  browser.storage_set siteStoreKey data.

Definition storageAreaRemove (pageUrl : option string) : M unit :=
  siteStoreKey ← lift (getSiteStoreKey pageUrl);
  removeExempted pageUrl;;
  browser.storage_remove [siteStoreKey].

(** The sites of a container: the stored value and the [hostname] that
    is written into it. *)
Definition getByContainer (userContextId : JSId) : M (gmap string (StoreVal * string)) :=
  siteConfigs ← browser.storage_get_all;
  ret (map_imap (λ key v,
         if bool_decide (String_of (val_userContextId v) = String_of userContextId)
         then Some (v, JS.replace_anchored "siteContainerMap@@_" "" key)
         else None) siteConfigs).

Definition storageAreaDeleteContainer (userContextId : JSId) : M unit :=
  sitesByContainer ← getByContainer userContextId;
  browser.storage_remove (map fst (map_to_list sitesByContainer)).

(** [windowId] is a number or [false] ([None]). *)
Definition _closeTabs (userContextId : JSId) (windowId : option Z) : M unit :=
  let cookieStoreId := getCookieStoreId userContextId in
  tabs ← match windowId with
         | Some w => browser.tabs_query (mkQuery (Some cookieStoreId) (Some w))
         | None => browser.tabs_query (mkQuery (Some cookieStoreId) None)
         end;
  let tabIds := List.filter (λ i, bool_decide (is_Some i)) (map tab_id tabs) in
  browser.tabs_remove tabIds.

Definition deleteContainer (userContextId : JSId) (removed : bool) : M JSId :=
  _closeTabs userContextId None;;
  (if negb removed
   then browser.contextualIdentities_remove (getCookieStoreId userContextId)
   else ret tt);;
  detach (storageAreaDeleteContainer userContextId);;
  ret userContextId.

Definition openNewTab (options : OpenNewTabOptions) : M unit :=
  let url := if JS.truthy_opt (on_url options) then on_url options else None in
  let userContextId :=
    match on_userContextId options with
    | Present u => if JSId_truthy u then u else IdStr "0"
    | Absent => IdStr "0"
    end in
  let active :=
    match on_nofocus options with
    | Present v => v
    | Absent => Some true
    end in
  let cookieStoreId := getCookieStoreId userContextId in
  let url :=
    if JS.truthy_opt url && bool_decide (default EmptyString url ∈ NEW_TAB_PAGES)
    then None else url in
  permissible ← lift (isPermissibleURL url);
  if negb permissible then ret tt
  else
    browser.tabs_create
      (mkCreate url active (Some (default false (on_pinned options)))
                (Some cookieStoreId) None None None).

Definition checkArgs (requiredArguments : list string) (options : TabsOptions)
    (methodName : string) : Completion (string * Z) :=
  match List.find (λ arg, negb (has_arg arg options) || negb (arg_truthy arg options))
                  requiredArguments with
  | Some arg =>
      Throw (methodName +:+ " must be called with " +:+ arg +:+ " argument.")
  | None =>
      Normal (default EmptyString (field_value (o_cookieStoreId options)),
              default 0%Z (field_value (o_windowId options)))
  end.

Definition getTabs (options : TabsOptions) : M (list Tab) :=
  '(cookieStoreId, windowId) ← lift (checkArgs ["cookieStoreId"; "windowId"] options "getTabs");
  tabs ← browser.tabs_query (mkQuery (Some cookieStoreId) (Some windowId));
  let list := map _createTabObject tabs in
  containerState ← identityStateGet (Some cookieStoreId);
  match val_hiddenTabs containerState with
  | Some hiddenTabs => ret (list ++ hiddenTabs)
  | None => ret list
  end.

Definition showTabs (options : ShowTabsOptions) : M unit :=
  let cookieStoreId := field_value (st_cookieStoreId options) in
  let userContextId := getUserContextIdFromCookieStoreId cookieStoreId in
  containerState ← identityStateGet cookieStoreId;
  match val_hiddenTabs containerState with
  | None => throw "TypeError: containerState.hiddenTabs is not iterable"
  | Some hiddenTabs =>
      promise_all hiddenTabs (λ object,
        openNewTab (mkOpenNewTab (Present userContextId) (tab_url object)
                      (Present (Some (default false (st_nofocus options))))
                      (Some (tab_pinned object))));;
      identityStateSet cookieStoreId (clear_hidden containerState)
  end.

Definition unhideContainer (cookieStoreId : option string) : M unit :=
  s ← get_state;
  if JS.truthy_opt cookieStoreId && negb (bool_decide (cookieStoreId ∈ unhideQueue s))
  then
    modify (with_unhideQueue (λ q, q ++ [cookieStoreId]));;
    showTabs (mkShowTabs (Present cookieStoreId) None);;
    modify (with_unhideQueue (λ q,
      match list_find (λ c, c = cookieStoreId) q with
      | Some (i, _) => take i q ++ drop (S i) q
      | None => take (length q - 1) q
      end))
  else ret tt.

(** The tabs are visited in order; a tab that cannot be reopened is
    skipped, an unparsable url aborts. *)
Fixpoint snapshot (containerState : StoreVal) (tabsByContainer : list Tab)
    : Completion StoreVal :=
  match tabsByContainer with
  | [] => Normal containerState
  | tab :: rest =>
      let tabObject := _createTabObject tab in
      match isPermissibleURL (tab_url tab) with
      | Throw e => Throw e
      | Normal false => snapshot containerState rest
      | Normal true =>
          match push_hidden containerState (set_hidden tabObject) with
          | Throw e => Throw e
          | Normal containerState' => snapshot containerState' rest
          end
      end
  end.

Definition storeHidden (cookieStoreId : option string) (windowId : option Z) : M unit :=
  containerState ← identityStateGet cookieStoreId;
  tabsByContainer ← browser.tabs_query (mkQuery cookieStoreId windowId);
  containerState' ← lift (snapshot containerState tabsByContainer);
  identityStateSet cookieStoreId containerState'.

Definition hideTabs (options : TabsOptions) : M unit :=
  '(cookieStoreId, windowId) ← lift (checkArgs ["cookieStoreId"; "windowId"] options "hideTabs");
  let userContextId := getUserContextIdFromCookieStoreId (Some cookieStoreId) in
  if negb (JSId_truthy userContextId) then throw "no userContextId!"
  else
    containerState ← storeHidden (Some cookieStoreId) (Some windowId);
    _closeTabs userContextId (Some windowId);;
    ret containerState.

(** [map.get(key).push(tab)], after [map.set(key, [])] for a new key:
    a [Map] keeps its keys in the order they were first set. *)
Fixpoint map_push (key : string) (tab : Tab) (map : list (string * list Tab))
    : list (string * list Tab) :=
  match map with
  | [] => [(key, [tab])]
  | (k, l) :: rest =>
      if bool_decide (k = key) then (k, l ++ [tab]) :: rest
      else (k, l) :: map_push key tab rest
  end.

(** The loop over the tabs of the window. *)
Fixpoint collect (pinnedTabs : bool) (tabs : list Tab) (pos : nat)
    (map : list (string * list Tab)) : nat * list (string * list Tab) :=
  match tabs with
  | [] => (pos, map)
  | tab :: rest =>
      if pinnedTabs && negb (tab_pinned tab) then (pos, map)
      else if negb pinnedTabs && tab_pinned tab then collect pinnedTabs rest (S pos) map
      else if negb (JS.truthy_opt (tab_cookieStoreId tab)) then collect pinnedTabs rest pos map
      else
        let userContextId := getUserContextIdFromCookieStoreId (tab_cookieStoreId tab) in
        if JSId_truthy userContextId
        then collect pinnedTabs rest pos (map_push (String_of userContextId) tab map)
        else collect pinnedTabs rest pos map
  end.

(** [a.localeCompare(b)]: the keys are container ids, which the browser
    issues as decimal numerals; on these the collation is the order of the
    strings character by character. *)
Definition localeCompare (a b : string) : Z :=
  match String.compare a b with
  | Lt => (-1)%Z
  | Eq => 0%Z
  | Gt => 1%Z
  end.

(** [entries.sort((a, b) => a[0].localeCompare(b[0]))]: the sort of an
    array is stable. *)
Fixpoint sort_insert (e : string * list Tab) (l : list (string * list Tab))
    : list (string * list Tab) :=
  match l with
  | [] => [e]
  | e' :: l' =>
      if (localeCompare e.1 e'.1 <=? 0)%Z then e :: l
      else e' :: sort_insert e l'
  end.

Definition sort_entries (entries : list (string * list Tab)) : list (string * list Tab) :=
  foldr sort_insert [] entries.

(** The moves of one group, then of all groups.  The moves are made in
    the order they are asked for. *)
Fixpoint move_tabs (tabs : list Tab) (pos : nat) (strip : list Tab) : nat * list Tab :=
  match tabs with
  | [] => (pos, strip)
  | tab :: rest =>
      match tab_id tab with
      | None => move_tabs rest pos strip
      | Some id => move_tabs rest (S pos) (browser.tabs_move id (Z.of_nat (S pos)) strip)
      end
  end.

Fixpoint move_groups (sortMap : list (string * list Tab)) (pos : nat) (strip : list Tab)
    : nat * list Tab :=
  match sortMap with
  | [] => (pos, strip)
  | (_, tabs) :: rest =>
      let '(pos', strip') := move_tabs tabs pos strip in
      move_groups rest pos' strip'
  end.

(** On the tab strip of the window [windowObj]. *)
Definition _sortTabsInternal (strip : list Tab) (pinnedTabs : bool) : list Tab :=
  let tabs := strip in
  let '(pos, map) := collect pinnedTabs tabs 0 [] in
  let sortMap := sort_entries map in
  (move_groups sortMap pos strip).2.

(** The windows are given by their tab strips. *)
Definition sortTabs (windows : list (list Tab)) : list (list Tab) :=
  map (λ strip, _sortTabsInternal (_sortTabsInternal strip true) false) windows.

Definition getUserContextIdFromCookieStore (tab : Tab) : JSId :=
  if negb (JS.truthy_opt (tab_cookieStoreId tab)) then IdFalse
  else getUserContextIdFromCookieStoreId (tab_cookieStoreId tab).

Definition reloadPageInContainer (url : string) (currentUserContextId : JSId)
    (userContextId : JSId) (index : Z) (active : bool) (neverAsk : bool)
    (openerTabId : option Z) : M unit :=
  log (LReload (mkReload url currentUserContextId userContextId index active
                         neverAsk openerTabId));;
  if negb (JSId_truthy userContextId) then throw "userContextId is false or undefined"
  else
    let cookieStoreId := getCookieStoreId userContextId in
    loadPage ← browser.extension_getURL "confirm-page.html";
    if neverAsk then
      browser.tabs_create
        (mkCreate (Some url) (Some active) None (Some cookieStoreId) (Some index)
                  openerTabId None)
    else
      let confirmUrl :=
        loadPage +:+ "?url=" +:+ encodeURLProperty url +:+ "&cookieStoreId=" +:+ cookieStoreId in
      let currentCookieStoreId :=
        if JSId_truthy currentUserContextId
        then Some (getCookieStoreId currentUserContextId)
        else None in
      let confirmUrl :=
        match currentCookieStoreId with
        | Some c => confirmUrl +:+ "&currentCookieStoreId=" +:+ c
        | None => confirmUrl
        end in
      browser.tabs_create
        (mkCreate (Some confirmUrl) (Some active) None currentCookieStoreId (Some index)
                  openerTabId None);;
      browser.history_deleteUrl confirmUrl.

(** [{ [requestId]: true }] and [{ [url]: true }] *)
Definition register (options : Request) (c : option Canceled) : Canceled :=
  match c with
  | None => mkCanceled {[ req_requestId options ]} {[ req_url options ]}
  | Some c => mkCanceled ({[ req_requestId options ]} ∪ requestIds c)
                         ({[ req_url options ]} ∪ urls c)
  end.

(** [onBeforeRequest], in two parts.  The first part runs up to the
    last early [return {}]: it answers [None] when the request is let
    through, and otherwise the tab, the assignment of the site and the
    container of the tab. *)
Definition candidate (options : Request) : M (option (Tab * StoreVal * JSId)) :=
  if negb (req_frameId options =? 0)%Z || (req_tabId options =? -1)%Z then ret None
  else
    removeContextMenu;;
    '(tab, siteSettings) ← promise_all2 (browser.tabs_get (req_tabId options))
                                         (storageAreaGet (Some (req_url options)));
    container ←
      match siteSettings with
      | Some v =>
          if val_truthy siteSettings
          then try_catch
                 (browser.contextualIdentities_get (getCookieStoreId (val_userContextId v)))
                 false
          else ret false
      | None => ret false
      end;
    match siteSettings with
    | Some v =>
        if val_truthy siteSettings && negb container then
          detach (deleteContainer (val_userContextId v) false);;
          ret None
        else
          let userContextId := getUserContextIdFromCookieStore tab in
          exempted ←
            (if negb (JSId_truthy userContextId) || negb (val_truthy siteSettings)
                || strict_eq userContextId (val_userContextId v)
                || tab_incognito tab
             then ret true
             else isExempted (Some (req_url options)) (tab_id tab));
          if (exempted : bool) then ret None
          else ret (Some (tab, v, userContextId))
    | None => ret None
    end.

(** The second part: from [const removeTab] on.  [true] is
    [{cancel: true}]. *)
Definition reroute (options : Request) (tab : Tab) (siteSettings : StoreVal)
    (userContextId : JSId) : M bool :=
  s ← get_state;
  let removeTab :=
    (JS.truthy_opt (tab_url tab)
     && bool_decide (default EmptyString (tab_url tab) ∈ NEW_TAB_PAGES))
    || match lastCreatedTab s with
       | Some l => bool_decide (tab_id l = tab_id tab)
       | None => false
       end in
  let openTabId := if removeTab then tab_openerTabId tab else tab_id tab in
  match tab_id tab with
  | None => throw "tab ID is undefined or null"
  | Some _ =>
      cancelEarly ←
        match canceledRequests s !! tab_id tab with
        | None =>
            modify (with_canceledRequests
                      (<[tab_id tab := register options None]>));;
            browser.setTimeout (tab_id tab) 2000;;
            ret false
        | Some c =>
            let cancelEarly :=
              bool_decide (req_requestId options ∈ requestIds c)
              || bool_decide (req_url options ∈ urls c) in
            modify (with_canceledRequests
                      (<[tab_id tab := register options (Some c)]>));;
            ret cancelEarly
        end;
      if (cancelEarly : bool) then ret true
      else
        reloadPageInContainer (req_url options) userContextId
          (val_userContextId siteSettings) (tab_index tab + 1) (tab_active tab)
          (val_neverAsk siteSettings) openTabId;;
        calculateContextMenu tab;;
        (if removeTab then browser.tabs_remove [tab_id tab] else ret tt);;
        ret true
  end.

(** The decision for a request: [true] is [{cancel: true}], [false] is
    [{}]. *)
Definition onBeforeRequest (options : Request) : M bool :=
  c ← candidate options;
  match c with
  | None => ret false
  | Some (tab, siteSettings, userContextId) =>
      reroute options tab siteSettings userContextId
  end.

(** The tabs on the assigned site that sit in another container: the
    [filter] and [map] of [_setOrRemoveAssignment]. *)
Fixpoint exempt_others (assignmentStoreKey userContextId : string) (tabs : list Tab)
    : Completion (list (option Z)) :=
  match tabs with
  | [] => Normal []
  | tab :: rest =>
      match getSiteStoreKey (tab_url tab) with
      | Throw e => Throw e
      | Normal tabStoreKey =>
          match exempt_others assignmentStoreKey userContextId rest with
          | Throw e => Throw e
          | Normal ids =>
              if bool_decide (tabStoreKey = assignmentStoreKey)
                 && negb (strict_eq (getUserContextIdFromCookieStore tab)
                                    (IdStr userContextId))
              then Normal (tab_id tab :: ids)
              else Normal ids
          end
      end
  end.

Definition _setOrRemoveAssignment (tabId : Z) (pageUrl : string) (userContextId : JSId)
    (remove : bool) : M unit :=
  let userContextId := String_of userContextId in
  (if negb remove then
     tabs ← browser.tabs_query (mkQuery None None);
     assignmentStoreKey ← lift (getSiteStoreKey (Some pageUrl));
     exemptedTabIds ← lift (exempt_others assignmentStoreKey userContextId tabs);
     storageAreaSet (Some pageUrl) (VSite (IdStr userContextId) false) (Some exemptedTabIds)
   else
     storageAreaRemove (Some pageUrl));;
  (** the message to the tab belongs to the presenter *)
  tab ← browser.tabs_get tabId;
  calculateContextMenu tab.

Definition _neverAsk (pageUrl : option string) (neverAsk : bool) : M unit :=
  if neverAsk then
    detach (siteSettings ← storageAreaGet pageUrl;
            match siteSettings with
            | Some (VSite u _) => storageAreaSet pageUrl (VSite u true) None
            | Some v => if val_truthy siteSettings then storageAreaSet pageUrl v None else ret tt
            | None => ret tt
            end)
  else ret tt.

Definition _exemptTab (pageUrl : option string) (tabId : Z) : M bool :=
  setExempted pageUrl tabId;;
  ret true.

End V1.

(** ** src-refactor/background-page/background-page.ts

    [backgroundLogic], [assignManager], [identityState] and
    [messageHandler], in this order. *)

Module V0.

Definition getUserContextIdFromCookieStoreId (cookieStoreId : option string) : JSId :=
  match cookieStoreId with
  | None => IdFalse
  | Some c =>
      if negb (JS.truthy c) then IdFalse
      else
        let container := JS.replace "firefox-container-" "" c in
        if bool_decide (container ≠ c) then IdStr container else IdFalse
  end.

Definition cookieStoreId (userContextId : JSId) : string :=
  "firefox-container-" +:+ String_of userContextId.

(** [new URL(undefined)] parses the string "undefined". *)
Definition isPermissibleURL (url : option string) : Completion bool :=
  match Url.parse (tpl url) with
  | None => Throw "TypeError: invalid URL"
  | Some u =>
      let protocol := Url.protocol u in
      if bool_decide (protocol = "about:") || bool_decide (protocol = "chrome:")
         || bool_decide (protocol = "moz-extension:")
      then Normal false
      else Normal true
  end.

Definition getSiteStoreKey (pageUrl : option string) : Completion string :=
  match Url.parse (tpl pageUrl) with
  | None => Throw "TypeError: invalid URL"
  | Some url =>
      let storagePrefix := "siteContainerMap@@_" in
      if bool_decide (Url.port url = "80") || bool_decide (Url.port url = "443")
      then Normal (storagePrefix +:+ Url.hostname url)
      else Normal (storagePrefix +:+ Url.hostname url +:+ Url.port url)
  end.

Definition setExempted (pageUrl : option string) (tabId : option Z) : M unit :=
  siteStoreKey ← lift (getSiteStoreKey pageUrl);
  modify (with_exemptedTabs (λ m,
    <[siteStoreKey := default [] (m !! siteStoreKey) ++ [tabId]]> m)).

Definition removeExempted (pageUrl : option string) : M unit :=
  siteStoreKey ← lift (getSiteStoreKey pageUrl);
  modify (with_exemptedTabs (<[siteStoreKey := []]>)).

Definition isExempted (pageUrl : option string) (tabId : option Z) : M bool :=
  siteStoreKey ← lift (getSiteStoreKey pageUrl);
  s ← get_state;
  match exemptedTabs s !! siteStoreKey with
  | None => ret false
  | Some l => ret (bool_decide (tabId ∈ l))
  end.

Definition storageArea_get (pageUrl : option string) : M (option StoreVal) :=
  siteStoreKey ← lift (getSiteStoreKey pageUrl);
  browser.storage_get siteStoreKey.

Definition storageArea_set (pageUrl : option string) (data : StoreVal)
    (exemptedTabIds : option (list (option Z))) : M unit :=
  siteStoreKey ← lift (getSiteStoreKey pageUrl);
  match exemptedTabIds with
  | Some ids => for_each ids (λ tabId, setExempted pageUrl tabId)
  | None => ret tt
  end;;
  browser.storage_set siteStoreKey data.

Definition storageArea_remove (pageUrl : option string) : M unit :=
  siteStoreKey ← lift (getSiteStoreKey pageUrl);
  removeExempted pageUrl;;
  browser.storage_remove [siteStoreKey].

Definition storageArea_getByContainer (userContextId : JSId)
    : M (gmap string (StoreVal * string)) :=
  siteConfigs ← browser.storage_get_all;
  ret (map_imap (λ key v,
         if bool_decide (String_of (val_userContextId v) = String_of userContextId)
         then Some (v, JS.replace_anchored "siteContainerMap@@_" "" key)
         else None) siteConfigs).

Definition storageArea_deleteContainer (userContextId : JSId) : M unit :=
  sitesByContainer ← storageArea_getByContainer userContextId;
  browser.storage_remove (map fst (map_to_list sitesByContainer)).

(** [assignManager.deleteContainer] *)
Definition assignManager_deleteContainer (userContextId : JSId) : M unit :=
  detach (storageArea_deleteContainer userContextId).

Definition _closeTabs (userContextId : JSId) (windowId : option Z) : M unit :=
  let cookieStoreId := cookieStoreId userContextId in
  tabs ← match windowId with
         | Some w => browser.tabs_query (mkQuery (Some cookieStoreId) (Some w))
         | None => browser.tabs_query (mkQuery (Some cookieStoreId) None)
         end;
  let tabIds := map tab_id tabs in
  browser.tabs_remove tabIds.

(** [backgroundLogic.deleteContainer] *)
Definition deleteContainer (userContextId : JSId) (removed : bool) : M JSId :=
  _closeTabs userContextId None;;
  (if negb removed
   then browser.contextualIdentities_remove (cookieStoreId userContextId)
   else ret tt);;
  assignManager_deleteContainer userContextId;;
  ret userContextId.

Definition openNewTab (options : OpenNewTabOptions) : M unit :=
  let url := if JS.truthy_opt (on_url options) then on_url options else None in
  let userContextId :=
    match on_userContextId options with
    | Present u => u
    | Absent => IdNum 0
    end in
  let active :=
    match on_nofocus options with
    | Present v => v
    | Absent => Some true
    end in
  let cookieStoreId := cookieStoreId userContextId in
  let url :=
    match url with
    | Some u => if bool_decide (u ∈ NEW_TAB_PAGES) then None else url
    | None => None
    end in
  permissible ← lift (isPermissibleURL url);
  if negb permissible then ret tt
  else
    browser.tabs_create
      (mkCreate url active (Some (default false (on_pinned options)))
                (Some cookieStoreId) None None None).

(** The callback given to [forEach]: what it returns. *)
Definition checkArgs_callback (options : TabsOptions) (methodName argument : string)
    : option string :=
  if negb (has_arg argument options)
  then Some (methodName +:+ " must be called with " +:+ argument +:+ " argument.")
  else None.

(** [forEach] drops what its callback returns. *)
Definition checkArgs (requiredArguments : list string) (options : TabsOptions)
    (methodName : string) : Completion unit :=
  let _ := map (checkArgs_callback options methodName) requiredArguments in
  Normal tt.

Definition getTabs (options : TabsOptions) : M (list Tab) :=
  let requiredArguments := ["cookieStoreId"; "windowId"] in
  lift (checkArgs requiredArguments options "getTabs");;
  let cookieStoreId := field_value (o_cookieStoreId options) in
  let windowId := field_value (o_windowId options) in
  tabs ← browser.tabs_query (mkQuery cookieStoreId windowId);
  let list := map _createTabObject tabs in
  containerState ← identityStateGet cookieStoreId;
  match val_hiddenTabs containerState with
  | Some hiddenTabs => ret (list ++ hiddenTabs)
  | None => ret list
  end.

Definition showTabs (options : ShowTabsOptions) : M unit :=
  if negb (is_present (st_cookieStoreId options))
  then throw "showTabs must be called with cookieStoreId argument."
  else
    let cookieStoreId := field_value (st_cookieStoreId options) in
    let userContextId := getUserContextIdFromCookieStoreId cookieStoreId in
    containerState ← identityStateGet cookieStoreId;
    match val_hiddenTabs containerState with
    | None => throw "TypeError: containerState.hiddenTabs is not iterable"
    | Some hiddenTabs =>
        promise_all hiddenTabs (λ object,
          openNewTab (mkOpenNewTab (Present userContextId) (tab_url object)
                        (Present (Some (default false (st_nofocus options))))
                        (Some (tab_pinned object))));;
        identityStateSet cookieStoreId (clear_hidden containerState)
    end.

Definition unhideContainer (cookieStoreId : option string) : M unit :=
  s ← get_state;
  if negb (bool_decide (cookieStoreId ∈ unhideQueue s))
  then
    modify (with_unhideQueue (λ q, q ++ [cookieStoreId]));;
    showTabs (mkShowTabs (Present cookieStoreId) None);;
    modify (with_unhideQueue (λ q,
      match list_find (λ c, c = cookieStoreId) q with
      | Some (i, _) => take i q ++ drop (S i) q
      | None => take (length q - 1) q
      end))
  else ret tt.

Fixpoint snapshot (containerState : StoreVal) (tabsByContainer : list Tab)
    : Completion StoreVal :=
  match tabsByContainer with
  | [] => Normal containerState
  | tab :: rest =>
      let tabObject := _createTabObject tab in
      match isPermissibleURL (tab_url tab) with
      | Throw e => Throw e
      | Normal false => snapshot containerState rest
      | Normal true =>
          match push_hidden containerState (set_hidden tabObject) with
          | Throw e => Throw e
          | Normal containerState' => snapshot containerState' rest
          end
      end
  end.

Definition storeHidden (cookieStoreId : option string) (windowId : option Z) : M unit :=
  containerState ← identityStateGet cookieStoreId;
  tabsByContainer ← browser.tabs_query (mkQuery cookieStoreId windowId);
  containerState' ← lift (snapshot containerState tabsByContainer);
  identityStateSet cookieStoreId containerState'.

Definition hideTabs (options : TabsOptions) : M unit :=
  let requiredArguments := ["cookieStoreId"; "windowId"] in
  lift (checkArgs requiredArguments options "hideTabs");;
  let cookieStoreId := field_value (o_cookieStoreId options) in
  let windowId := field_value (o_windowId options) in
  let userContextId := getUserContextIdFromCookieStoreId cookieStoreId in
  containerState ← storeHidden cookieStoreId windowId;
  _closeTabs userContextId windowId;;
  ret containerState.

Definition getUserContextIdFromCookieStore (tab : Tab) : JSId :=
  if negb (bool_decide (is_Some (tab_cookieStoreId tab))) then IdFalse
  else getUserContextIdFromCookieStoreId (tab_cookieStoreId tab).

Definition reloadPageInContainer (url : string) (currentUserContextId : JSId)
    (userContextId : JSId) (index : Z) (active : bool) (neverAsk : bool)
    (openerTabId : option Z) : M unit :=
  log (LReload (mkReload url currentUserContextId userContextId index active
                         neverAsk openerTabId));;
  let cookieStoreId := cookieStoreId userContextId in
  loadPage ← browser.extension_getURL "confirm-page.html";
  if neverAsk then
    browser.tabs_create
      (mkCreate (Some url) (Some active) None (Some cookieStoreId) (Some index)
                openerTabId None)
  else
    let confirmUrl :=
      loadPage +:+ "?url=" +:+ encodeURLProperty url +:+ "&cookieStoreId=" +:+ cookieStoreId in
    let currentCookieStoreId :=
      if JSId_truthy currentUserContextId
      then Some (V0.cookieStoreId currentUserContextId)
      else None in
    let confirmUrl :=
      match currentCookieStoreId with
      | Some c => confirmUrl +:+ "&currentCookieStoreId=" +:+ c
      | None => confirmUrl
      end in
    browser.tabs_create
      (mkCreate (Some confirmUrl) (Some active) None currentCookieStoreId (Some index)
                openerTabId None);;
    browser.history_deleteUrl confirmUrl.

Definition register (options : Request) (c : option Canceled) : Canceled :=
  match c with
  | None => mkCanceled {[ req_requestId options ]} {[ req_url options ]}
  | Some c => mkCanceled ({[ req_requestId options ]} ∪ requestIds c)
                         ({[ req_url options ]} ∪ urls c)
  end.

(** [onBeforeRequest], in two parts, as for the other file. *)
Definition candidate (options : Request) : M (option (Tab * StoreVal * JSId)) :=
  if negb (req_frameId options =? 0)%Z || (req_tabId options =? -1)%Z then ret None
  else
    removeContextMenu;;
    '(tab, siteSettings) ← promise_all2 (browser.tabs_get (req_tabId options))
                                         (storageArea_get (Some (req_url options)));
    container ←
      match siteSettings with
      | Some v =>
          try_catch
            (browser.contextualIdentities_get (cookieStoreId (val_userContextId v)))
            false
      | None => ret false
      end;
    match siteSettings with
    | Some v =>
        if val_truthy siteSettings && negb container then
          assignManager_deleteContainer (val_userContextId v);;
          ret None
        else
          let userContextId := getUserContextIdFromCookieStore tab in
          exempted ←
            (if negb (val_truthy siteSettings)
                || strict_eq userContextId (val_userContextId v)
                || tab_incognito tab
             then ret true
             else isExempted (Some (req_url options)) (tab_id tab));
          if (exempted : bool) then ret None
          else ret (Some (tab, v, userContextId))
    | None => ret None
    end.

Definition reroute (options : Request) (tab : Tab) (siteSettings : StoreVal)
    (userContextId : JSId) : M bool :=
  s ← get_state;
  let removeTab :=
    match tab_url tab with
    | Some u => bool_decide (u ∈ NEW_TAB_PAGES)
    | None => false
    end
    || match lastCreatedTab s with
       | Some l => bool_decide (tab_id l = tab_id tab)
       | None => false
       end in
  let openTabId := if removeTab then tab_openerTabId tab else tab_id tab in
  cancelEarly ←
    match canceledRequests s !! tab_id tab with
    | None =>
        modify (with_canceledRequests
                  (<[tab_id tab := register options None]>));;
        browser.setTimeout (tab_id tab) 2000;;
        ret false
    | Some c =>
        let cancelEarly :=
          bool_decide (req_requestId options ∈ requestIds c)
          || bool_decide (req_url options ∈ urls c) in
        modify (with_canceledRequests
                  (<[tab_id tab := register options (Some c)]>));;
        ret cancelEarly
    end;
  if (cancelEarly : bool) then ret true
  else
    reloadPageInContainer (req_url options) userContextId
      (val_userContextId siteSettings) (tab_index tab + 1) (tab_active tab)
      (val_neverAsk siteSettings) openTabId;;
    calculateContextMenu tab;;
    (if removeTab then browser.tabs_remove [tab_id tab] else ret tt);;
    ret true.

Definition onBeforeRequest (options : Request) : M bool :=
  c ← candidate options;
  match c with
  | None => ret false
  | Some (tab, siteSettings, userContextId) =>
      reroute options tab siteSettings userContextId
  end.

End V0.
(** ** The two files side by side *)

Inductive Variant :=
| BackgroundPage      (* background-page/background-page.ts *)
| BackgroundPage1.    (* background-page-1.ts *)

Definition candidate (f : Variant) : Request → M (option (Tab * StoreVal * JSId)) :=
  match f with
  | BackgroundPage => V0.candidate
  | BackgroundPage1 => V1.candidate
  end.

Definition onBeforeRequest (f : Variant) : Request → M bool :=
  match f with
  | BackgroundPage => V0.onBeforeRequest
  | BackgroundPage1 => V1.onBeforeRequest
  end.

(** ** What is observed of a run *)

(** The calls of [reloadPageInContainer] in a log, and the tabs created. *)
Definition reloads (l : list Call) : list Reload :=
  omap (λ c, match c with LReload r => Some r | _ => None end) l.

Definition created (l : list Call) : list CreateProps :=
  omap (λ c, match c with LTabsCreate p => Some p | _ => None end) l.

(** The decision out of a completion: [None] when the handler throws. *)
Definition decision {A} (c : Completion A) : option A :=
  match c with Normal a => Some a | Throw _ => None end.

(** What the second part of [onBeforeRequest] reads and writes. *)
Definition obs (s : State)
    : list Reload * gmap (option Z) Canceled * option Tab * string :=
  (reloads (calls s), canceledRequests s, lastCreatedTab s, extensionURL s).

(** A request whose request id or url is in the ledger entry of its tab. *)
Definition echo (s : State) (r : Request) : Prop :=
  ∃ c, canceledRequests s !! Some (req_tabId r) = Some c
       ∧ (req_requestId r ∈ requestIds c ∨ req_url r ∈ urls c).

(** A redirect chain on the tab [t]: a first request of [t], which finds
    no ledger entry and is a candidate for a reroute, and then echoes of
    it.  Between two requests anything may happen to the browser, as long
    as the ledger is left alone (no timer fires, no request completes). *)
Inductive redirect_chain (f : Variant) (t : Z) : State → State → Prop :=
| chain_first s r x s1 :
    req_tabId r = t →
    canceledRequests s !! Some t = None →
    candidate f r s = (Normal (Some x), s1) →
    redirect_chain f t s (onBeforeRequest f r s).2
| chain_echo s s' r :
    redirect_chain f t s s' →
    req_tabId r = t →
    echo s' r →
    redirect_chain f t s (onBeforeRequest f r s').2
| chain_between s s' s'' :
    redirect_chain f t s s' →
    canceledRequests s'' = canceledRequests s' →
    calls s'' = calls s' →
    redirect_chain f t s s''.

(** A hidden tab whose url has one of the schemes that cannot be
    reopened. *)
Definition internal_scheme (t : Tab) : bool :=
  match tab_url t with
  | Some u =>
      match Url.parse u with
      | Some url =>
          bool_decide (Url.protocol url ∈ ["about:"; "chrome:"; "moz-extension:"])
      | None => false
      end
  | None => false
  end.

(** No list of hidden tabs in the store has such a tab. *)
Definition hidden_ok (s : State) : Prop :=
  ∀ k l, storage s !! k = Some (VState l) →
         Forall (λ t, internal_scheme t = false) l.

(** A tab strip as the browser keeps it: the tabs have ids, no two the
    same, and the pinned tabs come first. *)
Definition strip_ok (strip : list Tab) : Prop :=
  NoDup (tab_id <$> strip)
  ∧ Forall (λ t, is_Some (tab_id t)) strip
  ∧ ∃ n, Forall (λ t, tab_pinned t = true) (take n strip)
         ∧ Forall (λ t, tab_pinned t = false) (drop n strip).

(** A tab that sits in a container. *)
Definition in_container (t : Tab) : Prop :=
  JSId_truthy (V1.getUserContextIdFromCookieStore t) = true.

(** ** Sample states *)

Module Sample.

Definition tab (id : Z) (cookieStoreId url : string) : Tab :=
  mkTab (Some id) 0 (Some 1%Z) true false false (Some url) (Some cookieStoreId) None false.

Definition state (tabs : list Tab) (storage : gmap string StoreVal)
    (identities : list string) : State :=
  mkState tabs storage identities ∅ ∅ None [] "moz-extension://ext/" [].

(** One tab, in container 1; the site a.com is assigned to container 3. *)
Definition assigned : State :=
  state [tab 7 "firefox-container-1" "http://start.org/"]
        {[ "siteContainerMap@@_a.com" := VSite (IdStr "3") false ]}
        ["firefox-container-1"; "firefox-container-3"].

(** A request for a.com, a second request with the same request id, and
    a third one with the same url. *)
Definition first : Request := mkRequest "100" "http://a.com/" 0 7.
Definition same_id : Request := mkRequest "100" "http://a.com/landing" 0 7.
Definition same_url : Request := mkRequest "101" "http://a.com/" 0 7.

End Sample.

Module Sample2.

(** The redirect of the first request to a host with no assignment:
    same request id, another url. *)
Definition redirected : Request := mkRequest "100" "http://www.a.com/" 0 7.

(** One tab outside any container; the site a.com is assigned to
    container 3. *)
Definition default_tab : State :=
  Sample.state [Sample.tab 7 "firefox-default" "http://start.org/"]
               {[ "siteContainerMap@@_a.com" := VSite (IdStr "3") false ]}
               ["firefox-container-3"].

End Sample2.

(** What is compared of the two files on a request: the decision, the
    calls of [reloadPageInContainer] and the ledger. *)
Definition outcome (f : Variant) (r : Request) (s : State)
    : option bool * list Reload * gmap (option Z) Canceled :=
  let '(c, s') := onBeforeRequest f r s in
  (decision c, reloads (calls s'), canceledRequests s').

(** The tab of the request sits in a container, and the assignment of the
    site of the request, if there is one, names a container (its id is
    neither missing, nor empty, nor zero). *)
Definition contained (r : Request) (s : State) : bool :=
  match List.find (λ t, bool_decide (tab_id t = Some (req_tabId r))) (tabs s) with
  | Some tab => JSId_truthy (V1.getUserContextIdFromCookieStore tab)
  | None => true
  end
  && match V1.getSiteStoreKey (Some (req_url r)) with
     | Normal key =>
         match storage s !! key with
         | Some v => JSId_truthy (val_userContextId v)
         | None => true
         end
     | Throw _ => true
     end.



Module Sample3.

(** Three tabs: tab 1 shows example.com in container 3, tab 2 shows
    another site in container 0, tab 3 shows example.com in container 0.
    Nothing is assigned yet. *)
Definition before : State :=
  Sample.state [Sample.tab 1 "firefox-container-3" "http://example.com/";
                Sample.tab 2 "firefox-container-0" "http://other.org/";
                Sample.tab 3 "firefox-container-0" "http://example.com/about"]
               ∅
               ["firefox-container-3"].

(** The user assigns the site of tab 1 to its container. *)
Definition assigned : State :=
  (V1._setOrRemoveAssignment 1 "http://example.com" (IdStr "3") false before).2.

Definition tab2 : Tab := Sample.tab 2 "firefox-container-0" "http://other.org/".

End Sample3.

(** The functions of the two files by the file. *)
Definition deleteContainer (f : Variant) : JSId → bool → M JSId :=
  match f with
  | BackgroundPage => V0.deleteContainer
  | BackgroundPage1 => V1.deleteContainer
  end.

Definition storeHidden (f : Variant) : option string → option Z → M unit :=
  match f with
  | BackgroundPage => V0.storeHidden
  | BackgroundPage1 => V1.storeHidden
  end.

Definition openNewTab (f : Variant) : OpenNewTabOptions → M unit :=
  match f with
  | BackgroundPage => V0.openNewTab
  | BackgroundPage1 => V1.openNewTab
  end.

Definition hideTabs (f : Variant) : TabsOptions → M unit :=
  match f with
  | BackgroundPage => V0.hideTabs
  | BackgroundPage1 => V1.hideTabs
  end.

Definition getTabs (f : Variant) : TabsOptions → M (list Tab) :=
  match f with
  | BackgroundPage => V0.getTabs
  | BackgroundPage1 => V1.getTabs
  end.

Module Sample4.

(** Container 5 with two assigned sites, a tab, and a hidden tab. *)
Definition hidden : Tab :=
  set_hidden (Sample.tab 9 "firefox-container-5" "http://a.com/news").

Definition store : gmap string StoreVal :=
  {[ "siteContainerMap@@_a.com" := VSite (IdStr "5") false;
     "siteContainerMap@@_b.com" := VSite (IdStr "5") true;
     "siteContainerMap@@_c.com" := VSite (IdStr "6") false;
     "identitiesState@@_firefox-container-5" := VState [hidden];
     "containerTabsOpened" := VNum 12 ]}.

Definition state : State :=
  Sample.state [Sample.tab 1 "firefox-container-5" "http://b.com/";
                Sample.tab 2 "firefox-container-6" "http://c.com/"]
               store
               ["firefox-container-5"; "firefox-container-6"].

End Sample4.

Module Sample5.

(** Two tabs in two windows, and an empty store. *)
Definition tab1 : Tab := Sample.tab 1 "firefox-container-1" "http://a.com/".
Definition tab2 : Tab :=
  mkTab (Some 2%Z) 0 (Some 2%Z) true false false (Some "http://b.com/")
        (Some "firefox-default") None false.

Definition state : State := Sample.state [tab1; tab2] ∅ ["firefox-container-1"].

End Sample5.

(** A stored value whose hidden tabs, if it has any, can all be
    reopened. *)
Definition val_ok (v : StoreVal) : Prop :=
  ∀ l, v = VState l → Forall (λ t, internal_scheme t = false) l.

(** The open tabs that [storeHidden] keeps. *)
Definition kept (t : Tab) : bool :=
  JS.truthy_opt (tab_url t) && negb (internal_scheme t).

Module Sample6.

(** Container 1 has three open tabs in window 1, one of them on an
    internal page, and one tab hidden before. *)
Definition hidden : Tab := set_hidden (Sample.tab 4 "firefox-container-1" "http://d.com/").

Definition state : State :=
  Sample.state [Sample.tab 1 "firefox-container-1" "http://a.com/";
                Sample.tab 2 "firefox-container-1" "about:preferences";
                Sample.tab 3 "firefox-container-1" "https://c.com/x"]
               {[ "identitiesState@@_firefox-container-1" := VState [hidden] ]}
               ["firefox-container-1"].

End Sample6.

(** ** Sorting, as a specification

    The key under which [_sortTabsInternal] files a tab, the groups it
    builds, and the tabs in the order of the sorted groups. *)
Definition tab_key (t : Tab) : string :=
  String_of (V1.getUserContextIdFromCookieStoreId (tab_cookieStoreId t)).

Definition group_into (map : list (string * list Tab)) (tabs : list Tab)
    : list (string * list Tab) :=
  foldl (λ m t, V1.map_push (tab_key t) t m) map tabs.

Definition flatten (groups : list (string * list Tab)) : list Tab :=
  concat (map snd groups).

Definition by_container (tabs : list Tab) : list Tab :=
  flatten (V1.sort_entries (group_into [] tabs)).

(** A window all of whose tabs sit in containers. *)
Definition window_ok (strip : list Tab) : Prop :=
  strip_ok strip ∧ Forall in_container strip.

Module Sample7.

Definition tab (id : Z) (pinned : bool) (cookieStoreId : string) : Tab :=
  mkTab (Some id) 0 (Some 1%Z) false pinned false (Some "http://a.com/")
        (Some cookieStoreId) None false.


(** A window of container tabs, three of them pinned. *)
Definition contained : list Tab :=
  [tab 1 true "firefox-container-3"; tab 2 true "firefox-container-2";
   tab 3 true "firefox-container-1"; tab 4 false "firefox-container-2";
   tab 5 false "firefox-container-4"; tab 6 false "firefox-container-1";
   tab 7 false "firefox-container-2"].

End Sample7.

(** A pass works on a block of the strip: the pinned tabs, in front of the
    others, or the unpinned tabs, at the end.  [A] are the tabs before the
    block and the tabs already placed, [x] is a tab of the block that sits
    among them, [B] are the tabs placed after [x], [rest] are the other
    tabs of the block, [suf] come after the block. *)
Definition block (p : bool) (A : list Tab) (body suf : list Tab) : Prop :=
  if p then Forall (λ t, tab_pinned t = true) (A ++ body)
            ∧ Forall (λ t, tab_pinned t = false) suf
  else Forall (λ t, tab_pinned t = false) body ∧ suf = [].

(** The keys of the groups are distinct, no group is empty, and the tabs
    of a group have its key. *)
Definition keyed (gs : list (string * list Tab)) : Prop :=
  NoDup gs.*1 ∧ Forall (λ g, g.2 ≠ [] ∧ Forall (λ t, tab_key t = g.1) g.2) gs.

(** The order of the sorted entries. *)
Definition key_le (a b : string * list Tab) : Prop :=
  (V1.localeCompare a.1 b.1 <=? 0)%Z = true.

(** ** Invariants of computations

    [preserves I m Q]: run from a state where [I] holds, [m] ends, by a
    return or by a throw, in a state where [I] holds, and what it returns
    satisfies [Q]. *)
Definition preserves {A} (I : State → Prop) (m : M A) (Q : A → Prop) : Prop :=
  ∀ s, I s → I (m s).2 ∧ ∀ a, (m s).1 = Normal a → Q a.

(** [framed x s]: what is observed of the state [s] is [x]. *)
Definition framed (x : list Reload * gmap (option Z) Canceled * option Tab * string)
    (s : State) : Prop := obs s = x.

(** ** Definitions for the further properties *)

(** The characters of an encoded url property: letters, digits, and
    [-], [_], [.], [~] and [%]. *)
Definition plain (c : ascii) : bool :=
  JS.is_alpha c || JS.is_digit c || bool_decide (c ∈ ["-"; "_"; "."; "~"; "%"]%char).

(** The value of a hexadecimal digit, of either case. *)
Definition hex_value (c : ascii) : nat :=
  if JS.is_digit c then JS.code c - 48
  else if JS.is_lower c then JS.code c - 87
  else JS.code c - 55.

(** Reads one character of a url property back: a [%] with its two
    digits, or the character itself. *)
Definition decode_one (s : string) : option (ascii * string) :=
  match s with
  | String "%" (String h (String l rest)) =>
      Some (ascii_of_nat (16 * hex_value h + hex_value l), rest)
  | String "%" _ => None
  | String c rest => Some (c, rest)
  | EmptyString => None
  end.

(** What [storageAreaSet] makes of the exemptions of the site [k], given
    the tab ids [ids]. *)
Definition add_exempted (k : string) (ids : list (option Z))
    (m : gmap string (list (option Z))) : gmap string (list (option Z)) :=
  foldl (λ m tabId,
           match tabId with
           | Some i => <[k := default [] (m !! k) ++ [Some i]]> m
           | None => m
           end) m ids.

(** The open tabs that the assignment of the site [k] to the container
    [u] exempts: the tabs on the site that sit elsewhere. *)
Definition on_site_elsewhere (k u : string) (t : Tab) : bool :=
  match V1.getSiteStoreKey (tab_url t) with
  | Normal k' =>
      bool_decide (k' = k)
      && negb (strict_eq (V1.getUserContextIdFromCookieStore t) (IdStr u))
  | Throw _ => false
  end.

(** A tab whose url, if it has one, parses. *)
Definition parses (t : Tab) : Prop :=
  ∃ b, V1.isPermissibleURL (tab_url t) = Normal b.


(** The hidden tabs of a container: none when the store has no state for
    it. *)
Definition hiddenTabs_of (s : State) (cookieStoreId : string) : StoreVal :=
  default _createIdentityState (storage s !! getContainerStoreKey (Some cookieStoreId)).

Module Sample8.

(** Container 1 has a hidden tab whose url does not parse. *)
Definition state : State :=
  Sample.state []
    {[ "identitiesState@@_firefox-container-1" :=
         VState [set_hidden (Sample.tab 4 "firefox-container-1" "not a url")] ]}
    ["firefox-container-1"].

End Sample8.

Module Sample9.

(** The site a.com is assigned to container 3, and the browser has no
    container 3 any more. *)
Definition state : State :=
  Sample.state [Sample.tab 7 "firefox-container-1" "http://start.org/"]
               {[ "siteContainerMap@@_a.com" := VSite (IdStr "3") false ]}
               ["firefox-container-1"].

End Sample9.

(** Whether [onBeforeRequest] closes the tab of a rerouted request: the
    tab shows a new-tab page, or it is the tab created last. *)
Definition removes_tab (s : State) (tab : Tab) : bool :=
  (JS.truthy_opt (tab_url tab)
   && bool_decide (default EmptyString (tab_url tab) ∈ NEW_TAB_PAGES))
  || match lastCreatedTab s with
     | Some l => bool_decide (tab_id l = tab_id tab)
     | None => false
     end.

(** The order in which [sortTabs] leaves two tabs of a window: a matter
    of the container ids alone, and only between two pinned or two
    unpinned tabs. *)
Definition container_le (a b : Tab) : Prop :=
  tab_pinned a = tab_pinned b →
  (V1.localeCompare (tab_key a) (tab_key b) <=? 0)%Z = true.

(** The tabs of a strip that have the key [k]. *)
Definition with_key (k : string) (strip : list Tab) : list Tab :=
  List.filter (λ t, bool_decide (tab_key t = k)) strip.

(** ** Messages from other extensions (background-page-1.ts)

    The listener of [runtime.onMessageExternal], with its table
    [externalExtensionAllowed] of the extensions it has checked, and the
    listeners of [management.onInstalled] and [management.onUninstalled].
    The table is keyed by extension ids, none of which names a property
    of [Object.prototype].  [management] is what the browser knows of the
    installed extensions: the [permissions] of an extension, which may be
    missing from its info; [management.get] rejects for an id the browser
    does not know.  The calls of the management API are not logged. *)
Record External := mkExternal {
  externalExtensionAllowed : gset string;
  background : State
}.

Definition management_get (management : gmap string (option (list string))) (id : string)
    : Completion (option (list string)) :=
  match management !! id with
  | Some extensionInfo => Normal extensionInfo
  | None => Throw "No such addon"
  end.

(** [message.method], [message.url] and [sender.id]. *)
Definition onMessageExternal (management : gmap string (option (list string)))
    (method : string) (url : option string) (sender : option string) (e : External)
    : Completion (option StoreVal) * External :=
  let checked : Completion (gset string) :=
    if JS.truthy_opt sender
       && negb (bool_decide (default EmptyString sender ∈ externalExtensionAllowed e))
    then
      match management_get management (default EmptyString sender) with
      | Throw msg => Throw msg
      | Normal None => Throw "Could not fetch extensionInfo"
      | Normal (Some permissions) =>
          if negb (bool_decide ("contextualIdentities" ∈ permissions))
          then Throw "Missing contextualIdentities permission"
          else Normal ({[ default EmptyString sender ]} ∪ externalExtensionAllowed e)
      end
    else Normal (externalExtensionAllowed e) in
  match checked with
  | Throw msg => (Throw msg, e)
  | Normal allowed =>
      if bool_decide (method = "getAssignment") then
        match url with
        | None => (Throw "Missing message.url", mkExternal allowed (background e))
        | Some _ =>
            let '(response, s) := V1.storageAreaGet url (background e) in
            (response, mkExternal allowed s)
        end
      else (Throw "Unknown message.method", mkExternal allowed (background e))
  end.

(** The listeners of [management.onInstalled] and
    [management.onUninstalled] do the same. *)
Definition onInstalled (id : string) (e : External) : External :=
  if bool_decide (id ∈ externalExtensionAllowed e)
  then mkExternal (externalExtensionAllowed e ∖ {[ id ]}) (background e)
  else e.

(** ** The assignment of a tab (background-page-1.ts) *)

Definition isTabPermittedAssign (tab : Tab) : Completion bool :=
  if negb (JS.truthy_opt (tab_url tab)) then Normal false
  else match Url.parse (default EmptyString (tab_url tab)) with
       | None => Throw "TypeError: invalid URL"
       | Some url =>
           if bool_decide (Url.protocol url = "about:")
              || bool_decide (Url.protocol url = "moz-extension:")
              || tab_incognito tab
           then Normal false
           else Normal true
       end.

(** [None] is the answer [false]: no assignment is permitted. *)
Definition _getAssignment (tab : Tab) : M (option (option StoreVal)) :=
  let cookieStore := V1.getUserContextIdFromCookieStore tab in
  if JSId_truthy cookieStore then
    permitted ← lift (isTabPermittedAssign tab);
    if (permitted : bool) then
      siteSettings ← V1.storageAreaGet (tab_url tab);
      ret (Some siteSettings)
    else ret None
  else ret None.

Module Sample10.

(** One extension with the permission, one without. *)
Definition management : gmap string (option (list string)) :=
  {[ "good@example.org" := Some ["tabs"; "contextualIdentities"];
     "bad@example.org" := Some ["tabs"] ]}.

Definition fresh : External := mkExternal ∅ Sample.assigned.

(** The extension [bad@example.org] was allowed when it had the
    permission. *)
Definition cached : External := mkExternal {[ "bad@example.org" ]} Sample.assigned.

End Sample10.

(** * Properties *)

(** ** Strings *)

Lemma prefix_app p s : String.prefix p (p +:+ s) = true.
Proof.
  induction p as [|c p IH]; simpl.
  - by destruct s.
  - destruct (ascii_dec c c); [apply IH | done].
Qed.

Lemma drop_app p s : JS.drop (String.length p) (p +:+ s) = s.
Proof. induction p as [|c p IH]; simpl; [by destruct s | apply IH]. Qed.

Lemma string_length_app p s : String.length (p +:+ s) = String.length p + String.length s.
Proof. induction p as [|c p IH]; simpl; [done | by rewrite IH]. Qed.

Lemma replace_prefix p r s : JS.replace p r (p +:+ s) = r +:+ s.
Proof.
  destruct s as [|c s], p as [|d p]; simpl; try done.
  - destruct (ascii_dec d d); [|done].
    by rewrite (prefix_app p ""), (drop_app p "").
  - destruct (ascii_dec d d); [|done].
    by rewrite (prefix_app p (String c s)), (drop_app p (String c s)).
Qed.

Lemma app_neq p s : p ≠ EmptyString → p +:+ s ≠ s.
Proof.
  intros Hp Heq. apply (f_equal String.length) in Heq.
  rewrite string_length_app in Heq. destruct p; [done | simpl in Heq; lia].
Qed.

(** ** C7: container ids and cookie-store ids *)

(** C7. For every container id [id], prepending the prefix and stripping it
    again gives [id] back: [getUserContextIdFromCookieStoreId
    (getCookieStoreId id) = id], in both files. *)
Theorem cookie_store_id_roundtrip (id : string) :
  V1.getUserContextIdFromCookieStoreId (Some (V1.getCookieStoreId (IdStr id))) = IdStr id
  ∧ V0.getUserContextIdFromCookieStoreId (Some (V0.cookieStoreId (IdStr id))) = IdStr id.
Proof.
  unfold V1.getUserContextIdFromCookieStoreId, V0.getUserContextIdFromCookieStoreId,
    V1.getCookieStoreId, V0.cookieStoreId.
  cbn [String_of].
  rewrite replace_prefix.
  change ("" +:+ id) with id.
  assert (Hne : id ≠ "firefox-container-" +:+ id).
  { intros H. by apply (app_neq "firefox-container-" id). }
  rewrite (bool_decide_eq_true_2 _ Hne).
  split; reflexivity.
Qed.

(** ** C10 and C4: site keys *)

(** C10. The site key joins the host name and a port that is not the
    default one without a separator: [http://example.com:8080] and
    [http://example.com8080] have different host names and the same site
    key, so that an assignment stored for one is the assignment read for
    the other. *)
Theorem site_key_collision :
  ∃ u1 u2 h1 h2 key,
    Url.hostname <$> Url.parse u1 = Some h1
    ∧ Url.hostname <$> Url.parse u2 = Some h2
    ∧ h1 ≠ h2
    ∧ V1.getSiteStoreKey (Some u1) = Normal key
    ∧ V1.getSiteStoreKey (Some u2) = Normal key
    ∧ V0.getSiteStoreKey (Some u1) = Normal key
    ∧ V0.getSiteStoreKey (Some u2) = Normal key
    ∧ (∀ s, (V1.storageAreaGet (Some u1) s).1 = (V1.storageAreaGet (Some u2) s).1)
    ∧ (∀ s, (V0.storageArea_get (Some u1) s).1 = (V0.storageArea_get (Some u2) s).1).
Proof.
  exists "http://example.com:8080", "http://example.com8080",
    "example.com", "example.com8080", "siteContainerMap@@_example.com8080".
  repeat split; try done.
Qed.

(** ** Invariants of computations *)

Section Preserves.

Context (I : State → Prop).

Lemma preserves_weaken {A} (m : M A) (Q Q' : A → Prop) :
  preserves I m Q → (∀ a, Q a → Q' a) → preserves I m Q'.
Proof. intros Hm HQ s Hs. destruct (Hm s Hs) as [? ?]. split; [done | eauto]. Qed.

Lemma preserves_ret {A} (a : A) (Q : A → Prop) : Q a → preserves I (ret a) Q.
Proof. intros HQ s Hs. split; [done|]. intros a' [= <-]. done. Qed.

Lemma preserves_throw {A} msg (Q : A → Prop) : preserves I (throw msg) Q.
Proof. intros s Hs. split; [done|]. intros a' [=]. Qed.

Lemma preserves_lift {A} (c : Completion A) (Q : A → Prop) :
  (∀ a, c = Normal a → Q a) → preserves I (lift c) Q.
Proof. intros HQ s Hs. split; [done | auto]. Qed.

Lemma preserves_get_state : preserves I get_state I.
Proof. intros s Hs. split; [done|]. intros a' [= <-]. done. Qed.

Lemma preserves_modify f (Q : unit → Prop) :
  (∀ s, I s → I (f s)) → Q tt → preserves I (modify f) Q.
Proof. intros Hf HQ s Hs. split; [by apply Hf|]. by intros []. Qed.

Lemma preserves_bind {A B} (m : M A) (k : A → M B) (Q : A → Prop) (R : B → Prop) :
  preserves I m Q → (∀ a, Q a → preserves I (k a) R) → preserves I (m ≫= k) R.
Proof.
  intros Hm Hk s Hs. unfold mbind, M_bind, bind.
  destruct (Hm s Hs) as [HI HQ].
  destruct (m s) as [[a|e] s']; simpl in *.
  - by apply Hk; [apply HQ|].
  - split; [done|]. intros a' [=].
Qed.

Lemma preserves_detach {A} (m : M A) (Q : A → Prop) (R : unit → Prop) :
  preserves I m Q → R tt → preserves I (detach m) R.
Proof.
  intros Hm HR s Hs. destruct (Hm s Hs) as [HI _]. split; [done|]. by intros [].
Qed.

Lemma preserves_try_catch {A} (m : M A) (d : A) (Q : A → Prop) :
  preserves I m Q → Q d → preserves I (try_catch m d) Q.
Proof.
  intros Hm Hd s Hs. unfold try_catch. destruct (Hm s Hs) as [HI HQ].
  destruct (m s) as [[a|e] s']; simpl in *; (split; [done|]); intros a' [= <-]; auto.
Qed.

Lemma preserves_promise_all2 {A B} (m1 : M A) (m2 : M B) (Q1 : A → Prop) (Q2 : B → Prop) :
  preserves I m1 Q1 → preserves I m2 Q2 →
  preserves I (promise_all2 m1 m2) (λ p, Q1 p.1 ∧ Q2 p.2).
Proof.
  intros H1 H2 s Hs. unfold promise_all2.
  destruct (H1 s Hs) as [HI1 HQ1].
  destruct (m1 s) as [r1 s1]; simpl in *.
  destruct (H2 s1 HI1) as [HI2 HQ2].
  destruct (m2 s1) as [r2 s2]; simpl in *.
  destruct r1 as [a|e], r2 as [b|e']; simpl; (split; [done|]); intros p [= <-]; auto.
Qed.

Lemma preserves_promise_all2_any {A B} (m1 : M A) (m2 : M B)
    (Q1 : A → Prop) (Q2 : B → Prop) :
  preserves I m1 Q1 → preserves I m2 Q2 →
  preserves I (promise_all2 m1 m2) (λ _, True).
Proof.
  intros H1 H2. eapply preserves_weaken; [by apply preserves_promise_all2|done].
Qed.

Lemma preserves_for_each {A} (l : list A) (body : A → M unit) (Q : unit → Prop) :
  (∀ x, x ∈ l → preserves I (body x) (λ _, True)) → Q tt →
  preserves I (for_each l body) Q.
Proof.
  intros Hb HQ. induction l as [|x l IH]; simpl.
  - by apply preserves_ret.
  - eapply preserves_bind; [apply Hb; left|].
    intros _ _. apply IH. intros y Hy. apply Hb. by right.
Qed.

Lemma preserves_promise_all {A} (l : list A) (body : A → M unit) (Q : unit → Prop) :
  (∀ x, x ∈ l → preserves I (body x) (λ _, True)) → Q tt →
  preserves I (promise_all l body) Q.
Proof.
  intros Hb HQ. induction l as [|x l IH]; simpl.
  - by apply preserves_ret.
  - intros s Hs.
    destruct (Hb x (list_elem_of_here _ _) s Hs) as [HI1 _].
    destruct (body x s) as [r s1]; simpl in *.
    assert (Hl : ∀ y, y ∈ l → preserves I (body y) (λ _, True)).
    { intros y Hy. apply Hb. by right. }
    destruct (IH Hl s1 HI1) as [HI2 _].
    destruct (promise_all l body s1) as [r' s2]; simpl in *.
    split; [done|]. by intros [].
Qed.

End Preserves.

(** A step of an invariant proof: the sequencing rules first, then a case
    split on what the code branches on. *)
Ltac preserve_step :=
  match goal with
  | |- preserves _ (_ ≫= _) _ => eapply preserves_bind; [|intros ? ?]
  | |- preserves _ (ret _) _ => apply preserves_ret
  | |- preserves _ (throw _) _ => apply preserves_throw
  | |- preserves _ (lift _) _ => apply preserves_lift; intros ? ?
  | |- preserves _ (detach _) _ => eapply preserves_detach
  | |- preserves _ (try_catch _ _) _ => eapply preserves_try_catch
  | |- preserves _ (promise_all2 _ _) _ =>
      first [eapply preserves_promise_all2 | eapply preserves_promise_all2_any]
  | |- preserves _ (for_each _ _) _ => eapply preserves_for_each; [intros ? ?|]
  | |- preserves _ (promise_all _ _) _ => eapply preserves_promise_all; [intros ? ?|]
  | |- preserves _ (match ?x with _ => _ end) _ => destruct x eqn:?
  | |- preserves _ (let '(_, _) := ?x in _) _ => destruct x eqn:?
  end.

(** ** The frame of the navigation decision

    Apart from the second part of [onBeforeRequest], nothing that runs on
    a navigation calls [reloadPageInContainer] or writes the ledger. *)

Create HintDb frame.

Lemma reloads_app l l' : reloads (l ++ l') = reloads l ++ reloads l'.
Proof. unfold reloads. apply omap_app. Qed.

Lemma created_app l l' : created (l ++ l') = created l ++ created l'.
Proof. unfold created. apply omap_app. Qed.

Lemma frame_log x c :
  reloads [c] = [] → preserves (framed x) (log c) (λ _, True).
Proof.
  intros Hc. apply preserves_modify; [|done].
  intros s Hs. unfold framed, obs in *. simpl.
  by rewrite reloads_app, Hc, app_nil_r.
Qed.

Lemma frame_tabs x f : preserves (framed x) (modify (with_tabs f)) (λ _, True).
Proof. by apply preserves_modify. Qed.
Lemma frame_storage x f : preserves (framed x) (modify (with_storage f)) (λ _, True).
Proof. by apply preserves_modify. Qed.
Lemma frame_identities x f : preserves (framed x) (modify (with_identities f)) (λ _, True).
Proof. by apply preserves_modify. Qed.
Lemma frame_exemptedTabs x f : preserves (framed x) (modify (with_exemptedTabs f)) (λ _, True).
Proof. by apply preserves_modify. Qed.
Lemma frame_unhideQueue x f : preserves (framed x) (modify (with_unhideQueue f)) (λ _, True).
Proof. by apply preserves_modify. Qed.
Lemma frame_get_state x : preserves (framed x) get_state (λ _, True).
Proof. eapply preserves_weaken; [apply preserves_get_state | done]. Qed.

#[local] Hint Resolve frame_log frame_tabs frame_storage frame_identities
  frame_exemptedTabs frame_unhideQueue frame_get_state : frame.

(** An open postcondition is closed with the trivial one. *)
Ltac trivial_post :=
  match goal with
  | |- @preserves ?A _ _ ?Q => is_evar Q; unify Q (λ _ : A, True)
  end.

(** Closes a frame goal for a function made of the calls above. *)
Ltac frame_auto :=
  repeat first
    [ trivial_post
    | preserve_step
    | match goal with
      | |- preserves (framed _) (log _) _ => apply frame_log; reflexivity
      end
    | solve [eauto with frame]
    | exact I ].

Lemma frame_tabs_get x id : preserves (framed x) (browser.tabs_get id) (λ _, True).
Proof. unfold browser.tabs_get. frame_auto. Qed.
Lemma frame_tabs_query x q : preserves (framed x) (browser.tabs_query q) (λ _, True).
Proof. unfold browser.tabs_query. frame_auto. Qed.
Lemma frame_tabs_remove x l : preserves (framed x) (browser.tabs_remove l) (λ _, True).
Proof. unfold browser.tabs_remove. frame_auto. Qed.
Lemma frame_storage_get x k : preserves (framed x) (browser.storage_get k) (λ _, True).
Proof. unfold browser.storage_get. frame_auto. Qed.
Lemma frame_storage_get_all x : preserves (framed x) browser.storage_get_all (λ _, True).
Proof. unfold browser.storage_get_all. frame_auto. Qed.
Lemma frame_storage_set x k v : preserves (framed x) (browser.storage_set k v) (λ _, True).
Proof. unfold browser.storage_set. frame_auto. Qed.
Lemma frame_storage_remove x l : preserves (framed x) (browser.storage_remove l) (λ _, True).
Proof. unfold browser.storage_remove. frame_auto. Qed.
Lemma frame_identities_get x c :
  preserves (framed x) (browser.contextualIdentities_get c) (λ _, True).
Proof. unfold browser.contextualIdentities_get. frame_auto. Qed.
Lemma frame_identities_remove x c :
  preserves (framed x) (browser.contextualIdentities_remove c) (λ _, True).
Proof. unfold browser.contextualIdentities_remove. frame_auto. Qed.
Lemma frame_removeContextMenu x : preserves (framed x) removeContextMenu (λ _, True).
Proof. unfold removeContextMenu. frame_auto. Qed.

#[local] Hint Resolve frame_tabs_get frame_tabs_query frame_tabs_remove frame_storage_get
  frame_storage_get_all frame_storage_set frame_storage_remove frame_identities_get
  frame_identities_remove frame_removeContextMenu : frame.

Lemma frame_V1_deleteContainer x u b : preserves (framed x) (V1.deleteContainer u b) (λ _, True).
Proof.
  unfold V1.deleteContainer, V1._closeTabs, V1.storageAreaDeleteContainer, V1.getByContainer.
  frame_auto.
Qed.

Lemma frame_V0_deleteContainer x u :
  preserves (framed x) (V0.assignManager_deleteContainer u) (λ _, True).
Proof.
  unfold V0.assignManager_deleteContainer, V0.storageArea_deleteContainer,
    V0.storageArea_getByContainer.
  frame_auto.
Qed.

Lemma frame_V1_candidate x r : preserves (framed x) (V1.candidate r) (λ _, True).
Proof.
  unfold V1.candidate, V1.storageAreaGet, V1.isExempted.
  frame_auto; apply frame_V1_deleteContainer.
Qed.

Lemma frame_V0_candidate x r : preserves (framed x) (V0.candidate r) (λ _, True).
Proof.
  unfold V0.candidate, V0.storageArea_get, V0.isExempted.
  frame_auto; apply frame_V0_deleteContainer.
Qed.

(** ** What the first part of [onBeforeRequest] answers *)

(** Unfolds the sequencing of a run. *)
Ltac run_unfold :=
  unfold mbind, M_bind, bind, ret, throw, lift, promise_all2, try_catch, detach,
    get_state, log, modify in *.

Lemma find_tab_id id l t :
  List.find (λ t, bool_decide (tab_id t = Some id)) l = Some t → tab_id t = Some id.
Proof. intros H. apply find_some in H as [_ H]. by apply bool_decide_eq_true in H. Qed.

(** Case analysis on everything a run branches on. *)
Ltac run_cases := repeat (case_match; simplify_eq/=).

Lemma V1_candidate_tab r s tab v u s1 :
  V1.candidate r s = (Normal (Some (tab, v, u)), s1) → tab_id tab = Some (req_tabId r).
Proof.
  unfold V1.candidate, V1.storageAreaGet, V1.isExempted, browser.tabs_get,
    removeContextMenu, browser.storage_get, browser.contextualIdentities_get.
  run_unfold. intros H. run_cases;
    match goal with
    | H : List.find _ _ = Some _ |- _ => apply find_tab_id in H; congruence
    end.
Qed.

Lemma V0_candidate_tab r s tab v u s1 :
  V0.candidate r s = (Normal (Some (tab, v, u)), s1) → tab_id tab = Some (req_tabId r).
Proof.
  unfold V0.candidate, V0.storageArea_get, V0.isExempted, browser.tabs_get,
    removeContextMenu, browser.storage_get, browser.contextualIdentities_get.
  run_unfold. intros H. run_cases;
    match goal with
    | H : List.find _ _ = Some _ |- _ => apply find_tab_id in H; congruence
    end.
Qed.

(** ** The second part of [onBeforeRequest] and the ledger *)

Lemma V1_reroute_echo r tab v u s i c :
  tab_id tab = Some i →
  canceledRequests s !! Some i = Some c →
  req_requestId r ∈ requestIds c ∨ req_url r ∈ urls c →
  V1.reroute r tab v u s
  = (Normal true, with_canceledRequests (<[Some i := V1.register r (Some c)]>) s).
Proof.
  intros Hi Hc Hhit. unfold V1.reroute. run_unfold. rewrite Hi, Hc. simpl.
  assert (bool_decide (req_requestId r ∈ requestIds c)
          || bool_decide (req_url r ∈ urls c) = true) as ->; [|done].
  destruct Hhit as [H|H]; rewrite (bool_decide_eq_true_2 _ H); [done|].
  apply orb_true_r.
Qed.

Lemma V0_reroute_echo r tab v u s i c :
  tab_id tab = Some i →
  canceledRequests s !! Some i = Some c →
  req_requestId r ∈ requestIds c ∨ req_url r ∈ urls c →
  V0.reroute r tab v u s
  = (Normal true, with_canceledRequests (<[Some i := V0.register r (Some c)]>) s).
Proof.
  intros Hi Hc Hhit. unfold V0.reroute. run_unfold. rewrite Hi, Hc. simpl.
  assert (bool_decide (req_requestId r ∈ requestIds c)
          || bool_decide (req_url r ∈ urls c) = true) as ->; [|done].
  destruct Hhit as [H|H]; rewrite (bool_decide_eq_true_2 _ H); [done|].
  apply orb_true_r.
Qed.

(** A first request of a tab is rerouted: one call, and the tab gets its
    ledger entry. *)
Lemma V1_reroute_fresh r tab v u s i :
  tab_id tab = Some i →
  canceledRequests s !! Some i = None →
  let s' := (V1.reroute r tab v u s).2 in
  length (reloads (calls s')) = S (length (reloads (calls s)))
  ∧ canceledRequests s' = <[Some i := V1.register r None]> (canceledRequests s).
Proof.
  intros Hi Hc. unfold V1.reroute, V1.reloadPageInContainer, browser.setTimeout,
    browser.tabs_create, browser.history_deleteUrl, browser.extension_getURL,
    browser.tabs_remove, calculateContextMenu.
  run_unfold. rewrite Hi, Hc. simpl.
  run_cases; rewrite ?reloads_app, ?length_app; simpl; (split; [lia|done]).
Qed.

Lemma V0_reroute_fresh r tab v u s i :
  tab_id tab = Some i →
  canceledRequests s !! Some i = None →
  let s' := (V0.reroute r tab v u s).2 in
  length (reloads (calls s')) = S (length (reloads (calls s)))
  ∧ canceledRequests s' = <[Some i := V0.register r None]> (canceledRequests s).
Proof.
  intros Hi Hc. unfold V0.reroute, V0.reloadPageInContainer, browser.setTimeout,
    browser.tabs_create, browser.history_deleteUrl, browser.extension_getURL,
    browser.tabs_remove, calculateContextMenu.
  run_unfold. rewrite Hi, Hc. simpl.
  run_cases; rewrite ?reloads_app, ?length_app; simpl; (split; [lia|done]).
Qed.

Lemma candidate_tab f r s tab v u s1 :
  candidate f r s = (Normal (Some (tab, v, u)), s1) → tab_id tab = Some (req_tabId r).
Proof. destruct f; [apply V0_candidate_tab | apply V1_candidate_tab]. Qed.

Lemma candidate_frame f r s :
  reloads (calls (candidate f r s).2) = reloads (calls s)
  ∧ canceledRequests (candidate f r s).2 = canceledRequests s.
Proof.
  assert (framed (obs s) (candidate f r s).2) as H.
  { destruct f; [apply frame_V0_candidate | apply frame_V1_candidate]; done. }
  unfold framed, obs in H. by simplify_eq.
Qed.

(** A request that finds its request id or url in the ledger entry of its
    tab calls [reloadPageInContainer] on no path, and is canceled when it
    gets as far as the ledger. *)
Lemma echo_no_reroute f r s :
  echo s r →
  reloads (calls (onBeforeRequest f r s).2) = reloads (calls s)
  ∧ (∀ x s1, candidate f r s = (Normal (Some x), s1) →
             (onBeforeRequest f r s).1 = Normal true).
Proof.
  intros (c & Hc & Hhit).
  pose proof (candidate_frame f r s) as [Hr Hl].
  pose proof (candidate_tab f r s) as Htab.
  assert (onBeforeRequest f r s
          = (candidate f r ≫= λ c, match c with
                                   | None => ret false
                                   | Some (tab, v, u) =>
                                       match f with
                                       | BackgroundPage => V0.reroute r tab v u
                                       | BackgroundPage1 => V1.reroute r tab v u
                                       end
                                   end) s) as ->.
  { destruct f; reflexivity. }
  unfold mbind, M_bind, bind.
  destruct (candidate f r s) as [[[[[tab v] u]|]|e] s1] eqn:Hcand; simpl in *.
  - specialize (Htab _ _ _ _ eq_refl). rewrite <- Hl in Hc.
    destruct f.
    + rewrite (V0_reroute_echo r tab v u s1 _ c Htab Hc Hhit). simpl. split; [done|]. done.
    + rewrite (V1_reroute_echo r tab v u s1 _ c Htab Hc Hhit). simpl. split; [done|]. done.
  - split; [done|]. intros ? ? [=].
  - split; [done|]. intros ? ? [=].
Qed.

(** The first request of a tab: one call of [reloadPageInContainer]. *)
Lemma first_one_reroute f r s x s1 :
  canceledRequests s !! Some (req_tabId r) = None →
  candidate f r s = (Normal (Some x), s1) →
  length (reloads (calls (onBeforeRequest f r s).2)) = S (length (reloads (calls s))).
Proof.
  intros Hc Hcand.
  pose proof (candidate_frame f r s) as [Hr Hl].
  destruct x as [[tab v] u].
  pose proof (candidate_tab f r s _ _ _ _ Hcand) as Htab.
  rewrite Hcand in Hr, Hl. simpl in Hr, Hl. rewrite <- Hl in Hc.
  destruct f; unfold onBeforeRequest, V0.onBeforeRequest, V1.onBeforeRequest, mbind, M_bind, bind;
    simpl in Hcand; rewrite Hcand.
  - destruct (V0_reroute_fresh r tab v u s1 _ Htab Hc) as [H _]. by rewrite H, Hr.
  - destruct (V1_reroute_fresh r tab v u s1 _ Htab Hc) as [H _]. by rewrite H, Hr.
Qed.

(** ** C1: one reroute for a redirect chain *)

(** C1. Once a first request of the tab [t] has been canceled and recorded
    in the ledger, a later request of [t] whose request id or url is
    recorded for [t] calls [reloadPageInContainer] no second time, and is
    canceled at once when it reaches the ledger (it is itself a candidate
    for a reroute); the whole chain makes exactly one call of
    [reloadPageInContainer].  In both files. *)
Theorem redirect_chain_one_reroute (f : Variant) (t : Z) (s s' : State) :
  redirect_chain f t s s' →
  length (reloads (calls s')) = S (length (reloads (calls s)))
  ∧ ∀ r, req_tabId r = t → echo s' r →
      reloads (calls (onBeforeRequest f r s').2) = reloads (calls s')
      ∧ (∀ x s1, candidate f r s' = (Normal (Some x), s1) →
                 (onBeforeRequest f r s').1 = Normal true).
Proof.
  intros Hchain. split.
  - induction Hchain as [s r x s1 Ht Hc Hcand | s s' r Hchain IH Ht Hecho
                        | s s' s'' Hchain IH Hl Hcalls].
    + subst t. by eapply first_one_reroute.
    + destruct (echo_no_reroute f r s' Hecho) as [-> _]. exact IH.
    + by rewrite Hcalls.
  - intros r _ Hecho. by apply echo_no_reroute.
Qed.

Lemma redirect_chain_one_reroute_witness :
  let s := Sample.assigned in
  let s' := (onBeforeRequest BackgroundPage1 Sample.same_url
              (onBeforeRequest BackgroundPage1 Sample.same_id
                (onBeforeRequest BackgroundPage1 Sample.first s).2).2).2 in
  length (reloads (calls s')) = S (length (reloads (calls s)))
  ∧ ∀ r, req_tabId r = 7%Z → echo s' r →
      reloads (calls (onBeforeRequest BackgroundPage1 r s').2) = reloads (calls s')
      ∧ (∀ x s1, candidate BackgroundPage1 r s' = (Normal (Some x), s1) →
                 (onBeforeRequest BackgroundPage1 r s').1 = Normal true).
Proof.
  intros s s'.
  apply (redirect_chain_one_reroute BackgroundPage1 7 s s').
  apply (chain_echo BackgroundPage1 7 s _ Sample.same_url).
  - apply (chain_echo BackgroundPage1 7 s _ Sample.same_id).
    + eapply (chain_first BackgroundPage1 7 s Sample.first).
      * reflexivity.
      * vm_compute. reflexivity.
      * vm_compute. reflexivity.
    + reflexivity.
    + eexists. split; [vm_compute; reflexivity|].
      left. apply (bool_decide_unpack _). vm_compute. exact I.
  - reflexivity.
  - eexists. split; [vm_compute; reflexivity|].
    right. apply (bool_decide_unpack _). vm_compute. exact I.
Defined.

(** As it is worded, C1 asks that every later request of the tab with a
    recorded request id is canceled.  The redirect of a canceled request
    to a host without assignment has the recorded request id, and is let
    through by the checks that come before the ledger. *)
Lemma redirect_echo_let_through :
  ¬ (∀ f t s s' r,
       redirect_chain f t s s' → req_tabId r = t → echo s' r →
       (onBeforeRequest f r s').1 = Normal true).
Proof.
  intros H.
  specialize (H BackgroundPage1 7%Z Sample.assigned
                (onBeforeRequest BackgroundPage1 Sample.first Sample.assigned).2
                Sample2.redirected).
  assert (Hgoal : (onBeforeRequest BackgroundPage1 Sample2.redirected
                     (onBeforeRequest BackgroundPage1 Sample.first Sample.assigned).2).1
                  = Normal false)
    by (vm_compute; reflexivity).
  rewrite H in Hgoal; [discriminate| | reflexivity |].
  - eapply (chain_first BackgroundPage1 7 _ Sample.first); [reflexivity | |];
      vm_compute; reflexivity.
  - eexists. split; [vm_compute; reflexivity|].
    left. apply (bool_decide_unpack _). vm_compute. exact I.
Qed.

(** ** C8: the two files on a navigation *)

Lemma getSiteStoreKey_agree u :
  JS.truthy u = true → V0.getSiteStoreKey (Some u) = V1.getSiteStoreKey (Some u).
Proof. intros H. unfold V0.getSiteStoreKey, V1.getSiteStoreKey. simpl. by rewrite H. Qed.

Lemma in_container_agree tab :
  in_container tab →
  V0.getUserContextIdFromCookieStore tab = V1.getUserContextIdFromCookieStore tab.
Proof.
  unfold in_container, V0.getUserContextIdFromCookieStore, V1.getUserContextIdFromCookieStore,
    V0.getUserContextIdFromCookieStoreId, V1.getUserContextIdFromCookieStoreId.
  destruct (tab_cookieStoreId tab) as [c|]; simpl; [|done].
  destruct (JS.truthy c); simpl; [|done].
  by case_bool_decide.
Qed.

Lemma candidate_agree r s :
  (∀ tab, List.find (λ t, bool_decide (tab_id t = Some (req_tabId r))) (tabs s) = Some tab →
          in_container tab) →
  decision (V0.candidate r s).1 = decision (V1.candidate r s).1.
Proof.
  intros Hin.
  unfold V0.candidate, V1.candidate, V0.storageArea_get, V1.storageAreaGet.
  destruct (negb (req_frameId r =? 0)%Z || (req_tabId r =? -1)%Z); [done|].
  destruct (JS.truthy (req_url r)) eqn:Hu.
  2:{ destruct (req_url r); [|done]. simpl. run_unfold. simpl.
      unfold browser.tabs_get. run_unfold. simpl.
      by destruct (List.find _ (tabs s)). }
  cbn [JS.truthy_opt negb]. rewrite Hu. cbn [negb]. rewrite (getSiteStoreKey_agree _ Hu).
  unfold V0.isExempted, V1.isExempted.
  rewrite (getSiteStoreKey_agree _ Hu).
  unfold browser.tabs_get, removeContextMenu, browser.storage_get,
    browser.contextualIdentities_get, V0.assignManager_deleteContainer.
  run_unfold.
  cbn -[V0.getUserContextIdFromCookieStore V1.getUserContextIdFromCookieStore
        V1.getSiteStoreKey].
  destruct (List.find _ (tabs s)) as [tab|] eqn:Hfind.
  2:{ by run_cases. }
  specialize (Hin tab eq_refl).
  apply find_tab_id in Hfind.
  destruct (V1.getSiteStoreKey (Some (req_url r))) as [key|e]; [|done].
  rewrite (in_container_agree tab Hin).
  unfold in_container in Hin. rewrite Hin, Hfind.
  unfold V0.cookieStoreId, V1.getCookieStoreId.
  cbn -[V1.getUserContextIdFromCookieStore].
  run_cases; done.
Qed.

Lemma V1_candidate_site r s tab v u s1 :
  V1.candidate r s = (Normal (Some (tab, v, u)), s1) →
  List.find (λ t, bool_decide (tab_id t = Some (req_tabId r))) (tabs s) = Some tab
  ∧ ∃ key, V1.getSiteStoreKey (Some (req_url r)) = Normal key ∧ storage s !! key = Some v.
Proof.
  unfold V1.candidate, V1.storageAreaGet, V1.isExempted, browser.tabs_get,
    removeContextMenu, browser.storage_get, browser.contextualIdentities_get.
  run_unfold. intros H. run_cases; eauto.
Qed.

(** In the second part the files do the same for an assignment that
    names a container. *)
Lemma reroute_same r tab v u s i :
  tab_id tab = Some i →
  JSId_truthy (val_userContextId v) = true →
  V1.reroute r tab v u s = V0.reroute r tab v u s.
Proof.
  intros Hi Hv.
  assert (Hnew : JS.truthy_opt (tab_url tab)
                 && bool_decide (default EmptyString (tab_url tab) ∈ NEW_TAB_PAGES)
                 = match tab_url tab with
                   | Some u => bool_decide (u ∈ NEW_TAB_PAGES)
                   | None => false
                   end).
  { destruct (tab_url tab) as [[|c w]|]; done. }
  unfold V0.reroute, V1.reroute, V0.reloadPageInContainer, V1.reloadPageInContainer,
    V0.register, V1.register, V0.cookieStoreId, V1.getCookieStoreId.
  rewrite Hnew, Hi, Hv. reflexivity.
Qed.

(** The second part reads the state through [obs] only. *)
Lemma reroute_obs r tab v u s0 s1 :
  obs s0 = obs s1 →
  (V0.reroute r tab v u s0).1 = (V0.reroute r tab v u s1).1
  ∧ obs (V0.reroute r tab v u s0).2 = obs (V0.reroute r tab v u s1).2.
Proof.
  unfold obs. intros [= Hr Hl Hlast Hext].
  unfold V0.reroute, V0.reloadPageInContainer,
    browser.setTimeout, browser.tabs_create, browser.history_deleteUrl,
    browser.extension_getURL, browser.tabs_remove, calculateContextMenu.
  run_unfold. cbn -[reloads]. rewrite ?Hl, ?Hlast, ?Hext.
  destruct (canceledRequests s1 !! tab_id tab) as [c|]; cbn -[reloads].
  - destruct (bool_decide (req_requestId r ∈ requestIds c) || bool_decide (req_url r ∈ urls c));
      cbn -[reloads]; [by rewrite ?Hr, ?Hl, ?Hext, ?Hlast|].
    destruct (val_neverAsk v), (JSId_truthy u);
      repeat (case_match; simplify_eq; cbn -[reloads] in * );
      rewrite ?reloads_app, ?Hr, ?Hl, ?Hext, ?Hlast; done.
  - destruct (val_neverAsk v), (JSId_truthy u);
      repeat (case_match; simplify_eq; cbn -[reloads] in * );
      rewrite ?reloads_app, ?Hr, ?Hl, ?Hext, ?Hlast; done.
Qed.

(** C8, as amended. For a top-level request of a tab that sits in a
    container, with an assignment (if any) that names a container, and the
    same state of the browser and of the background page, [onBeforeRequest]
    of the two files gives the same decision, makes the same calls of
    [reloadPageInContainer] and leaves the same ledger. *)
Theorem variants_agree_in_container (r : Request) (s : State) :
  contained r s = true →
  outcome BackgroundPage r s = outcome BackgroundPage1 r s.
Proof.
  intros [Hin Hsite]%andb_prop.
  assert (Hin' : ∀ tab,
    List.find (λ t, bool_decide (tab_id t = Some (req_tabId r))) (tabs s) = Some tab →
    in_container tab).
  { intros tab Hfind. by rewrite Hfind in Hin. }
  assert (Hsite' : ∀ key v,
    V1.getSiteStoreKey (Some (req_url r)) = Normal key →
    storage s !! key = Some v → JSId_truthy (val_userContextId v) = true).
  { intros key v Hkey Hv. by rewrite Hkey, Hv in Hsite. }
  clear Hin Hsite. rename Hin' into Hin, Hsite' into Hsite.
  pose proof (candidate_agree r s Hin) as Hcand.
  pose proof (frame_V0_candidate (obs s) r s eq_refl) as [H0 _].
  pose proof (frame_V1_candidate (obs s) r s eq_refl) as [H1 _].
  pose proof (V1_candidate_site r s) as Hsome.
  pose proof (V1_candidate_tab r s) as Htab.
  unfold outcome, onBeforeRequest, V0.onBeforeRequest, V1.onBeforeRequest, mbind, M_bind, bind.
  unfold framed in H0, H1.
  assert (Hobs : obs (V0.candidate r s).2 = obs (V1.candidate r s).2) by congruence.
  clear H0 H1.
  destruct (V0.candidate r s) as [[c0|e0] s0], (V1.candidate r s) as [[c1|e1] s1];
    cbn [fst snd decision] in *; try discriminate.
  - injection Hcand as ->.
    destruct c1 as [[[tab v] u]|].
    + destruct (Hsome _ _ _ _ eq_refl) as (Hfind & key & Hkey & Hv).
      rewrite (reroute_same r tab v u s1 _ (Htab _ _ _ _ eq_refl) (Hsite _ _ Hkey Hv)).
      destruct (reroute_obs r tab v u s0 s1 Hobs) as [Hres Hobs'].
      destruct (V0.reroute r tab v u s0), (V0.reroute r tab v u s1).
      unfold obs in Hobs'. cbn [fst snd] in *.
      injection Hobs' as -> -> _ _. by rewrite Hres.
    + unfold obs in Hobs. cbn. by injection Hobs as -> -> _ _.
  - unfold obs in Hobs. cbn. by injection Hobs as -> -> _ _.
Qed.

Lemma variants_agree_in_container_witness :
  contained Sample.first Sample.assigned = true
  ∧ outcome BackgroundPage Sample.first Sample.assigned
    = outcome BackgroundPage1 Sample.first Sample.assigned.
Proof.
  split; [reflexivity|].
  apply (variants_agree_in_container Sample.first Sample.assigned).
  reflexivity.
Defined.

(** As it is worded, C8 asks for the same decision in every state.  For a
    tab outside any container (cookie store [firefox-default]) that opens
    an assigned site, background-page.ts cancels and reroutes, and
    background-page-1.ts, which first checks that the tab has a container
    id, lets the request through. *)
Lemma variants_differ_outside_container :
  ¬ (∀ r s, outcome BackgroundPage r s = outcome BackgroundPage1 r s).
Proof.
  intros H. specialize (H Sample.first Sample2.default_tab).
  apply (f_equal (λ o, o.1.1)) in H. vm_compute in H. discriminate.
Qed.

Ltac run_eval :=
  cbn [tabs storage identities canceledRequests exemptedTabs lastCreatedTab unhideQueue
       extensionURL calls with_tabs with_storage with_identities with_canceledRequests
       with_exemptedTabs with_unhideQueue with_calls fst snd
       val_truthy val_userContextId val_neverAsk negb andb orb JSId_truthy JS.truthy
       JS.truthy_opt].

(** ** C4: the default port and the reroute *)



(** ** C2: deleting a container *)

(** The keys that [getByContainer] answers are the keys of the values that
    carry the container id. *)
Lemma by_container_lookup (u : JSId) (m : gmap string StoreVal) k :
  foldr delete m
    (map fst (map_to_list
       (map_imap (λ key v,
          if bool_decide (String_of (val_userContextId v) = String_of u)
          then Some (v, JS.replace_anchored "siteContainerMap@@_" "" key)
          else None) m))) !! k
  = match m !! k with
    | Some v =>
        if bool_decide (String_of (val_userContextId v) = String_of u) then None else Some v
    | None => None
    end.
Proof.
  set (sites := map_imap _ m).
  destruct (decide (k ∈ map fst (map_to_list sites))) as [Hin|Hnin].
  - rewrite lookup_foldr_delete by done.
    apply list_elem_of_fmap in Hin as ([k' x] & -> & Hx).
    apply elem_of_map_to_list in Hx. unfold sites in Hx.
    rewrite map_lookup_imap in Hx. simpl in *.
    destruct (m !! k') as [v|]; simpl in *; [|done].
    by case_bool_decide.
  - rewrite lookup_foldr_delete_not_elem_of by done.
    destruct (m !! k) as [v|] eqn:Hv; [|done].
    case_bool_decide as Hu; [|done].
    exfalso. apply Hnin. apply list_elem_of_fmap.
    exists (k, (v, JS.replace_anchored "siteContainerMap@@_" "" k)). split; [done|].
    apply elem_of_map_to_list. unfold sites.
    rewrite map_lookup_imap, Hv. simpl. by rewrite bool_decide_eq_true_2.
Qed.

(** What [deleteContainer] leaves in the store, when the container is
    there. *)
Lemma deleteContainer_storage f u s k :
  V1.getCookieStoreId u ∈ identities s →
  (deleteContainer f u false s).1 = Normal u
  ∧ storage (deleteContainer f u false s).2 !! k
    = match storage s !! k with
      | Some v =>
          if bool_decide (String_of (val_userContextId v) = String_of u) then None else Some v
      | None => None
      end.
Proof.
  intros Hid. apply (bool_decide_eq_true_2 _) in Hid.
  destruct f; unfold deleteContainer.
  - unfold V0.deleteContainer, V0._closeTabs, V0.assignManager_deleteContainer,
      V0.storageArea_deleteContainer, V0.storageArea_getByContainer,
      browser.tabs_query, browser.tabs_remove, browser.contextualIdentities_remove,
      browser.storage_get_all, browser.storage_remove.
    run_unfold. run_eval.
    change (V0.cookieStoreId u) with (V1.getCookieStoreId u).
    rewrite Hid. run_eval. split; [done|]. apply by_container_lookup.
  - unfold V1.deleteContainer, V1._closeTabs, V1.storageAreaDeleteContainer, V1.getByContainer,
      browser.tabs_query, browser.tabs_remove, browser.contextualIdentities_remove,
      browser.storage_get_all, browser.storage_remove.
    run_unfold. run_eval. rewrite Hid. run_eval. split; [done|]. apply by_container_lookup.
Qed.

(** C2, as amended. Deleting the container with id "5", which has the
    sites stored under [siteContainerMap@@_a.com] and
    [siteContainerMap@@_b.com], removes both keys from the store; the key
    [identitiesState@@_firefox-container-5], whose value carries no
    container id, is left as it is.  In both files. *)
Theorem delete_container_keys (f : Variant) (s : State) (na nb : bool) (l : list Tab) :
  "firefox-container-5" ∈ identities s →
  storage s !! "siteContainerMap@@_a.com" = Some (VSite (IdStr "5") na) →
  storage s !! "siteContainerMap@@_b.com" = Some (VSite (IdStr "5") nb) →
  storage s !! "identitiesState@@_firefox-container-5" = Some (VState l) →
  let s' := (deleteContainer f (IdStr "5") false s).2 in
  (deleteContainer f (IdStr "5") false s).1 = Normal (IdStr "5")
  ∧ storage s' !! "siteContainerMap@@_a.com" = None
  ∧ storage s' !! "siteContainerMap@@_b.com" = None
  ∧ storage s' !! "identitiesState@@_firefox-container-5" = Some (VState l).
Proof.
  intros Hid Ha Hb Hi s'. unfold s'.
  pose proof (λ k, deleteContainer_storage f (IdStr "5") s k Hid) as H.
  split; [apply (H EmptyString)|].
  rewrite !(λ k, proj2 (H k)), Ha, Hb, Hi. done.
Qed.

Lemma delete_container_keys_witness :
  let s' := (deleteContainer BackgroundPage1 (IdStr "5") false Sample4.state).2 in
  (deleteContainer BackgroundPage1 (IdStr "5") false Sample4.state).1 = Normal (IdStr "5")
  ∧ storage s' !! "siteContainerMap@@_a.com" = None
  ∧ storage s' !! "siteContainerMap@@_b.com" = None
  ∧ storage s' !! "identitiesState@@_firefox-container-5" = Some (VState [Sample4.hidden]).
Proof.
  apply (delete_container_keys BackgroundPage1 Sample4.state false true [Sample4.hidden]).
  - apply (bool_decide_unpack _). vm_compute. exact I.
  - vm_compute. reflexivity.
  - vm_compute. reflexivity.
  - vm_compute. reflexivity.
Defined.

(** As it is worded, C2 asks that the key
    [identitiesState@@_firefox-container-5] is removed as well. *)
Lemma delete_container_leaves_tab_state :
  ¬ (∀ f s na nb l,
       "firefox-container-5" ∈ identities s →
       storage s !! "siteContainerMap@@_a.com" = Some (VSite (IdStr "5") na) →
       storage s !! "siteContainerMap@@_b.com" = Some (VSite (IdStr "5") nb) →
       storage s !! "identitiesState@@_firefox-container-5" = Some (VState l) →
       let s' := (deleteContainer f (IdStr "5") false s).2 in
       storage s' !! "siteContainerMap@@_a.com" = None
       ∧ storage s' !! "siteContainerMap@@_b.com" = None
       ∧ storage s' !! "identitiesState@@_firefox-container-5" = None).
Proof.
  intros H.
  destruct (H BackgroundPage1 Sample4.state false true [Sample4.hidden]) as (_ & _ & Hi).
  - apply (bool_decide_unpack _). vm_compute. exact I.
  - vm_compute. reflexivity.
  - vm_compute. reflexivity.
  - vm_compute. reflexivity.
  - vm_compute in Hi. discriminate.
Qed.

(** ** C3: missing arguments *)

(** In background-page-1.ts the check comes first and throws. *)
Lemma V1_checkArgs_missing options methodName :
  has_arg "cookieStoreId" options && arg_truthy "cookieStoreId" options
  && has_arg "windowId" options && arg_truthy "windowId" options = false →
  ∃ msg, V1.checkArgs ["cookieStoreId"; "windowId"] options methodName = Throw msg.
Proof.
  intros H. unfold V1.checkArgs. simpl.
  destruct (has_arg "cookieStoreId" options), (arg_truthy "cookieStoreId" options),
    (has_arg "windowId" options), (arg_truthy "windowId" options); simpl in *;
    try discriminate; eauto.
Qed.

Lemma V1_missing_argument_throws options s :
  has_arg "cookieStoreId" options && arg_truthy "cookieStoreId" options
  && has_arg "windowId" options && arg_truthy "windowId" options = false →
  (∃ msg, V1.hideTabs options s = (Throw msg, s))
  ∧ (∃ msg, V1.getTabs options s = (Throw msg, s)).
Proof.
  intros H. unfold V1.hideTabs, V1.getTabs. run_unfold.
  destruct (V1_checkArgs_missing options "hideTabs" H) as [m1 ->].
  destruct (V1_checkArgs_missing options "getTabs" H) as [m2 ->].
  eauto.
Qed.

(** C3 fails in background-page.ts: [checkArgs] there returns the error
    from the callback of [forEach] instead of throwing it, so that
    [hideTabs] without arguments goes on.  In every state it reads the
    store, under the key of an undefined cookie store, and leaves an entry
    there; in the sample state it ends normally, having written the
    snapshots of all open tabs of all windows under that key. *)
Theorem hideTabs_without_arguments_runs :
  (∀ s, let s' := (V0.hideTabs (mkTabsOptions Absent Absent) s).2 in
        (∃ rest, calls s'
                 = calls s ++ LStorageGet (Some ["identitiesState@@_undefined"]) :: rest)
        ∧ is_Some (storage s' !! "identitiesState@@_undefined"))
  ∧ (V0.hideTabs (mkTabsOptions Absent Absent) Sample5.state).1 = Normal tt
  ∧ storage (V0.hideTabs (mkTabsOptions Absent Absent) Sample5.state).2
      !! "identitiesState@@_undefined"
    = Some (VState [set_hidden Sample5.tab1; set_hidden Sample5.tab2])
  ∧ storage Sample5.state !! "identitiesState@@_undefined" = None.
Proof.
  split; [|repeat split; vm_compute; reflexivity].
  intros s.
  unfold V0.hideTabs, V0.storeHidden, identityStateGet, identityStateSet, V0._closeTabs,
    browser.storage_get, browser.storage_set, browser.tabs_query, browser.tabs_remove,
    V0.checkArgs.
  run_unfold. run_eval.
  cbn [field_value o_cookieStoreId o_windowId].
  change (getContainerStoreKey None) with "identitiesState@@_undefined".
  destruct (storage s !! "identitiesState@@_undefined") as [v|] eqn:Hv; run_eval;
    (destruct (V0.snapshot _ _) as [v'|e]; run_eval;
     (split;
      [rewrite <- !app_assoc; cbn [app]; eexists; reflexivity
      |rewrite ?lookup_insert_eq, ?Hv; eauto])).
Qed.

(** ** C9: the focus of a new tab *)




(** ** C6: hidden tabs *)

Lemma scheme_member (p : string) :
  bool_decide (p ∈ ["about:"; "chrome:"; "moz-extension:"])
  = bool_decide (p = "about:") || bool_decide (p = "chrome:")
    || bool_decide (p = "moz-extension:").
Proof.
  repeat case_bool_decide; simpl; try done; exfalso;
    repeat match goal with
           | H : _ ∈ _ :: _ |- _ => apply elem_of_cons in H as [H|H]
           | H : _ ∈ [] |- _ => by apply elem_of_nil in H
           | H : ¬ _ ∈ _ |- _ => apply H; subst; repeat constructor
           end; try done.
Qed.

(** A tab passes [isPermissibleURL] only if it has a url with none of the
    three schemes. *)
Lemma V1_permissible_kept t b :
  V1.isPermissibleURL (tab_url t) = Normal b → b = kept t.
Proof.
  unfold V1.isPermissibleURL, kept, internal_scheme.
  destruct (tab_url t) as [u|]; simpl; [|by intros [= <-]].
  destruct (JS.truthy u); simpl; [|by intros [= <-]].
  destruct (Url.parse u) as [url|]; [|done].
  rewrite scheme_member.
  by destruct (_ || _); intros [= <-].
Qed.

Lemma V0_permissible_kept t b :
  V0.isPermissibleURL (tab_url t) = Normal b → b = kept t.
Proof.
  unfold V0.isPermissibleURL, kept, internal_scheme.
  destruct (tab_url t) as [u|]; simpl; [|done].
  destruct (Url.parse u) as [url|] eqn:Hu; [|done].
  assert (JS.truthy u = true) as -> by (by destruct u).
  rewrite scheme_member.
  by destruct (_ || _); intros [= <-].
Qed.

(** The loop of [storeHidden] appends the snapshots of the kept tabs. *)
Lemma V1_snapshot_spec tabs l v :
  V1.snapshot (VState l) tabs = Normal v →
  v = VState (l ++ map set_hidden (List.filter kept tabs)).
Proof.
  revert l. induction tabs as [|t tabs IH]; intros l; simpl.
  - intros [= <-]. by rewrite app_nil_r.
  - destruct (V1.isPermissibleURL (tab_url t)) as [b|] eqn:Hb; [|done].
    apply V1_permissible_kept in Hb. subst b.
    destruct (kept t); simpl.
    + intros H%IH. by rewrite H, <- app_assoc.
    + apply IH.
Qed.

Lemma V0_snapshot_spec tabs l v :
  V0.snapshot (VState l) tabs = Normal v →
  v = VState (l ++ map set_hidden (List.filter kept tabs)).
Proof.
  revert l. induction tabs as [|t tabs IH]; intros l; simpl.
  - intros [= <-]. by rewrite app_nil_r.
  - destruct (V0.isPermissibleURL (tab_url t)) as [b|] eqn:Hb; [|done].
    apply V0_permissible_kept in Hb. subst b.
    destruct (kept t); simpl.
    + intros H%IH. by rewrite H, <- app_assoc.
    + apply IH.
Qed.

(** On a value without hidden tabs the loop either throws or leaves the
    value. *)
Lemma V1_snapshot_other tabs v v' :
  val_hiddenTabs v = None → V1.snapshot v tabs = Normal v' → v' = v.
Proof.
  intros Hv. induction tabs as [|t tabs IH]; simpl; [by intros [= <-]|].
  destruct (V1.isPermissibleURL (tab_url t)) as [[|]|]; try done.
  by destruct v.
Qed.

Lemma V0_snapshot_other tabs v v' :
  val_hiddenTabs v = None → V0.snapshot v tabs = Normal v' → v' = v.
Proof.
  intros Hv. induction tabs as [|t tabs IH]; simpl; [by intros [= <-]|].
  destruct (V0.isPermissibleURL (tab_url t)) as [[|]|]; try done.
  by destruct v.
Qed.

Lemma kept_ok tabs : Forall (λ t, internal_scheme t = false) (map set_hidden (List.filter kept tabs)).
Proof.
  apply Forall_forall. intros t' (t & -> & Ht)%list_elem_of_fmap.
  apply list_elem_of_In, filter_In in Ht as [_ Ht].
  unfold kept in Ht. apply andb_prop in Ht as [_ Ht].
  change (internal_scheme (set_hidden t)) with (internal_scheme t).
  by destruct (internal_scheme t).
Qed.

Lemma snapshot_ok f v tabs v' :
  val_ok v →
  match f with BackgroundPage => V0.snapshot | BackgroundPage1 => V1.snapshot end v tabs
  = Normal v' →
  val_ok v'.
Proof.
  intros Hv H. destruct v as [u na|l|n|l].
  2:{ assert (v' = VState (l ++ map set_hidden (List.filter kept tabs))) as ->.
      { destruct f; [by apply V0_snapshot_spec | by apply V1_snapshot_spec]. }
      intros l' [= <-]. apply Forall_app. split; [by apply Hv | apply kept_ok]. }
  all: assert (v' = _) as -> by
    (destruct f; [eapply V0_snapshot_other | eapply V1_snapshot_other]; [| apply H | | apply H];
     reflexivity); done.
Qed.

(** The invariant through the calls of the browser and the functions of
    the store. *)
Lemma ok_log c : preserves hidden_ok (log c) (λ _, True).
Proof. by apply preserves_modify. Qed.

Lemma ok_storage_get k :
  preserves hidden_ok (browser.storage_get k) (λ r, ∀ v, r = Some v → val_ok v).
Proof.
  unfold browser.storage_get.
  eapply preserves_bind; [apply ok_log|]. intros _ _.
  eapply preserves_bind; [apply preserves_get_state|]. intros s Hs.
  apply preserves_ret. intros v Hv l ->. by eapply Hs.
Qed.

Lemma ok_storage_set k v :
  val_ok v → preserves hidden_ok (browser.storage_set k v) (λ _, True).
Proof.
  intros Hv. unfold browser.storage_set.
  eapply preserves_bind; [apply ok_log|]. intros _ _.
  apply preserves_modify; [|done].
  intros s Hs k' l. simpl. rewrite lookup_insert. case_decide.
  - intros [= ->]. by apply Hv.
  - apply Hs.
Qed.

Lemma ok_tabs_query q : preserves hidden_ok (browser.tabs_query q) (λ _, True).
Proof.
  unfold browser.tabs_query.
  eapply preserves_bind; [apply ok_log|]. intros _ _.
  eapply preserves_bind; [apply preserves_get_state|]. intros s Hs.
  by apply preserves_ret.
Qed.

Lemma ok_tabs_remove l : preserves hidden_ok (browser.tabs_remove l) (λ _, True).
Proof.
  unfold browser.tabs_remove.
  eapply preserves_bind; [apply ok_log|]. intros _ _.
  by apply preserves_modify.
Qed.

Lemma ok_identityStateGet c : preserves hidden_ok (identityStateGet c) val_ok.
Proof.
  unfold identityStateGet, identityStateSet.
  eapply preserves_bind; [apply ok_storage_get|]. intros [v|] Hv.
  - apply preserves_ret. by apply Hv.
  - eapply preserves_bind; [apply ok_storage_set|].
    + intros l [= <-]. constructor.
    + intros _ _. apply preserves_ret. intros l [= <-]. constructor.
Qed.

Lemma ok_storeHidden f c w : preserves hidden_ok (storeHidden f c w) (λ _, True).
Proof.
  destruct f; unfold storeHidden, V0.storeHidden, V1.storeHidden, identityStateSet.
  all: eapply preserves_bind; [apply ok_identityStateGet|]; intros v Hv.
  all: eapply preserves_bind; [apply ok_tabs_query|]; intros tabs _.
  all: eapply preserves_bind;
    [apply (preserves_lift _ _ val_ok); intros v' Hv'|intros v' Hv'; by apply ok_storage_set].
  - by apply (snapshot_ok BackgroundPage v tabs).
  - by apply (snapshot_ok BackgroundPage1 v tabs).
Qed.

Lemma ok_hideTabs f options : preserves hidden_ok (hideTabs f options) (λ _, True).
Proof.
  destruct f; unfold hideTabs, V0.hideTabs, V1.hideTabs, V0._closeTabs, V1._closeTabs.
  - eapply preserves_bind; [by apply (preserves_lift _ _ (λ _, True))|]. intros ? ?.
    eapply preserves_bind; [apply (ok_storeHidden BackgroundPage)|]. intros ? ?.
    eapply preserves_bind.
    { eapply preserves_bind; [|intros; apply ok_tabs_remove].
      destruct (field_value (o_windowId options)); apply ok_tabs_query. }
    intros ? ?. by apply preserves_ret.
  - eapply preserves_bind; [by apply (preserves_lift _ _ (λ _, True))|]. intros [c w] _.
    case_match; [apply preserves_throw|].
    eapply preserves_bind; [apply (ok_storeHidden BackgroundPage1)|]. intros ? ?.
    eapply preserves_bind.
    { eapply preserves_bind; [apply ok_tabs_query|intros; apply ok_tabs_remove]. }
    intros ? ?. by apply preserves_ret.
Qed.

(** What a run of [storeHidden] that ends well has stored. *)
Lemma storeHidden_appends f c w s l :
  storage s !! getContainerStoreKey c = Some (VState l) →
  (storeHidden f c w s).1 = Normal tt →
  storage (storeHidden f c w s).2 !! getContainerStoreKey c
  = Some (VState (l ++ map set_hidden
                         (List.filter kept (List.filter (browser.matches (mkQuery c w))
                                                        (tabs s))))).
Proof.
  intros Hl.
  destruct f; unfold storeHidden, V0.storeHidden, V1.storeHidden, identityStateGet,
    identityStateSet, browser.storage_get, browser.storage_set, browser.tabs_query.
  all: run_unfold; run_eval; rewrite Hl; run_eval.
  - destruct (V0.snapshot _ _) as [v|e] eqn:Hv; [|done].
    apply V0_snapshot_spec in Hv as ->. intros _. run_eval. by rewrite lookup_insert_eq.
  - destruct (V1.snapshot _ _) as [v|e] eqn:Hv; [|done].
    apply V1_snapshot_spec in Hv as ->. intros _. run_eval. by rewrite lookup_insert_eq.
Qed.

(** C6. After [storeHidden], and after [hideTabs], which calls it, no
    list of hidden tabs in the store has a snapshot whose url has the
    scheme [about:], [chrome:] or [moz-extension:], given that none had
    before: the open tabs with such a url are dropped, and the snapshots
    of the others are appended to the list of the container.  In both
    files. *)
Theorem storeHidden_never_internal (f : Variant) (cookieStoreId : option string)
    (windowId : option Z) (options : TabsOptions) (s : State) :
  hidden_ok s →
  hidden_ok (storeHidden f cookieStoreId windowId s).2
  ∧ hidden_ok (hideTabs f options s).2
  ∧ ∀ l, storage s !! getContainerStoreKey cookieStoreId = Some (VState l) →
         (storeHidden f cookieStoreId windowId s).1 = Normal tt →
         storage (storeHidden f cookieStoreId windowId s).2
           !! getContainerStoreKey cookieStoreId
         = Some (VState (l ++ map set_hidden
                   (List.filter kept
                      (List.filter (browser.matches (mkQuery cookieStoreId windowId))
                                   (tabs s)))))
         ∧ Forall (λ t, internal_scheme t = false)
                  (map set_hidden
                     (List.filter kept
                        (List.filter (browser.matches (mkQuery cookieStoreId windowId))
                                     (tabs s)))).
Proof.
  intros Hs. split; [by apply ok_storeHidden|]. split; [by apply ok_hideTabs|].
  intros l Hl Hret. split; [by apply storeHidden_appends | apply kept_ok].
Qed.

Lemma storeHidden_never_internal_witness :
  let s := Sample6.state in
  let c := Some "firefox-container-1" in
  let w := Some 1%Z in
  hidden_ok (storeHidden BackgroundPage1 c w s).2
  ∧ hidden_ok (hideTabs BackgroundPage1 (mkTabsOptions (Present c) (Present w)) s).2
  ∧ ∀ l, storage s !! getContainerStoreKey c = Some (VState l) →
         (storeHidden BackgroundPage1 c w s).1 = Normal tt →
         storage (storeHidden BackgroundPage1 c w s).2 !! getContainerStoreKey c
         = Some (VState (l ++ map set_hidden
                   (List.filter kept
                      (List.filter (browser.matches (mkQuery c w)) (tabs s)))))
         ∧ Forall (λ t, internal_scheme t = false)
                  (map set_hidden
                     (List.filter kept
                        (List.filter (browser.matches (mkQuery c w)) (tabs s)))).
Proof.
  intros s c w.
  apply (storeHidden_never_internal BackgroundPage1 c w
           (mkTabsOptions (Present c) (Present w)) s).
  intros k l Hk. unfold s, Sample6.state, Sample.state in Hk. cbn [storage] in Hk.
  apply lookup_singleton_Some in Hk as [<- [= <-]].
  repeat constructor.
Defined.

Example storeHidden_sample :
  storage (storeHidden BackgroundPage1 (Some "firefox-container-1") (Some 1%Z)
             Sample6.state).2 !! "identitiesState@@_firefox-container-1"
  = Some (VState [Sample6.hidden;
                  set_hidden (Sample.tab 1 "firefox-container-1" "http://a.com/");
                  set_hidden (Sample.tab 3 "firefox-container-1" "https://c.com/x")]).
Proof. vm_compute. reflexivity. Qed.

(** ** C5: sorting the tabs *)

(** *** Moving one tab *)

Section Move.

Context (id : Z) (t : Tab) (Hid : tab_id t = Some id).

Lemma filter_other_id (l : list Tab) :
  tab_id t ∉ tab_id <$> l →
  List.filter (λ t', negb (bool_decide (tab_id t' = Some id))) l = l.
Proof using Hid.
  induction l as [|a l IH]; simpl; [done|].
  rewrite not_elem_of_cons. intros [Ha Hl].
  rewrite bool_decide_eq_false_2 by congruence. simpl. by rewrite IH.
Qed.

Lemma find_by_id (l1 l2 : list Tab) :
  tab_id t ∉ tab_id <$> l1 →
  List.find (λ t', bool_decide (tab_id t' = Some id)) (l1 ++ t :: l2) = Some t.
Proof using Hid.
  induction l1 as [|a l IH]; simpl.
  - intros _. by rewrite bool_decide_eq_true_2.
  - rewrite not_elem_of_cons. intros [Ha Hl].
    rewrite bool_decide_eq_false_2 by congruence. by apply IH.
Qed.

Lemma filter_by_id (l1 l2 : list Tab) :
  tab_id t ∉ tab_id <$> l1 → tab_id t ∉ tab_id <$> l2 →
  List.filter (λ t', negb (bool_decide (tab_id t' = Some id))) (l1 ++ t :: l2) = l1 ++ l2.
Proof using Hid.
  intros H1 H2. rewrite List.filter_app. simpl.
  rewrite bool_decide_eq_true_2 by done. simpl.
  by rewrite !filter_other_id.
Qed.

End Move.

Lemma numPinned_app l k : browser.numPinned (l ++ k) = browser.numPinned l + browser.numPinned k.
Proof. unfold browser.numPinned. by rewrite List.filter_app, length_app. Qed.

Lemma numPinned_all l : Forall (λ t, tab_pinned t = true) l → browser.numPinned l = length l.
Proof.
  unfold browser.numPinned. induction 1 as [|a l Ha _ IH]; simpl; [done|].
  rewrite Ha. simpl. by rewrite IH.
Qed.

Lemma numPinned_none l : Forall (λ t, tab_pinned t = false) l → browser.numPinned l = 0.
Proof.
  unfold browser.numPinned. induction 1 as [|a l Ha _ IH]; simpl; [done|].
  by rewrite Ha.
Qed.

Lemma numPinned_le l : browser.numPinned l ≤ length l.
Proof.
  unfold browser.numPinned. induction l as [|a l IH]; simpl; [done|].
  destruct (tab_pinned a); simpl; lia.
Qed.

(** The tab [t] of the strip [l1 ++ t :: l2] is moved to the index [i]: a
    pinned tab, with [i] at most the number of pinned tabs, ends at [i] or
    as the last pinned tab; an unpinned tab, with [i] at least the number
    of pinned tabs, ends at [i] or at the end. *)
Lemma tabs_move_pinned id t l1 l2 i :
  tab_id t = Some id →
  tab_id t ∉ tab_id <$> l1 → tab_id t ∉ tab_id <$> l2 →
  tab_pinned t = true →
  i ≤ browser.numPinned (l1 ++ t :: l2) →
  browser.tabs_move id (Z.of_nat i) (l1 ++ t :: l2)
  = take (i `min` (browser.numPinned (l1 ++ t :: l2) - 1)) (l1 ++ l2)
    ++ t :: drop (i `min` (browser.numPinned (l1 ++ t :: l2) - 1)) (l1 ++ l2).
Proof.
  intros Hid H1 H2 Hp Hi. unfold browser.tabs_move.
  rewrite (find_by_id id t Hid l1 l2 H1), (filter_by_id id t Hid l1 l2 H1 H2), Hp.
  assert ((Z.of_nat i =? -1)%Z = false) as -> by lia.
  rewrite Nat2Z.id.
  by rewrite (proj2 (Nat.leb_le _ _) Hi).
Qed.

Lemma tabs_move_unpinned id t l1 l2 i :
  tab_id t = Some id →
  tab_id t ∉ tab_id <$> l1 → tab_id t ∉ tab_id <$> l2 →
  tab_pinned t = false →
  browser.numPinned (l1 ++ t :: l2) ≤ i →
  browser.tabs_move id (Z.of_nat i) (l1 ++ t :: l2)
  = take i (l1 ++ l2) ++ t :: drop i (l1 ++ l2).
Proof.
  intros Hid H1 H2 Hp Hi. unfold browser.tabs_move.
  rewrite (find_by_id id t Hid l1 l2 H1), (filter_by_id id t Hid l1 l2 H1 H2), Hp.
  assert ((Z.of_nat i =? -1)%Z = false) as -> by lia.
  rewrite Nat2Z.id.
  rewrite (proj2 (Nat.leb_le _ _) Hi).
  by rewrite Nat.max_l by done.
Qed.

(** *** The moves of a pass *)

Lemma block_perm p A body body' suf :
  body ≡ₚ body' → block p A body suf → block p A body' suf.
Proof.
  intros Hp. destruct p; simpl; intros [H1 H2]; split; try done.
  - by rewrite <- Hp.
  - by rewrite <- Hp.
Qed.

Lemma block_numPinned_true A body suf :
  block true A body suf → browser.numPinned (A ++ body ++ suf) = length A + length body.
Proof.
  intros [H1 H2]. rewrite (assoc_L (++)), numPinned_app.
  by rewrite (numPinned_all _ H1), (numPinned_none _ H2), length_app, Nat.add_0_r.
Qed.

Lemma block_numPinned_false A body suf :
  block false A body suf → browser.numPinned (A ++ body ++ suf) ≤ length A.
Proof.
  intros [H1 ->]. rewrite app_nil_r, numPinned_app, (numPinned_none _ H1).
  pose proof (numPinned_le A). lia.
Qed.

(** Moving the tab [x]. *)
Lemma move_first p id A x B rest suf :
  tab_id x = Some id →
  NoDup (tab_id <$> (A ++ x :: B ++ rest ++ suf)) →
  block p A (x :: B ++ rest) suf →
  browser.tabs_move id (Z.of_nat (S (length A + length B))) (A ++ x :: B ++ rest ++ suf)
  = match rest with
    | [] => A ++ B ++ x :: suf
    | y :: rest' => A ++ B ++ y :: x :: rest' ++ suf
    end.
Proof.
  intros Hid Hnd Hb.
  assert (H1 : (tab_id x ∉ (tab_id <$> A)) ∧ (tab_id x ∉ (tab_id <$> (B ++ rest ++ suf)))).
  { rewrite fmap_app, fmap_cons in Hnd.
    apply NoDup_app in Hnd as (_ & HA & Hnd). apply NoDup_cons in Hnd as [Hx _].
    split; [|done]. intros Hin. apply (HA _ Hin). by left. }
  destruct H1 as [H1 H2].
  assert (Hlen : length (A ++ B ++ rest ++ suf)
                 = length A + length B + length rest + length suf).
  { rewrite !length_app. lia. }
  assert (Hstrip : A ++ (x :: B ++ rest) ++ suf = A ++ x :: B ++ rest ++ suf).
  { by rewrite <- ?app_comm_cons, <- ?(assoc_L (++)). }
  destruct p.
  - pose proof (block_numPinned_true A (x :: B ++ rest) suf Hb) as Hn.
    rewrite Hstrip in Hn. simpl in Hn. rewrite length_app in Hn.
    destruct Hb as [Hb _].
    apply Forall_app in Hb as [_ Hb]. apply Forall_cons in Hb as [Hx _].
    rewrite (tabs_move_pinned id x A _ _ Hid H1 H2 Hx); [|rewrite Hn; lia].
    rewrite Hn.
    destruct rest as [|y rest'].
    + cbn [length app] in *. rewrite Nat.min_r by lia.
      replace (length A + S (length B + 0) - 1) with (length (A ++ B))
        by (rewrite length_app; lia).
      rewrite (assoc_L (++) A B suf), take_app_length, drop_app_length.
      by rewrite <- (assoc_L (++)).
    + cbn [length app] in *. rewrite Nat.min_l by lia.
      replace (S (length A + length B)) with (length (A ++ B ++ [y]))
        by (rewrite !length_app; simpl; lia).
      replace (A ++ B ++ y :: rest' ++ suf) with ((A ++ B ++ [y]) ++ rest' ++ suf)
        by (by rewrite <- !(assoc_L (++))).
      rewrite take_app_length, drop_app_length.
      by rewrite <- !(assoc_L (++)).
  - pose proof (block_numPinned_false A (x :: B ++ rest) suf Hb) as Hn.
    rewrite Hstrip in Hn.
    destruct Hb as [Hb ->].
    apply Forall_cons in Hb as [Hx _].
    rewrite (tabs_move_unpinned id x A _ _ Hid H1 H2 Hx); [|lia].
    destruct rest as [|y rest'].
    + simpl. rewrite !app_nil_r.
      rewrite take_ge, drop_ge by (rewrite length_app; lia).
      by rewrite <- (assoc_L (++)).
    + replace (S (length A + length B)) with (length (A ++ B ++ [y]))
        by (rewrite !length_app; simpl; lia).
      replace (A ++ B ++ (y :: rest') ++ []) with ((A ++ B ++ [y]) ++ rest' ++ [])
        by (by rewrite <- !(assoc_L (++))).
      rewrite take_app_length, drop_app_length.
      by rewrite <- !(assoc_L (++)).
Qed.

(** Moving a tab [t] of [rest]. *)
Lemma move_later p id A x B R1 t R2 suf :
  tab_id t = Some id →
  NoDup (tab_id <$> (A ++ x :: B ++ (R1 ++ t :: R2) ++ suf)) →
  block p A (x :: B ++ R1 ++ t :: R2) suf →
  browser.tabs_move id (Z.of_nat (S (length A + length B)))
    (A ++ x :: B ++ (R1 ++ t :: R2) ++ suf)
  = A ++ x :: B ++ t :: R1 ++ R2 ++ suf.
Proof.
  intros Hid Hnd Hb.
  assert (Hstrip : A ++ x :: B ++ (R1 ++ t :: R2) ++ suf
                   = (A ++ x :: B ++ R1) ++ t :: (R2 ++ suf)).
  { by rewrite <- ?app_comm_cons, <- ?(assoc_L (++)), <- ?app_comm_cons,
       <- ?(assoc_L (++)). }
  assert (Hothers : (A ++ x :: B ++ R1) ++ R2 ++ suf = (A ++ x :: B) ++ R1 ++ R2 ++ suf).
  { by rewrite <- ?app_comm_cons, <- ?(assoc_L (++)), <- ?app_comm_cons,
       <- ?(assoc_L (++)). }
  assert (Hlen : length (A ++ x :: B) = S (length A + length B)).
  { rewrite length_app. simpl. lia. }
  assert (Hstrip' : A ++ (x :: B ++ R1 ++ t :: R2) ++ suf
                    = (A ++ x :: B ++ R1) ++ t :: (R2 ++ suf)).
  { by rewrite <- ?app_comm_cons, <- ?(assoc_L (++)), <- ?app_comm_cons,
       <- ?(assoc_L (++)). }
  rewrite Hstrip in Hnd |- *.
  rewrite fmap_app, fmap_cons in Hnd.
  apply NoDup_app in Hnd as (_ & H1 & Hnd). apply NoDup_cons in Hnd as [H2 _].
  assert (H1' : tab_id t ∉ (tab_id <$> (A ++ x :: B ++ R1))).
  { intros Hin. apply (H1 _ Hin). by left. }
  destruct p.
  - pose proof (block_numPinned_true A _ suf Hb) as Hn.
    rewrite Hstrip' in Hn. simpl in Hn. rewrite !length_app in Hn. simpl in Hn.
    destruct Hb as [Hb _].
    assert (Hx : tab_pinned t = true).
    { rewrite Forall_forall in Hb. apply Hb.
      rewrite !elem_of_app, !elem_of_cons, !elem_of_app, !elem_of_cons. naive_solver. }
    rewrite (tabs_move_pinned id t _ _ _ Hid H1' H2 Hx); [|rewrite Hn; lia].
    rewrite Hn, Nat.min_l by lia.
    rewrite Hothers, <- Hlen, take_app_length, drop_app_length.
    by rewrite <- ?app_comm_cons, <- ?(assoc_L (++)), <- ?app_comm_cons.
  - pose proof (block_numPinned_false A _ suf Hb) as Hn.
    rewrite Hstrip' in Hn.
    destruct Hb as [Hb _].
    assert (Hx : tab_pinned t = false).
    { rewrite Forall_forall in Hb. apply Hb.
      rewrite !elem_of_cons, !elem_of_app, !elem_of_cons. naive_solver. }
    rewrite (tabs_move_unpinned id t _ _ _ Hid H1' H2 Hx); [|lia].
    rewrite Hothers, <- Hlen, take_app_length, drop_app_length.
    by rewrite <- ?app_comm_cons, <- ?(assoc_L (++)), <- ?app_comm_cons.
Qed.

Ltac perm_norm :=
  cbn [app]; rewrite <- ?(assoc_L (++)), <- ?app_comm_cons;
  repeat (rewrite <- Permutation_middle);
  try done; try (by rewrite Permutation_swap).

(** The moves of a pass, one after the other: the tabs [todo] of the block
    end in the order of [todo], after the tabs before the block. *)
Lemma move_tabs_block p todo : ∀ A x B rest suf,
  NoDup (tab_id <$> (A ++ x :: B ++ rest ++ suf)) →
  Forall (λ t, is_Some (tab_id t)) todo →
  todo ≡ₚ x :: rest →
  block p A (x :: B ++ rest) suf →
  V1.move_tabs todo (length A + length B) (A ++ x :: B ++ rest ++ suf)
  = (length A + length B + length todo, A ++ B ++ todo ++ suf).
Proof.
  induction todo as [|t todo IH]; intros A x B rest suf Hnd Hsome Hperm Hb.
  { by apply Permutation_nil_cons in Hperm. }
  apply Forall_cons in Hsome as [[id Hid] Hsome].
  assert (Hin : t ∈ x :: rest) by (rewrite <- Hperm; left).
  simpl. rewrite Hid.
  apply elem_of_cons in Hin as [->|Hin].
  - apply Permutation_cons_inv in Hperm.
    rewrite (move_first p id A x B rest suf Hid Hnd Hb).
    destruct rest as [|y rest'].
    + apply Permutation_nil_r in Hperm as ->. simpl. f_equal. lia.
    + replace (S (length A + length B)) with (length (A ++ B) + length [x])
        by (rewrite length_app; simpl; lia).
      replace (A ++ B ++ y :: x :: rest' ++ suf)
        with ((A ++ B) ++ y :: [x] ++ rest' ++ suf)
        by (by rewrite <- (assoc_L (++))).
      rewrite IH; try done.
      * f_equal; [rewrite length_app; simpl; lia | by rewrite <- (assoc_L (++))].
      * revert Hnd. apply NoDup_Permutation_proper. apply fmap_Permutation.
        perm_norm.
      * destruct p; simpl in *.
        -- destruct Hb as [Hb ?]. split; [|done].
           assert (Hp : (A ++ B) ++ y :: x :: rest' ≡ₚ A ++ x :: B ++ y :: rest')
             by perm_norm.
           by rewrite Hp.
        -- destruct Hb as [Hb ?]. split; [|done].
           rewrite !Forall_cons, Forall_app, !Forall_cons in Hb.
           destruct Hb as (Hx & _ & Hy & Hr). by rewrite !Forall_cons.
  - apply list_elem_of_split in Hin as (R1 & R2 & ->).
    rewrite (move_later p id A x B R1 t R2 suf Hid Hnd Hb).
    replace (S (length A + length B)) with (length A + length (B ++ [t]))
      by (rewrite length_app; simpl; lia).
    replace (A ++ x :: B ++ t :: R1 ++ R2 ++ suf)
      with (A ++ x :: (B ++ [t]) ++ (R1 ++ R2) ++ suf)
      by (by rewrite <- !(assoc_L (++))).
    rewrite IH; try done.
    + f_equal; [rewrite length_app; simpl; lia | by rewrite <- !(assoc_L (++))].
    + revert Hnd. apply NoDup_Permutation_proper. apply fmap_Permutation.
      perm_norm.
    + apply (Permutation_cons_inv (a:=t)). rewrite Hperm. perm_norm.
    + revert Hb. apply block_perm. perm_norm.
Qed.

Lemma move_tabs_app l : ∀ k pos strip,
  V1.move_tabs (l ++ k) pos strip
  = V1.move_tabs k (V1.move_tabs l pos strip).1 (V1.move_tabs l pos strip).2.
Proof.
  induction l as [|t l IH]; intros k pos strip; simpl; [done|].
  destruct (tab_id t); apply IH.
Qed.

Lemma move_groups_flatten gs : ∀ pos strip,
  V1.move_groups gs pos strip = V1.move_tabs (flatten gs) pos strip.
Proof.
  induction gs as [|[k ts] gs IH]; intros pos strip; [done|].
  unfold flatten. simpl. rewrite move_tabs_app.
  destruct (V1.move_tabs ts pos strip) as [pos' strip']. apply IH.
Qed.

(** *** The groups *)

Lemma map_push_new k t m :
  k ∉ m.*1 → V1.map_push k t m = m ++ [(k, [t])].
Proof.
  induction m as [|[k' l] m IH]; simpl; [done|].
  rewrite not_elem_of_cons. intros [Hk Hm].
  rewrite bool_decide_eq_false_2 by done. by rewrite IH.
Qed.

Lemma map_push_old k t m1 l m2 :
  k ∉ m1.*1 →
  V1.map_push k t (m1 ++ (k, l) :: m2) = m1 ++ (k, l ++ [t]) :: m2.
Proof.
  induction m1 as [|[k' l'] m1 IH]; simpl.
  - intros _. by rewrite bool_decide_eq_true_2.
  - rewrite not_elem_of_cons. intros [Hk Hm].
    rewrite bool_decide_eq_false_2 by done. by rewrite IH.
Qed.

Lemma keyed_map_push t m : keyed m → keyed (V1.map_push (tab_key t) t m).
Proof.
  intros [Hnd Hall].
  destruct (decide (tab_key t ∈ m.*1)) as [Hin|Hin].
  - apply list_elem_of_fmap in Hin as ([k l] & Hk & Hin). simpl in Hk. subst k.
    apply list_elem_of_split in Hin as (m1 & m2 & ->).
    rewrite fmap_app, fmap_cons in Hnd.
    assert (Hm1 : tab_key t ∉ m1.*1).
    { apply NoDup_app in Hnd as (_ & Hd & _). intros Hin. apply (Hd _ Hin). by left. }
    rewrite map_push_old by done. split.
    + by rewrite fmap_app, fmap_cons.
    + rewrite Forall_app, Forall_cons in Hall |- *.
      destruct Hall as (H1 & [Hne Hl] & H2). simpl in *.
      split_and!; try done.
      * by destruct l.
      * rewrite Forall_app, Forall_singleton. done.
  - rewrite map_push_new by done. split.
    + rewrite fmap_app. simpl. apply NoDup_app. split_and!; [done| |apply NoDup_singleton].
      intros k Hk ->%list_elem_of_singleton. done.
    + rewrite Forall_app, Forall_singleton. simpl. split_and!; try done.
      by rewrite Forall_singleton.
Qed.

Lemma keyed_group_into l : ∀ m, keyed m → keyed (group_into m l).
Proof.
  induction l as [|t l IH]; intros m Hm; [done|].
  apply IH. by apply keyed_map_push.
Qed.

Lemma keyed_nil : keyed [].
Proof. split; [apply NoDup_nil_2 | apply Forall_nil_2]. Qed.

Lemma flatten_cons k ts gs : flatten ((k, ts) :: gs) = ts ++ flatten gs.
Proof. done. Qed.

Lemma flatten_app gs gs' : flatten (gs ++ gs') = flatten gs ++ flatten gs'.
Proof. unfold flatten. by rewrite map_app, concat_app. Qed.

Lemma flatten_map_push k t m : flatten (V1.map_push k t m) ≡ₚ t :: flatten m.
Proof.
  induction m as [|[k' l] m IH]; simpl; [done|].
  case_bool_decide; rewrite !flatten_cons.
  - rewrite <- (assoc_L (++)). simpl. by rewrite <- Permutation_middle.
  - rewrite IH. by rewrite <- Permutation_middle.
Qed.

Lemma flatten_group_into l : ∀ m, flatten (group_into m l) ≡ₚ flatten m ++ l.
Proof.
  induction l as [|t l IH]; intros m; simpl.
  - by rewrite app_nil_r.
  - unfold group_into in *. simpl. rewrite IH, flatten_map_push.
    by rewrite <- Permutation_middle.
Qed.

Lemma sort_insert_perm e l : V1.sort_insert e l ≡ₚ e :: l.
Proof.
  induction l as [|e' l IH]; simpl; [done|].
  destruct (_ <=? _)%Z; [done|]. by rewrite IH, Permutation_swap.
Qed.

Lemma sort_entries_perm gs : V1.sort_entries gs ≡ₚ gs.
Proof.
  induction gs as [|e gs IH]; simpl; [done|].
  by rewrite sort_insert_perm, IH.
Qed.

Lemma flatten_perm gs gs' : gs ≡ₚ gs' → flatten gs ≡ₚ flatten gs'.
Proof.
  induction 1 as [|[k l] gs gs' _ IH|[k l] [k' l'] gs|gs1 gs2 gs3 _ IH1 _ IH2].
  - done.
  - rewrite !flatten_cons. by rewrite IH.
  - rewrite !flatten_cons. rewrite !(assoc_L (++)). f_equiv. apply Permutation_app_comm.
  - by rewrite IH1.
Qed.

Lemma keyed_perm gs gs' : gs ≡ₚ gs' → keyed gs → keyed gs'.
Proof. intros Hp [H1 H2]. split; by rewrite <- Hp. Qed.

Lemma by_container_perm l : by_container l ≡ₚ l.
Proof.
  unfold by_container.
  by rewrite (flatten_perm _ _ (sort_entries_perm _)), flatten_group_into.
Qed.




Lemma key_le_total a b : ¬ key_le a b → key_le b a.
Proof.
  unfold key_le, V1.localeCompare. rewrite (String.compare_antisym a.1 b.1).
  by destruct (String.compare b.1 a.1).
Qed.

Lemma sort_insert_sorted e l : Sorted key_le l → Sorted key_le (V1.sort_insert e l).
Proof.
  induction 1 as [|a l Hl IH Hhd]; simpl.
  - by repeat constructor.
  - destruct (V1.localeCompare e.1 a.1 <=? 0)%Z eqn:He.
    + constructor; [by constructor|]. by constructor.
    + constructor; [done|].
      assert (Hae : key_le a e).
      { apply key_le_total. unfold key_le. by rewrite He. }
      destruct Hhd as [|b l Hab]; simpl; [by constructor|].
      destruct (V1.localeCompare e.1 b.1 <=? 0)%Z; by constructor.
Qed.

Lemma sort_entries_sorted gs : Sorted key_le (V1.sort_entries gs).
Proof.
  induction gs as [|e gs IH]; simpl; [constructor|].
  by apply sort_insert_sorted.
Qed.



(** *** The two passes *)

Lemma in_container_key t :
  in_container t →
  JS.truthy_opt (tab_cookieStoreId t) = true
  ∧ JSId_truthy (V1.getUserContextIdFromCookieStoreId (tab_cookieStoreId t)) = true.
Proof.
  unfold in_container, V1.getUserContextIdFromCookieStore.
  by destruct (JS.truthy_opt (tab_cookieStoreId t)).
Qed.

(** The pass over the pinned tabs stops at the first unpinned tab. *)
Lemma collect_pinned P U : ∀ pos m,
  Forall (λ t, tab_pinned t = true) P → Forall in_container P →
  Forall (λ t, tab_pinned t = false) U →
  V1.collect true (P ++ U) pos m = (pos, group_into m P).
Proof.
  induction P as [|t P IH]; intros pos m HP HC HU.
  - destruct HU as [|u U Hu _]; simpl; [done|]. by rewrite Hu.
  - apply Forall_cons in HP as [Ht HP]. apply Forall_cons in HC as [Hc HC].
    apply in_container_key in Hc as [Hc1 Hc2].
    simpl. rewrite Ht, Hc1, Hc2. simpl. by apply IH.
Qed.

(** The pass over the other tabs counts the pinned tabs. *)
Lemma collect_unpinned_block U : ∀ pos m,
  Forall (λ t, tab_pinned t = false) U → Forall in_container U →
  V1.collect false U pos m = (pos, group_into m U).
Proof.
  induction U as [|t U IH]; intros pos m HU HC; [done|].
  apply Forall_cons in HU as [Ht HU]. apply Forall_cons in HC as [Hc HC].
  apply in_container_key in Hc as [Hc1 Hc2].
  simpl. rewrite Ht, Hc1, Hc2. simpl. by apply IH.
Qed.

Lemma collect_unpinned P U : ∀ pos m,
  Forall (λ t, tab_pinned t = true) P →
  Forall (λ t, tab_pinned t = false) U → Forall in_container U →
  V1.collect false (P ++ U) pos m = (pos + length P, group_into m U).
Proof.
  induction P as [|t P IH]; intros pos m HP HU HC.
  - simpl. rewrite Nat.add_0_r. by apply collect_unpinned_block.
  - apply Forall_cons in HP as [Ht HP]. simpl. rewrite Ht. simpl.
    rewrite IH by done. f_equal. lia.
Qed.

Lemma Forall_some_perm (l k : list Tab) :
  l ≡ₚ k → Forall (λ t, is_Some (tab_id t)) k → Forall (λ t, is_Some (tab_id t)) l.
Proof. intros Hp H. by rewrite Hp. Qed.

Lemma pass_pinned P U :
  NoDup (tab_id <$> (P ++ U)) → Forall (λ t, is_Some (tab_id t)) P →
  Forall (λ t, tab_pinned t = true) P → Forall in_container P →
  Forall (λ t, tab_pinned t = false) U →
  V1._sortTabsInternal (P ++ U) true = by_container P ++ U.
Proof.
  intros Hnd Hsome HP HC HU. unfold V1._sortTabsInternal.
  rewrite (collect_pinned P U 0 [] HP HC HU), move_groups_flatten.
  fold (by_container P).
  destruct P as [|x rest]; [done|].
  pose proof (move_tabs_block true (by_container (x :: rest)) [] x [] rest U) as Hm.
  cbn [app length Nat.add] in Hm |- *. rewrite Hm; try done.
  - by apply (Forall_some_perm _ _ (by_container_perm _)).
  - apply by_container_perm.
Qed.

Lemma pass_unpinned P U :
  NoDup (tab_id <$> (P ++ U)) → Forall (λ t, is_Some (tab_id t)) U →
  Forall (λ t, tab_pinned t = true) P →
  Forall (λ t, tab_pinned t = false) U → Forall in_container U →
  V1._sortTabsInternal (P ++ U) false = P ++ by_container U.
Proof.
  intros Hnd Hsome HP HU HC. unfold V1._sortTabsInternal.
  rewrite (collect_unpinned P U 0 [] HP HU HC), move_groups_flatten.
  fold (by_container U).
  destruct U as [|x rest]; [done|].
  pose proof (move_tabs_block false (by_container (x :: rest)) P x [] rest []) as Hm.
  cbn [app length] in Hm |- *. rewrite !app_nil_r, !Nat.add_0_r in Hm.
  rewrite Nat.add_0_l, Hm; try done.
  - by apply (Forall_some_perm _ _ (by_container_perm _)).
  - apply by_container_perm.
Qed.

(** What [sortTabs] makes of a window of container tabs: the pinned tabs
    by container, then the other tabs by container. *)
Lemma sort_window P U :
  NoDup (tab_id <$> (P ++ U)) → Forall (λ t, is_Some (tab_id t)) (P ++ U) →
  Forall (λ t, tab_pinned t = true) P → Forall (λ t, tab_pinned t = false) U →
  Forall in_container (P ++ U) →
  V1._sortTabsInternal (V1._sortTabsInternal (P ++ U) true) false
  = by_container P ++ by_container U.
Proof.
  intros Hnd Hsome HP HU HC.
  apply Forall_app in Hsome as [HsP HsU]. apply Forall_app in HC as [HcP HcU].
  rewrite pass_pinned by done.
  apply pass_unpinned; try done.
  - by rewrite by_container_perm.
  - by rewrite by_container_perm.
Qed.



Lemma window_ok_contained : window_ok Sample7.contained.
Proof.
  split; [split_and!|].
  - apply (bool_decide_unpack _). by vm_compute.
  - repeat constructor; by eexists.
  - exists 3. split; repeat constructor.
  - repeat constructor.
Qed.



(** * Further properties of the code *)

(** ** The url property of the confirmation page *)

Lemma replace_marks_app a b :
  replace_marks (a +:+ b) = replace_marks a +:+ replace_marks b.
Proof.
  induction a as [|c a IH]; [done|].
  change (String c a +:+ b) with (String c (a +:+ b)).
  cbn [replace_marks]. rewrite IH.
  destruct (bool_decide _); [|done].
  unfold toString16. by destruct (_ <? _)%nat.
Qed.

(** What becomes of one character. *)
Lemma encodeURLProperty_cons c s :
  encodeURLProperty (String c s) = encodeURLProperty (String c "") +:+ encodeURLProperty s.
Proof.
  unfold encodeURLProperty. cbn [encodeURIComponent].
  destruct (unreserved c).
  - by rewrite <- replace_marks_app.
  - by rewrite <- replace_marks_app.
Qed.

Lemma string_forallb_app p a b : JS.forallb p (a +:+ b) = JS.forallb p a && JS.forallb p b.
Proof. induction a as [|c a IH]; simpl; [done|]. by rewrite IH, andb_assoc. Qed.

Lemma encode_char_plain c : JS.forallb plain (encodeURLProperty (String c "")) = true.
Proof. destruct c as [[] [] [] [] [] [] [] []]; vm_compute; reflexivity. Qed.

Lemma encode_char_decode c s :
  decode_one (encodeURLProperty (String c "") +:+ s) = Some (c, s).
Proof. destruct c as [[] [] [] [] [] [] [] []]; vm_compute; reflexivity. Qed.

(** X1. The url property that [reloadPageInContainer] puts in the address
    of the confirmation page has only letters, digits and the characters
    [-], [_], [.], [~] and [%]: no [&], [=], [#] or [?] of the url shows in
    the address. *)
Theorem encodeURLProperty_plain (url : string) :
  JS.forallb plain (encodeURLProperty url) = true.
Proof.
  induction url as [|c url IH]; [done|].
  by rewrite encodeURLProperty_cons, string_forallb_app, encode_char_plain, IH.
Qed.

(** X2. Two urls with the same encoded property are the same url. *)
Theorem encodeURLProperty_inj (a b : string) :
  encodeURLProperty a = encodeURLProperty b → a = b.
Proof.
  revert b. induction a as [|c a IH]; intros [|d b].
  - done.
  - rewrite (encodeURLProperty_cons d b). intros H.
    apply (f_equal decode_one) in H. by rewrite encode_char_decode in H.
  - rewrite (encodeURLProperty_cons c a). intros H.
    apply (f_equal decode_one) in H. by rewrite encode_char_decode in H.
  - rewrite (encodeURLProperty_cons c a), (encodeURLProperty_cons d b). intros H.
    apply (f_equal decode_one) in H. rewrite !encode_char_decode in H.
    injection H as -> H. by rewrite (IH _ H).
Qed.

Lemma encodeURLProperty_inj_witness :
  encodeURLProperty "http://a.com/?q=(1)&r" = encodeURLProperty "http://a.com/?q=(1)&r"
  ∧ "http://a.com/?q=(1)&r" = "http://a.com/?q=(1)&r".
Proof.
  split; [reflexivity|].
  apply (encodeURLProperty_inj "http://a.com/?q=(1)&r" "http://a.com/?q=(1)&r").
  reflexivity.
Defined.

(** ** Exemptions and assignments *)

Lemma run_setExempted url k id s :
  V1.getSiteStoreKey url = Normal k →
  V1.setExempted url id s
  = (Normal tt, with_exemptedTabs (λ m, <[k := default [] (m !! k) ++ [Some id]]> m) s).
Proof. intros H. unfold V1.setExempted. run_unfold. by rewrite H. Qed.

Lemma run_isExempted url k id s :
  V1.getSiteStoreKey url = Normal k →
  V1.isExempted url (Some id) s
  = (Normal (match exemptedTabs s !! k with
             | Some l => bool_decide (Some id ∈ l)
             | None => false
             end), s).
Proof.
  intros H. unfold V1.isExempted. run_unfold. rewrite H.
  by destruct (exemptedTabs s !! k).
Qed.

(** X3. A tab exempted for a page is exempted for every page of the same
    site (the same host and port), whatever the rest of the url; the
    store is not touched. *)
Theorem exemptTab_exempts_site (url url' k : string) (id : Z) (s : State) :
  V1.getSiteStoreKey (Some url) = Normal k →
  V1.getSiteStoreKey (Some url') = Normal k →
  let r := V1._exemptTab (Some url) id s in
  r.1 = Normal true
  ∧ storage r.2 = storage s
  ∧ V1.isExempted (Some url') (Some id) r.2 = (Normal true, r.2).
Proof.
  intros Hk Hk' r. unfold r, V1._exemptTab. run_unfold.
  rewrite (run_setExempted _ k) by done.
  unfold mret, M_ret, ret. cbn [fst snd]. split_and!; [done|done|].
  rewrite (run_isExempted _ k) by done. run_eval.
  rewrite lookup_insert_eq. rewrite bool_decide_eq_true_2; [done|].
  apply elem_of_app. right. by left.
Qed.

Lemma exemptTab_exempts_site_witness :
  let r := V1._exemptTab (Some "http://example.com/a") 7 (Sample.state [] ∅ []) in
  r.1 = Normal true
  ∧ storage r.2 = storage (Sample.state [] ∅ [])
  ∧ V1.isExempted (Some "http://example.com:80/b?c") (Some 7%Z) r.2 = (Normal true, r.2).
Proof.
  apply (exemptTab_exempts_site "http://example.com/a" "http://example.com:80/b?c"
           "siteContainerMap@@_example.com" 7 (Sample.state [] ∅ [])); reflexivity.
Defined.

(** X4. Removing the assignment of a site deletes its key from the store
    and ends every exemption for the site. *)
Theorem storageAreaRemove_clears (url url' k : string) (id : Z) (s : State) :
  V1.getSiteStoreKey (Some url) = Normal k →
  V1.getSiteStoreKey (Some url') = Normal k →
  let r := V1.storageAreaRemove (Some url) s in
  r.1 = Normal tt
  ∧ storage r.2 = delete k (storage s)
  ∧ V1.isExempted (Some url') (Some id) r.2 = (Normal false, r.2).
Proof.
  intros Hk Hk' r. unfold r, V1.storageAreaRemove, V1.removeExempted, browser.storage_remove.
  run_unfold. rewrite Hk. run_eval. split_and!; [done|done|].
  rewrite (run_isExempted _ k) by done. run_eval.
  rewrite lookup_insert_eq. rewrite bool_decide_eq_false_2; [done|].
  apply not_elem_of_nil.
Qed.

Lemma storageAreaRemove_clears_witness :
  let r := V1.storageAreaRemove (Some "http://example.com/x") Sample3.assigned in
  r.1 = Normal tt
  ∧ storage r.2 = delete "siteContainerMap@@_example.com" (storage Sample3.assigned)
  ∧ V1.isExempted (Some "http://example.com/y") (Some 3%Z) r.2 = (Normal false, r.2).
Proof.
  apply (storageAreaRemove_clears "http://example.com/x" "http://example.com/y"
           "siteContainerMap@@_example.com" 3 Sample3.assigned); reflexivity.
Defined.

Lemma run_for_each_setExempted url k ids : ∀ s,
  V1.getSiteStoreKey url = Normal k →
  for_each ids (λ tabId, match tabId with
                         | Some i => V1.setExempted url i
                         | None => ret tt
                         end) s
  = (Normal tt, with_exemptedTabs (add_exempted k ids) s).
Proof.
  induction ids as [|[i|] ids IH]; intros s Hk.
  - by destruct s.
  - cbn [for_each]. run_unfold. rewrite (run_setExempted _ k) by done.
    rewrite IH by done. by destruct s.
  - cbn [for_each]. run_unfold. rewrite IH by done. by destruct s.
Qed.

Lemma add_exempted_other k k' ids : ∀ m, k' ≠ k → add_exempted k ids m !! k' = m !! k'.
Proof.
  induction ids as [|[i|] ids IH]; intros m Hk; [done| |by apply IH].
  unfold add_exempted in *. cbn [foldl]. rewrite IH by done.
  by rewrite lookup_insert_ne.
Qed.

Lemma add_exempted_keeps k i ids : ∀ m,
  Some i ∈ default [] (m !! k) → Some i ∈ default [] (add_exempted k ids m !! k).
Proof.
  induction ids as [|[j|] ids IH]; intros m Hi; [done| |by apply IH].
  unfold add_exempted in *. cbn [foldl]. apply IH.
  rewrite lookup_insert_eq. cbn [default]. apply elem_of_app. by left.
Qed.

Lemma add_exempted_adds k i ids : ∀ m,
  Some i ∈ ids → Some i ∈ default [] (add_exempted k ids m !! k).
Proof.
  induction ids as [|j ids IH]; intros m Hi; [by apply elem_of_nil in Hi|].
  apply elem_of_cons in Hi as [<-|Hi].
  - unfold add_exempted. cbn [foldl]. apply (add_exempted_keeps k i ids).
    rewrite lookup_insert_eq. cbn [default]. apply elem_of_app. right. by left.
  - destruct j; by apply IH.
Qed.

Lemma add_exempted_only k i ids : ∀ m,
  Some i ∈ default [] (add_exempted k ids m !! k) →
  Some i ∈ default [] (m !! k) ∨ Some i ∈ ids.
Proof.
  induction ids as [|[j|] ids IH]; intros m Hi; [by left| |].
  - unfold add_exempted in *. cbn [foldl] in Hi. apply IH in Hi as [Hi|Hi].
    + rewrite lookup_insert_eq in Hi. cbn [default] in Hi.
      apply elem_of_app in Hi as [Hi|Hi]; [by left|right].
      apply list_elem_of_singleton in Hi as ->. by left.
    + right. by right.
  - apply IH in Hi as [Hi|Hi]; [by left|right; by right].
Qed.

Lemma run_storageAreaSet url k data ids s :
  V1.getSiteStoreKey url = Normal k →
  V1.storageAreaSet url data (Some ids) s
  = (Normal tt,
     with_storage (insert k data)
       (with_calls (λ l, l ++ [LStorageSet k data])
          (with_exemptedTabs (add_exempted k ids) s))).
Proof.
  intros Hk. unfold V1.storageAreaSet, browser.storage_set.
  unfold mbind, M_bind, bind at 1. unfold lift at 1. rewrite Hk.
  unfold mbind, M_bind, bind at 1. rewrite (run_for_each_setExempted _ k) by done.
  by run_unfold.
Qed.

(** The keys of the sites are not keys of container states. *)
Lemma site_key_not_state_key url k c :
  V1.getSiteStoreKey url = Normal k → k ≠ getContainerStoreKey c.
Proof.
  unfold V1.getSiteStoreKey, getContainerStoreKey.
  destruct (JS.truthy_opt url); cbn [negb]; [|by intros [= <-]].
  destruct (Url.parse _); [|done].
  by destruct (_ || _); intros [= <-].
Qed.

(** X5. An assignment stored for a page is read back for every page of the
    same site; the tabs given with it are exempted for the site, and the
    keys of the container states are not written. *)
Theorem storageAreaSet_get (url url' k : string) (data : StoreVal)
    (ids : list (option Z)) (s : State) :
  V1.getSiteStoreKey (Some url) = Normal k →
  V1.getSiteStoreKey (Some url') = Normal k →
  JS.truthy url' = true →
  let r := V1.storageAreaSet (Some url) data (Some ids) s in
  r.1 = Normal tt
  ∧ (V1.storageAreaGet (Some url') r.2).1 = Normal (Some data)
  ∧ (∀ i, Some i ∈ ids → V1.isExempted (Some url') (Some i) r.2 = (Normal true, r.2))
  ∧ (∀ c, storage r.2 !! getContainerStoreKey c = storage s !! getContainerStoreKey c).
Proof.
  intros Hk Hk' Ht r. unfold r. rewrite (run_storageAreaSet _ k) by done.
  cbn [fst snd]. split_and!; [done| | |].
  - unfold V1.storageAreaGet, browser.storage_get. run_unfold. run_eval.
    rewrite Ht, Hk'. run_eval. by rewrite lookup_insert_eq.
  - intros i Hi. rewrite (run_isExempted _ k) by done. run_eval.
    pose proof (add_exempted_adds k i ids (exemptedTabs s) Hi) as Hin.
    destruct (add_exempted k ids (exemptedTabs s) !! k) as [l|]; cbn [default] in Hin.
    + by rewrite bool_decide_eq_true_2.
    + by apply elem_of_nil in Hin.
  - intros c. run_eval. apply lookup_insert_ne. by eapply site_key_not_state_key.
Qed.

Lemma storageAreaSet_get_witness :
  let r := V1.storageAreaSet (Some "https://example.com/") (VSite (IdStr "3") false)
             (Some [Some 4%Z; None]) Sample3.before in
  r.1 = Normal tt
  ∧ (V1.storageAreaGet (Some "https://example.com:443/a?b#c") r.2).1
    = Normal (Some (VSite (IdStr "3") false))
  ∧ (∀ i, Some i ∈ [Some 4%Z; None] →
          V1.isExempted (Some "https://example.com:443/a?b#c") (Some i) r.2
          = (Normal true, r.2))
  ∧ (∀ c, storage r.2 !! getContainerStoreKey c
          = storage Sample3.before !! getContainerStoreKey c).
Proof.
  apply (storageAreaSet_get "https://example.com/" "https://example.com:443/a?b#c"
           "siteContainerMap@@_example.com" (VSite (IdStr "3") false)
           [Some 4%Z; None] Sample3.before); reflexivity.
Defined.

Lemma exempt_others_spec k u tabs :
  Forall (λ t, ∃ k', V1.getSiteStoreKey (tab_url t) = Normal k') tabs →
  V1.exempt_others k u tabs
  = Normal (map tab_id (List.filter (on_site_elsewhere k u) tabs)).
Proof.
  induction 1 as [|t tabs [k' Hk'] _ IH]; [done|].
  cbn [V1.exempt_others List.filter]. unfold on_site_elsewhere at 1.
  rewrite Hk', IH. by destruct (_ && _).
Qed.

Lemma filter_query_all l : List.filter (browser.matches (mkQuery None None)) l = l.
Proof. induction l as [|t l IH]; [done|]. cbn. by rewrite IH. Qed.

(** What adding an assignment does, when the urls of the open tabs
    parse. *)
Lemma run_setAssignment tabId pageUrl k u s tab :
  V1.getSiteStoreKey (Some pageUrl) = Normal k →
  Forall (λ t, ∃ k', V1.getSiteStoreKey (tab_url t) = Normal k') (tabs s) →
  List.find (λ t, bool_decide (tab_id t = Some tabId)) (tabs s) = Some tab →
  ∃ l,
    V1._setOrRemoveAssignment tabId pageUrl u false s
    = (Normal tt,
       mkState (tabs s) (<[k := VSite (IdStr (String_of u)) false]> (storage s))
         (identities s) (canceledRequests s)
         (add_exempted k
            (map tab_id (List.filter (on_site_elsewhere k (String_of u)) (tabs s)))
            (exemptedTabs s))
         (lastCreatedTab s) (unhideQueue s) (extensionURL s) l).
Proof.
  intros Hk Hparse Hfind. eexists.
  unfold V1._setOrRemoveAssignment, browser.tabs_query, browser.tabs_get,
    calculateContextMenu.
  cbn [negb]. unfold mbind, M_bind, bind, lift, log, modify, get_state, mret, M_ret, ret.
  run_eval. rewrite filter_query_all, Hk, (exempt_others_spec _ _ _ Hparse).
  rewrite (run_storageAreaSet _ k) by done. run_eval. rewrite Hfind. reflexivity.
Qed.

(** X6. Assigning a site to a container stores the container id, as a
    string and with [neverAsk] off, under the key of the site, and exempts
    the open tabs that show the site in another container; a tab id that
    belongs to no such tab is exempted only if it was before.  The open
    tabs stay as they are. *)
Theorem assignment_exempts_open_tabs (tabId : Z) (pageUrl k : string) (u : JSId)
    (s : State) (tab : Tab) :
  V1.getSiteStoreKey (Some pageUrl) = Normal k →
  Forall (λ t, ∃ k', V1.getSiteStoreKey (tab_url t) = Normal k') (tabs s) →
  List.find (λ t, bool_decide (tab_id t = Some tabId)) (tabs s) = Some tab →
  let r := V1._setOrRemoveAssignment tabId pageUrl u false s in
  r.1 = Normal tt
  ∧ tabs r.2 = tabs s
  ∧ storage r.2 = <[k := VSite (IdStr (String_of u)) false]> (storage s)
  ∧ (∀ t i, t ∈ tabs s → tab_id t = Some i → on_site_elsewhere k (String_of u) t = true →
            V1.isExempted (Some pageUrl) (Some i) r.2 = (Normal true, r.2))
  ∧ (∀ i, (∀ t, t ∈ tabs s → tab_id t = Some i →
                on_site_elsewhere k (String_of u) t = false) →
          (V1.isExempted (Some pageUrl) (Some i) r.2).1
          = (V1.isExempted (Some pageUrl) (Some i) s).1).
Proof.
  intros Hk Hparse Hfind r. unfold r.
  destruct (run_setAssignment tabId pageUrl k u s tab Hk Hparse Hfind) as [l ->].
  cbn [fst snd tabs storage]. split_and!; [done|done|done| |].
  - intros t i Ht Hi Hel. rewrite (run_isExempted _ k) by done. cbn [exemptedTabs].
    match goal with |- context [add_exempted k ?ids ?m] =>
      pose proof (add_exempted_adds k i ids m) as Hin end.
    destruct (add_exempted _ _ _ !! k) as [l'|]; cbn [default] in Hin.
    + rewrite bool_decide_eq_true_2; [done|]. apply Hin.
      rewrite <- Hi. apply list_elem_of_fmap. exists t. split; [done|].
      apply list_elem_of_In, filter_In. split; [by apply list_elem_of_In|done].
    + exfalso. eapply elem_of_nil, Hin.
      rewrite <- Hi. apply list_elem_of_fmap. exists t. split; [done|].
      apply list_elem_of_In, filter_In. split; [by apply list_elem_of_In|done].
  - intros i Hnone. rewrite !(run_isExempted _ k) by done. cbn [exemptedTabs fst].
    f_equal.
    match goal with |- context [add_exempted k ?ids ?m] =>
      pose proof (add_exempted_only k i ids m) as Honly;
      pose proof (add_exempted_keeps k i ids m) as Hkeep end.
    assert (Hnot : Some i ∉ map tab_id
                     (List.filter (on_site_elsewhere k (String_of u)) (tabs s))).
    { intros Hin. apply list_elem_of_fmap in Hin as (t & Hi & Hin).
      apply list_elem_of_In, filter_In in Hin as [Hin Hel].
      apply list_elem_of_In in Hin. by rewrite (Hnone t Hin (eq_sym Hi)) in Hel. }
    destruct (add_exempted _ _ _ !! k) as [l1|], (exemptedTabs s !! k) as [l2|];
      cbn [default] in *.
    + apply bool_decide_ext. split; [|done]. intros H. by destruct (Honly H).
    + case_bool_decide as H; [|done]. destruct (Honly H) as [H'|H']; [|done].
      by apply elem_of_nil in H'.
    + case_bool_decide as H; [|done]. by apply Hkeep, elem_of_nil in H.
    + done.
Qed.

Lemma assignment_exempts_open_tabs_witness :
  let r := V1._setOrRemoveAssignment 1 "http://example.com" (IdNum 3) false Sample3.before in
  r.1 = Normal tt
  ∧ tabs r.2 = tabs Sample3.before
  ∧ storage r.2 = <["siteContainerMap@@_example.com" := VSite (IdStr "3") false]>
                    (storage Sample3.before)
  ∧ (∀ t i, t ∈ tabs Sample3.before → tab_id t = Some i →
            on_site_elsewhere "siteContainerMap@@_example.com" "3" t = true →
            V1.isExempted (Some "http://example.com") (Some i) r.2 = (Normal true, r.2))
  ∧ (∀ i, (∀ t, t ∈ tabs Sample3.before → tab_id t = Some i →
                on_site_elsewhere "siteContainerMap@@_example.com" "3" t = false) →
          (V1.isExempted (Some "http://example.com") (Some i) r.2).1
          = (V1.isExempted (Some "http://example.com") (Some i) Sample3.before).1).
Proof.
  apply (assignment_exempts_open_tabs 1 "http://example.com"
           "siteContainerMap@@_example.com" (IdNum 3) Sample3.before
           (Sample.tab 1 "firefox-container-3" "http://example.com/")).
  - reflexivity.
  - repeat constructor; eexists; reflexivity.
  - reflexivity.
Defined.

(** A request of an exempted tab is let through. *)
Lemma V1_candidate_exempted rq s t k l :
  List.find (λ x, bool_decide (tab_id x = Some (req_tabId rq))) (tabs s) = Some t →
  JS.truthy (req_url rq) = true →
  V1.getSiteStoreKey (Some (req_url rq)) = Normal k →
  exemptedTabs s !! k = Some l →
  tab_id t ∈ l →
  (V1.candidate rq s).1 = Normal None.
Proof.
  intros Hfind Ht Hk Hl Hin.
  pose proof (find_tab_id _ _ _ Hfind) as Hid.
  unfold V1.candidate, V1.storageAreaGet, V1.isExempted, browser.tabs_get,
    removeContextMenu, browser.storage_get, browser.contextualIdentities_get.
  run_unfold. destruct (negb _ || _); [done|].
  run_eval. rewrite Hfind, Ht, Hk. run_eval.
  destruct (storage s !! k) as [v|] eqn:Hv; [|done].
  destruct (val_truthy (Some v)) eqn:Htr; run_eval; rewrite ?Htr; run_eval.
  2: { by destruct (negb (JSId_truthy _)). }
  destruct (bool_decide (_ ∈ identities s)); run_eval; [|done].
  destruct (_ || _); [done|].
  rewrite Hid in *. run_eval. rewrite Hl.
  by rewrite bool_decide_eq_true_2.
Qed.

(** X7. After a site is assigned to a container, a navigation to the site
    in a tab that was open on the site in another container is let through
    and opens nothing: the assignment does not pull the tabs that are
    already there into the container. *)
Theorem assignment_spares_open_tabs (tabId : Z) (pageUrl k : string) (u : JSId)
    (s : State) (tab t : Tab) (rq : Request) :
  V1.getSiteStoreKey (Some pageUrl) = Normal k →
  Forall (λ t, ∃ k', V1.getSiteStoreKey (tab_url t) = Normal k') (tabs s) →
  List.find (λ x, bool_decide (tab_id x = Some tabId)) (tabs s) = Some tab →
  List.find (λ x, bool_decide (tab_id x = Some (req_tabId rq))) (tabs s) = Some t →
  on_site_elsewhere k (String_of u) t = true →
  JS.truthy (req_url rq) = true →
  V1.getSiteStoreKey (Some (req_url rq)) = Normal k →
  let s1 := (V1._setOrRemoveAssignment tabId pageUrl u false s).2 in
  (V1.onBeforeRequest rq s1).1 = Normal false
  ∧ reloads (calls (V1.onBeforeRequest rq s1).2) = reloads (calls s1).
Proof.
  intros Hk Hparse Hfind Ht Hel Htr Hrk s1.
  pose proof (find_tab_id _ _ _ Ht) as Hid.
  assert (Hin : Some (req_tabId rq) ∈ default [] (exemptedTabs s1 !! k)
                ∧ tabs s1 = tabs s).
  { unfold s1.
    destruct (run_setAssignment tabId pageUrl k u s tab Hk Hparse Hfind) as [l ->].
    cbn [snd exemptedTabs tabs]. split; [|done]. apply add_exempted_adds.
    rewrite <- Hid. apply list_elem_of_fmap. exists t. split; [done|].
    apply list_elem_of_In, filter_In. split; [|done].
    by apply find_some in Ht as [Ht _]. }
  destruct Hin as [Hin Htabs].
  destruct (exemptedTabs s1 !! k) as [l|] eqn:Hl; cbn [default] in Hin;
    [|by apply elem_of_nil in Hin].
  rewrite <- Htabs in Ht. rewrite <- Hid in Hin.
  pose proof (V1_candidate_exempted rq s1 t k l Ht Htr Hrk Hl Hin) as Hc.
  pose proof (candidate_frame BackgroundPage1 rq s1) as [Hr _].
  cbn [candidate] in Hr. unfold V1.onBeforeRequest, mbind, M_bind, bind.
  destruct (V1.candidate rq s1) as [[c|e] s2]; cbn [fst snd] in *; [|done].
  by injection Hc as ->.
Qed.

Lemma assignment_spares_open_tabs_witness :
  let s1 := (V1._setOrRemoveAssignment 1 "http://example.com" (IdStr "3") false
               Sample3.before).2 in
  (V1.onBeforeRequest (mkRequest "r1" "http://example.com/news" 0 3) s1).1 = Normal false
  ∧ reloads (calls (V1.onBeforeRequest (mkRequest "r1" "http://example.com/news" 0 3) s1).2)
    = reloads (calls s1).
Proof.
  apply (assignment_spares_open_tabs 1 "http://example.com"
           "siteContainerMap@@_example.com" (IdStr "3") Sample3.before
           (Sample.tab 1 "firefox-container-3" "http://example.com/")
           (Sample.tab 3 "firefox-container-0" "http://example.com/about")
           (mkRequest "r1" "http://example.com/news" 0 3)).
  - reflexivity.
  - repeat constructor; eexists; reflexivity.
  - reflexivity.
  - reflexivity.
  - reflexivity.
  - reflexivity.
  - reflexivity.
Defined.

(** X8. The answer "never ask again" turns [neverAsk] on in the assignment
    of the site and keeps its container; where the site has no assignment,
    nothing is stored.  The exemptions are not touched. *)
Theorem neverAsk_updates_assignment (url k : string) (s : State) :
  JS.truthy url = true →
  V1.getSiteStoreKey (Some url) = Normal k →
  let r := V1._neverAsk (Some url) true s in
  r.1 = Normal tt
  ∧ exemptedTabs r.2 = exemptedTabs s
  ∧ (∀ u b, storage s !! k = Some (VSite u b) →
            storage r.2 = <[k := VSite u true]> (storage s))
  ∧ (storage s !! k = None → storage r.2 = storage s).
Proof.
  intros Ht Hk r. unfold r, V1._neverAsk, V1.storageAreaGet, V1.storageAreaSet,
    browser.storage_get, browser.storage_set.
  run_unfold. run_eval. rewrite Ht, Hk. run_eval.
  split_and!; [done| | |].
  - destruct (storage s !! k) as [[]|]; run_eval; try done.
    by destruct (negb _).
  - by intros u b ->.
  - by intros ->.
Qed.

Lemma neverAsk_updates_assignment_witness :
  let r := V1._neverAsk (Some "http://example.com/page") true Sample3.assigned in
  r.1 = Normal tt
  ∧ exemptedTabs r.2 = exemptedTabs Sample3.assigned
  ∧ (∀ u b, storage Sample3.assigned !! "siteContainerMap@@_example.com"
            = Some (VSite u b) →
            storage r.2 = <["siteContainerMap@@_example.com" := VSite u true]>
                            (storage Sample3.assigned))
  ∧ (storage Sample3.assigned !! "siteContainerMap@@_example.com" = None →
     storage r.2 = storage Sample3.assigned).
Proof.
  apply (neverAsk_updates_assignment "http://example.com/page"
           "siteContainerMap@@_example.com" Sample3.assigned); reflexivity.
Defined.

(** ** Hiding and showing the tabs of a container *)


(** X9. [openNewTab] opens no blank tab: without a url, with an empty url
    and with the url of a new-tab page it leaves the browser alone.  In
    background-page-1.ts it returns; in background-page.ts it rejects,
    since [isPermissibleURL] parses [undefined]. *)
Theorem openNewTab_no_blank_tab (options : OpenNewTabOptions) (s : State) :
  JS.truthy_opt (on_url options) = false
  ∨ (∃ u, on_url options = Some u ∧ u ∈ NEW_TAB_PAGES) →
  openNewTab BackgroundPage1 options s = (Normal tt, s)
  ∧ openNewTab BackgroundPage options s = (Throw "TypeError: invalid URL", s).
Proof.
  intros H. unfold openNewTab, V1.openNewTab, V0.openNewTab.
  destruct H as [H|(u & Hu & Hin)].
  - rewrite H. run_eval. by run_unfold.
  - rewrite Hu. revert Hin. unfold NEW_TAB_PAGES. rewrite !elem_of_cons, elem_of_nil.
    intros [->|[->|[->|[->|[]]]]]; split; reflexivity.
Qed.

Lemma openNewTab_no_blank_tab_witness :
  openNewTab BackgroundPage1 (mkOpenNewTab Absent (Some "about:newtab") Absent None)
    Sample5.state = (Normal tt, Sample5.state)
  ∧ openNewTab BackgroundPage (mkOpenNewTab Absent (Some "about:newtab") Absent None)
      Sample5.state = (Throw "TypeError: invalid URL", Sample5.state).
Proof.
  apply (openNewTab_no_blank_tab (mkOpenNewTab Absent (Some "about:newtab") Absent None)
           Sample5.state).
  right. exists "about:newtab". split; [reflexivity|]. right. left.
Defined.






Lemma state_eq s s' :
  tabs s = tabs s' → storage s = storage s' → identities s = identities s' →
  canceledRequests s = canceledRequests s' → exemptedTabs s = exemptedTabs s' →
  lastCreatedTab s = lastCreatedTab s' → unhideQueue s = unhideQueue s' →
  extensionURL s = extensionURL s' → calls s = calls s' → s = s'.
Proof. destruct s, s'. cbn. by intros -> -> -> -> -> -> -> -> ->. Qed.

(** Two runs end alike: the states are compared field by field. *)
Ltac same_state :=
  apply (f_equal (pair _)); apply state_eq; run_eval; rewrite ?insert_insert_eq;
  try reflexivity.




Lemma V1_id_of_store id :
  V1.getUserContextIdFromCookieStoreId (Some (V1.getCookieStoreId (IdStr id))) = IdStr id.
Proof.
  unfold V1.getUserContextIdFromCookieStoreId, V1.getCookieStoreId. cbn [String_of].
  rewrite replace_prefix. change ("" +:+ id) with id.
  assert (Hne : id ≠ "firefox-container-" +:+ id).
  { intros H. by apply (app_neq "firefox-container-" id). }
  by rewrite (bool_decide_eq_true_2 _ Hne).
Qed.

Lemma V1_snapshot_runs tabs : ∀ l,
  Forall parses tabs →
  V1.snapshot (VState l) tabs = Normal (VState (l ++ map set_hidden (List.filter kept tabs))).
Proof.
  induction tabs as [|t tabs IH]; intros l Hp.
  - cbn. by rewrite app_nil_r.
  - apply Forall_cons in Hp as [[b Hb] Hp]. cbn [V1.snapshot List.filter].
    rewrite Hb, <- (V1_permissible_kept _ _ Hb). destruct b.
    + cbn [push_hidden _createTabObject]. rewrite IH by done.
      cbn [map]. by rewrite <- (assoc_L (++)).
    + by apply IH.
Qed.

Lemma NoDup_fmap_inj_on {A B} (f : A → B) (l : list A) x y :
  NoDup (f <$> l) → x ∈ l → y ∈ l → f x = f y → x = y.
Proof.
  induction l as [|a l IH]; [by intros _ ?%elem_of_nil|].
  rewrite fmap_cons, NoDup_cons, !elem_of_cons.
  intros [Ha Hl] [->|Hx] [->|Hy] Hf; try done.
  - exfalso. apply Ha. rewrite Hf. apply list_elem_of_fmap. by exists y.
  - exfalso. apply Ha. rewrite <- Hf. apply list_elem_of_fmap. by exists x.
  - by apply IH.
Qed.

(** Removing the tabs that a query gives, by their ids, removes the tabs
    that match the query. *)
Lemma remove_matching q (strip : list Tab) :
  NoDup (tab_id <$> strip) →
  Forall (λ t, is_Some (tab_id t)) strip →
  List.filter (λ t, negb (bool_decide
                            (tab_id t ∈ List.filter (λ i, bool_decide (is_Some i))
                                          (map tab_id (List.filter (browser.matches q) strip)))))
              strip
  = List.filter (λ t, negb (browser.matches q t)) strip.
Proof.
  intros Hnd Hsome. apply List.filter_ext_in. intros a Ha%list_elem_of_In. f_equal.
  destruct (browser.matches q a) eqn:Hm.
  - apply bool_decide_eq_true_2, list_elem_of_In, filter_In. split.
    + apply in_map, filter_In. split; [by apply list_elem_of_In|done].
    + apply bool_decide_eq_true_2. by eapply Forall_forall in Hsome.
  - apply bool_decide_eq_false_2. intros Hin%list_elem_of_In%filter_In.
    destruct Hin as [Hin _]. apply in_map_iff in Hin as (t & Hid & Hin).
    apply filter_In in Hin as [Hin%list_elem_of_In Hmt].
    rewrite (NoDup_fmap_inj_on tab_id strip a t Hnd Ha Hin (eq_sym Hid)) in Hm.
    by rewrite Hm in Hmt.
Qed.

(** What [hideTabs] does for a container and a window, when the urls of
    the tabs to hide parse. *)
Lemma run_hideTabs id w l s :
  JS.truthy id = true → w ≠ 0%Z →
  let c := V1.getCookieStoreId (IdStr id) in
  let q := mkQuery (Some c) (Some w) in
  hiddenTabs_of s c = VState l →
  Forall parses (List.filter (browser.matches q) (tabs s)) →
  ∃ log,
    V1.hideTabs (mkTabsOptions (Present (Some c)) (Present (Some w))) s
    = (Normal tt,
       mkState
         (List.filter
            (λ t, negb (bool_decide
               (tab_id t ∈ List.filter (λ i, bool_decide (is_Some i))
                             (map tab_id (List.filter (browser.matches q) (tabs s))))))
            (tabs s))
         (<[getContainerStoreKey (Some c) :=
              VState (l ++ map set_hidden
                             (List.filter kept (List.filter (browser.matches q) (tabs s))))]>
            (storage s))
         (identities s) (canceledRequests s) (exemptedTabs s) (lastCreatedTab s)
         (unhideQueue s) (extensionURL s) log)
    ∧ created log = created (calls s).
Proof.
  intros Hid Hw c q Hh Hp. unfold hiddenTabs_of in Hh.
  assert (Hargs : V1.checkArgs ["cookieStoreId"; "windowId"]
                    (mkTabsOptions (Present (Some c)) (Present (Some w))) "hideTabs"
                  = Normal (c, w)).
  { unfold V1.checkArgs. cbn. by destruct w. }
  unfold V1.hideTabs. unfold mbind at 1, M_bind at 1, bind at 1, lift at 1.
  rewrite Hargs. cbn iota beta.
  pose proof (V1_id_of_store id) as Hu.
  change (V1.getCookieStoreId (IdStr id)) with c in Hu.
  rewrite Hu. cbn [JSId_truthy]. rewrite Hid. cbn [negb].
  unfold V1.storeHidden, V1._closeTabs, identityStateGet, identityStateSet,
    browser.storage_get, browser.storage_set, browser.tabs_query, browser.tabs_remove.
  unfold mbind, M_bind, bind, lift, log, modify, get_state, mret, M_ret, ret. run_eval.
  change (V1.getCookieStoreId (IdStr id)) with c.
  change (mkQuery (Some c) (Some w)) with q. clearbody q c.
  destruct (storage s !! getContainerStoreKey (Some c)) as [v|] eqn:Hv;
    simpl in Hh; subst.
  - run_eval. rewrite (V1_snapshot_runs _ _ Hp). run_eval.
    eexists. split; [same_state|]. run_eval.
    rewrite !created_app. cbn. by rewrite !app_nil_r.
  - injection Hh as <-. unfold _createIdentityState. run_eval.
    rewrite (V1_snapshot_runs _ _ Hp). run_eval.
    eexists. split; [same_state|]. run_eval.
    rewrite !created_app. cbn. by rewrite !app_nil_r.
Qed.

(** X11. [hideTabs], for a container and a window: the snapshots of the
    tabs of the container in the window whose url can be reopened are
    appended to the hidden tabs of the container, and every tab of the
    container in the window is closed, also those that were not stored.
    The other tabs stay, and no tab is opened. *)
Theorem hideTabs_stores_and_closes (id : string) (w : Z) (l : list Tab) (s : State) :
  JS.truthy id = true → w ≠ 0%Z →
  let c := V1.getCookieStoreId (IdStr id) in
  let q := mkQuery (Some c) (Some w) in
  hiddenTabs_of s c = VState l →
  Forall parses (List.filter (browser.matches q) (tabs s)) →
  NoDup (tab_id <$> tabs s) →
  Forall (λ t, is_Some (tab_id t)) (tabs s) →
  let r := V1.hideTabs (mkTabsOptions (Present (Some c)) (Present (Some w))) s in
  r.1 = Normal tt
  ∧ storage r.2
    = <[getContainerStoreKey (Some c) :=
          VState (l ++ map set_hidden
                         (List.filter kept (List.filter (browser.matches q) (tabs s))))]>
        (storage s)
  ∧ tabs r.2 = List.filter (λ t, negb (browser.matches q t)) (tabs s)
  ∧ created (calls r.2) = created (calls s).
Proof.
  intros Hid Hw c q Hh Hp Hnd Hsome r. unfold r. subst c q.
  destruct (run_hideTabs id w l s Hid Hw Hh Hp) as (log & -> & Hlog).
  cbn [fst snd storage tabs calls]. split_and!; [done|done| |done].
  by apply remove_matching.
Qed.

Lemma hideTabs_stores_and_closes_witness :
  let c := V1.getCookieStoreId (IdStr "1") in
  let q := mkQuery (Some c) (Some 1%Z) in
  let r := V1.hideTabs (mkTabsOptions (Present (Some c)) (Present (Some 1%Z)))
             Sample6.state in
  r.1 = Normal tt
  ∧ storage r.2
    = <[getContainerStoreKey (Some c) :=
          VState ([Sample6.hidden]
                  ++ map set_hidden
                       (List.filter kept
                          (List.filter (browser.matches q) (tabs Sample6.state))))]>
        (storage Sample6.state)
  ∧ tabs r.2 = List.filter (λ t, negb (browser.matches q t)) (tabs Sample6.state)
  ∧ created (calls r.2) = created (calls Sample6.state).
Proof.
  apply (hideTabs_stores_and_closes "1" 1 [Sample6.hidden] Sample6.state).
  - reflexivity.
  - discriminate.
  - reflexivity.
  - repeat constructor; eexists; reflexivity.
  - apply (bool_decide_unpack _). by vm_compute.
  - repeat constructor; by eexists.
Defined.








(** What [unhideContainer] does around [showTabs]. *)
Lemma run_unhideContainer c s :
  JS.truthy c = true → Some c ∉ unhideQueue s →
  V1.unhideContainer (Some c) s
  = match V1.showTabs (mkShowTabs (Present (Some c)) None)
            (with_unhideQueue (λ q, q ++ [Some c]) s) with
    | (Normal _, s') =>
        (Normal tt,
         with_unhideQueue (λ q, match list_find (λ x, x = Some c) q with
                                | Some (i, _) => take i q ++ drop (S i) q
                                | None => take (length q - 1) q
                                end) s')
    | (Throw e, s') => (Throw e, s')
    end.
Proof.
  intros Ht Hq. unfold V1.unhideContainer.
  unfold mbind, M_bind, bind, get_state, modify, mret, M_ret, ret. cbn [JS.truthy_opt].
  rewrite Ht, bool_decide_eq_false_2 by done. cbn [negb andb].
  by destruct (V1.showTabs _ _) as [[[]|e] s'].
Qed.



Lemma showTabs_queue o s : unhideQueue (V1.showTabs o s).2 = unhideQueue s.
Proof.
  unfold V1.showTabs, identityStateGet, identityStateSet, browser.storage_get,
    browser.storage_set.
  unfold mbind, M_bind, bind, log, modify, get_state, mret, M_ret, ret, throw. run_eval.
  assert (Hall : ∀ (l : list Tab) f s',
            (∀ t s'', unhideQueue (f t s'').2 = unhideQueue s'') →
            unhideQueue (promise_all l f s').2 = unhideQueue s').
  { intros l f. induction l as [|t l IH]; intros s' Hf; [done|].
    cbn [promise_all]. specialize (Hf t s') as Ht.
    destruct (f t s') as [r1 s1]. specialize (IH s1 Hf).
    destruct (promise_all l f s1) as [r2 s2]. cbn [snd] in *. congruence. }
  assert (Hopen : ∀ o' s', unhideQueue (V1.openNewTab o' s').2 = unhideQueue s').
  { intros o' s'. unfold V1.openNewTab, browser.tabs_create.
    unfold mbind, M_bind, bind, lift, log, modify, mret, M_ret, ret.
    destruct (V1.isPermissibleURL _) as [[]|]; done. }
  destruct (storage s !! _) as [v|]; run_eval.
  - destruct (val_hiddenTabs v) as [l|]; [|done].
    match goal with |- context [promise_all l ?f ?s'] =>
      pose proof (Hall l f s' (λ t s'', Hopen _ s'')) as Hq;
      destruct (promise_all l f s') as [[[]|e] s'']
    end; cbn [snd unhideQueue with_calls with_storage] in *; done.
  - cbn [val_hiddenTabs _createIdentityState promise_all]. done.
Qed.

(** X14. When [showTabs] fails, [unhideContainer] fails with it and leaves
    the container in the queue of the containers being shown: every later
    [unhideContainer] for the container does nothing. *)
Theorem unhideContainer_failure_blocks (c e : string) (s : State) :
  JS.truthy c = true → Some c ∉ unhideQueue s →
  (V1.showTabs (mkShowTabs (Present (Some c)) None)
     (with_unhideQueue (λ q, q ++ [Some c]) s)).1 = Throw e →
  let r := V1.unhideContainer (Some c) s in
  r.1 = Throw e
  ∧ Some c ∈ unhideQueue r.2
  ∧ V1.unhideContainer (Some c) r.2 = (Normal tt, r.2).
Proof.
  intros Ht Hq He r. unfold r. rewrite run_unhideContainer by done.
  pose proof (showTabs_queue (mkShowTabs (Present (Some c)) None)
                (with_unhideQueue (λ q, q ++ [Some c]) s)) as Hqueue.
  destruct (V1.showTabs _ _) as [[[]|e'] s']; cbn [fst snd] in *; [done|].
  injection He as ->.
  assert (Hin : Some c ∈ unhideQueue s').
  { rewrite Hqueue. cbn. apply elem_of_app. right. by left. }
  split_and!; [done|done|].
  unfold V1.unhideContainer. unfold mbind, M_bind, bind, get_state, mret, M_ret, ret.
  cbn [JS.truthy_opt]. by rewrite Ht, bool_decide_eq_true_2.
Qed.

Lemma unhideContainer_failure_blocks_witness :
  let r := V1.unhideContainer (Some "firefox-container-1") Sample8.state in
  r.1 = Throw "TypeError: invalid URL"
  ∧ Some "firefox-container-1" ∈ unhideQueue r.2
  ∧ V1.unhideContainer (Some "firefox-container-1") r.2 = (Normal tt, r.2).
Proof.
  apply (unhideContainer_failure_blocks "firefox-container-1" "TypeError: invalid URL"
           Sample8.state).
  - reflexivity.
  - apply not_elem_of_nil.
  - reflexivity.
Defined.

Lemma run_getTabs c w l s :
  JS.truthy c = true → w ≠ 0%Z →
  hiddenTabs_of s c = VState l →
  (V1.getTabs (mkTabsOptions (Present (Some c)) (Present (Some w))) s).1
  = Normal (List.filter (browser.matches (mkQuery (Some c) (Some w))) (tabs s) ++ l).
Proof.
  intros Ht Hw Hh. unfold hiddenTabs_of in Hh.
  assert (Hargs : V1.checkArgs ["cookieStoreId"; "windowId"]
                    (mkTabsOptions (Present (Some c)) (Present (Some w))) "getTabs"
                  = Normal (c, w)).
  { unfold V1.checkArgs. destruct c; [done|]. cbn. by destruct w. }
  unfold V1.getTabs. unfold mbind at 1, M_bind at 1, bind at 1, lift at 1.
  rewrite Hargs. cbn iota beta.
  unfold identityStateGet, identityStateSet, browser.storage_get, browser.storage_set,
    browser.tabs_query, _createTabObject.
  unfold mbind, M_bind, bind, lift, log, modify, get_state, mret, M_ret, ret. run_eval.
  rewrite map_id.
  destruct (storage s !! getContainerStoreKey (Some c)) as [v|]; simpl in Hh; subst.
  - done.
  - by injection Hh as <-.
Qed.

Lemma filter_matching_gone q (l : list Tab) :
  List.filter (browser.matches q) (List.filter (λ t, negb (browser.matches q t)) l) = [].
Proof.
  induction l as [|t l IH]; [done|]. cbn [List.filter].
  destruct (browser.matches q t) eqn:Hm; cbn [negb List.filter]; [done|].
  by rewrite Hm.
Qed.

(** X15. After [hideTabs] for a container and a window, [getTabs] for
    them lists no open tab: it lists the tabs hidden before and the
    snapshots just taken, each marked as hidden and not active. *)
Theorem getTabs_after_hideTabs (id : string) (w : Z) (l : list Tab) (s : State) :
  JS.truthy id = true → w ≠ 0%Z →
  let c := V1.getCookieStoreId (IdStr id) in
  let q := mkQuery (Some c) (Some w) in
  let options := mkTabsOptions (Present (Some c)) (Present (Some w)) in
  hiddenTabs_of s c = VState l →
  Forall parses (List.filter (browser.matches q) (tabs s)) →
  NoDup (tab_id <$> tabs s) →
  Forall (λ t, is_Some (tab_id t)) (tabs s) →
  (V1.getTabs options (V1.hideTabs options s).2).1
  = Normal (l ++ map set_hidden
                   (List.filter kept (List.filter (browser.matches q) (tabs s)))).
Proof.
  intros Hid Hw c q options Hh Hp Hnd Hsome. subst options q.
  destruct (run_hideTabs id w l s Hid Hw Hh Hp) as (log & Hrun & Hlog).
  fold c in Hrun. rewrite Hrun. clear Hrun. cbn [snd].
  assert (Hc : JS.truthy c = true) by done.
  clearbody c.
  rewrite (run_getTabs c w
             (l ++ map set_hidden
                     (List.filter kept
                        (List.filter (browser.matches (mkQuery (Some c) (Some w)))
                                     (tabs s))))); try done.
  - cbn [tabs]. by rewrite remove_matching, filter_matching_gone.
  - unfold hiddenTabs_of. cbn [storage]. by rewrite lookup_insert_eq.
Qed.

Lemma getTabs_after_hideTabs_witness :
  let c := V1.getCookieStoreId (IdStr "1") in
  let q := mkQuery (Some c) (Some 1%Z) in
  let options := mkTabsOptions (Present (Some c)) (Present (Some 1%Z)) in
  (V1.getTabs options (V1.hideTabs options Sample6.state).2).1
  = Normal ([Sample6.hidden]
            ++ map set_hidden
                 (List.filter kept
                    (List.filter (browser.matches q) (tabs Sample6.state)))).
Proof.
  apply (getTabs_after_hideTabs "1" 1 [Sample6.hidden] Sample6.state).
  - reflexivity.
  - discriminate.
  - reflexivity.
  - repeat constructor; eexists; reflexivity.
  - apply (bool_decide_unpack _). by vm_compute.
  - repeat constructor; by eexists.
Defined.

(** ** Deleting a container that is not there *)

Lemma V1_deleteContainer_missing u s :
  V1.getCookieStoreId u ∉ identities s →
  (V1.deleteContainer u false s).1 = Throw "Invalid contextual identity"
  ∧ storage (V1.deleteContainer u false s).2 = storage s
  ∧ identities (V1.deleteContainer u false s).2 = identities s.
Proof.
  intros Hid.
  unfold V1.deleteContainer, V1._closeTabs, browser.tabs_query, browser.tabs_remove,
    browser.contextualIdentities_remove.
  run_unfold. run_eval. by rewrite bool_decide_eq_false_2.
Qed.

(** X16. Deleting a container whose identity the browser does not have
    fails at the removal of the identity, after the tabs of the container
    are closed and before the store is read: the assignments of the
    container stay in the store.  In both files. *)
Theorem deleteContainer_missing_identity (f : Variant) (u : JSId) (s : State) :
  V1.getCookieStoreId u ∉ identities s →
  let r := deleteContainer f u false s in
  r.1 = Throw "Invalid contextual identity"
  ∧ storage r.2 = storage s
  ∧ identities r.2 = identities s.
Proof.
  intros Hid r. unfold r.
  destruct f; unfold deleteContainer.
  - unfold V0.deleteContainer, V0._closeTabs, browser.tabs_query, browser.tabs_remove,
      browser.contextualIdentities_remove.
    change (V0.cookieStoreId u) with (V1.getCookieStoreId u).
    run_unfold. run_eval. by rewrite bool_decide_eq_false_2.
  - by apply V1_deleteContainer_missing.
Qed.

Lemma deleteContainer_missing_identity_witness :
  let r := deleteContainer BackgroundPage1 (IdStr "9") false Sample4.state in
  r.1 = Throw "Invalid contextual identity"
  ∧ storage r.2 = storage Sample4.state
  ∧ identities r.2 = identities Sample4.state.
Proof.
  apply (deleteContainer_missing_identity BackgroundPage1 (IdStr "9") Sample4.state).
  apply (bool_decide_unpack _). by vm_compute.
Defined.

Lemma V1_stale rq s t k u b :
  negb (req_frameId rq =? 0)%Z || (req_tabId rq =? -1)%Z = false →
  List.find (λ x, bool_decide (tab_id x = Some (req_tabId rq))) (tabs s) = Some t →
  JS.truthy (req_url rq) = true →
  V1.getSiteStoreKey (Some (req_url rq)) = Normal k →
  storage s !! k = Some (VSite u b) →
  V1.getCookieStoreId u ∉ identities s →
  ∃ s1, V1.candidate rq s
        = (Normal None,
           (V1.deleteContainer u false s1).2) ∧ storage s1 = storage s
        ∧ identities s1 = identities s.
Proof.
  intros Hgate Hfind Hu Hk Hv Hid.
  unfold V1.candidate, V1.storageAreaGet, browser.tabs_get,
    removeContextMenu, browser.storage_get, browser.contextualIdentities_get.
  unfold mbind, M_bind, bind, mret, M_ret, ret, throw, lift, promise_all2, try_catch,
    detach, get_state, log, modify.
  rewrite Hgate. run_eval. rewrite Hfind, Hu, Hk. run_eval.
  rewrite Hv. run_eval. rewrite bool_decide_eq_false_2 by done. run_eval.
  eexists. split; [reflexivity|]. by run_eval.
Qed.

Lemma V0_stale rq s t k u b :
  negb (req_frameId rq =? 0)%Z || (req_tabId rq =? -1)%Z = false →
  List.find (λ x, bool_decide (tab_id x = Some (req_tabId rq))) (tabs s) = Some t →
  V0.getSiteStoreKey (Some (req_url rq)) = Normal k →
  storage s !! k = Some (VSite u b) →
  V0.cookieStoreId u ∉ identities s →
  ∃ s1, V0.candidate rq s
        = (Normal None,
           (V0.assignManager_deleteContainer u s1).2) ∧ storage s1 = storage s.
Proof.
  intros Hgate Hfind Hk Hv Hid.
  unfold V0.candidate, V0.storageArea_get, browser.tabs_get,
    removeContextMenu, browser.storage_get, browser.contextualIdentities_get.
  unfold mbind, M_bind, bind, mret, M_ret, ret, throw, lift, promise_all2, try_catch,
    get_state, log, modify.
  rewrite Hgate. run_eval. rewrite Hfind, Hk. run_eval.
  rewrite Hv. run_eval. rewrite bool_decide_eq_false_2 by done. run_eval.
  destruct (V0.assignManager_deleteContainer _ _) as [[[]|e] s2] eqn:Hd.
  - eexists. split; [by rewrite Hd|]. by run_eval.
  - exfalso. revert Hd. unfold V0.assignManager_deleteContainer, detach. done.
Qed.

Lemma V0_deleteContainer_store u s k :
  storage (V0.assignManager_deleteContainer u s).2 !! k
  = match storage s !! k with
    | Some v =>
        if bool_decide (String_of (val_userContextId v) = String_of u) then None else Some v
    | None => None
    end.
Proof.
  unfold V0.assignManager_deleteContainer, V0.storageArea_deleteContainer,
    V0.storageArea_getByContainer, browser.storage_get_all, browser.storage_remove.
  run_unfold. run_eval. apply by_container_lookup.
Qed.

(** X17. A navigation to a site that is assigned to a container the
    browser no longer has is let through by both files.  The file
    background-page.ts then deletes the assignment; background-page-1.ts
    calls [deleteContainer], which fails at the missing identity, and the
    assignment stays in the store. *)
Theorem stale_assignment (rq : Request) (s : State) (t : Tab) (k : string)
    (u : JSId) (b : bool) :
  req_frameId rq = 0%Z → req_tabId rq ≠ (-1)%Z →
  List.find (λ x, bool_decide (tab_id x = Some (req_tabId rq))) (tabs s) = Some t →
  JS.truthy (req_url rq) = true →
  V1.getSiteStoreKey (Some (req_url rq)) = Normal k →
  storage s !! k = Some (VSite u b) →
  V1.getCookieStoreId u ∉ identities s →
  (V1.onBeforeRequest rq s).1 = Normal false
  ∧ storage (V1.onBeforeRequest rq s).2 = storage s
  ∧ (V0.onBeforeRequest rq s).1 = Normal false
  ∧ storage (V0.onBeforeRequest rq s).2 !! k = None.
Proof.
  intros Hf Ht Hfind Hu Hk Hv Hid.
  assert (Hgate : negb (req_frameId rq =? 0)%Z || (req_tabId rq =? -1)%Z = false).
  { rewrite Hf. cbn. by apply Z.eqb_neq. }
  destruct (V1_stale rq s t k u b Hgate Hfind Hu Hk Hv Hid) as (s1 & H1 & Hs1 & Hi1).
  pose proof Hk as Hk0. rewrite <- (getSiteStoreKey_agree _ Hu) in Hk0.
  destruct (V0_stale rq s t k u b Hgate Hfind Hk0 Hv Hid) as (s0 & H0 & Hs0).
  unfold V1.onBeforeRequest, V0.onBeforeRequest, mbind, M_bind, bind.
  rewrite H1, H0. cbn [fst snd mret M_ret ret].
  split_and!; [done| |done|].
  - destruct (V1_deleteContainer_missing u s1) as (_ & -> & _); [by rewrite Hi1|done].
  - rewrite V0_deleteContainer_store, Hs0, Hv. cbn [val_userContextId].
    by rewrite bool_decide_eq_true_2.
Qed.

Lemma stale_assignment_witness :
  (V1.onBeforeRequest Sample.first Sample9.state).1 = Normal false
  ∧ storage (V1.onBeforeRequest Sample.first Sample9.state).2 = storage Sample9.state
  ∧ (V0.onBeforeRequest Sample.first Sample9.state).1 = Normal false
  ∧ storage (V0.onBeforeRequest Sample.first Sample9.state).2 !! "siteContainerMap@@_a.com"
    = None.
Proof.
  apply (stale_assignment Sample.first Sample9.state
           (Sample.tab 7 "firefox-container-1" "http://start.org/")
           "siteContainerMap@@_a.com" (IdStr "3") false).
  - reflexivity.
  - discriminate.
  - reflexivity.
  - reflexivity.
  - reflexivity.
  - reflexivity.
  - apply (bool_decide_unpack _). by vm_compute.
Defined.

Lemma remove_matching_all q (strip : list Tab) :
  NoDup (tab_id <$> strip) →
  List.filter (λ t, negb (bool_decide
                            (tab_id t ∈ map tab_id (List.filter (browser.matches q) strip))))
              strip
  = List.filter (λ t, negb (browser.matches q t)) strip.
Proof.
  intros Hnd. apply List.filter_ext_in. intros a Ha%list_elem_of_In. f_equal.
  destruct (browser.matches q a) eqn:Hm.
  - apply bool_decide_eq_true_2, list_elem_of_In.
    apply in_map, filter_In. split; [by apply list_elem_of_In|done].
  - apply bool_decide_eq_false_2. intros Hin%list_elem_of_In.
    apply in_map_iff in Hin as (t & Hid & Hin).
    apply filter_In in Hin as [Hin%list_elem_of_In Hmt].
    rewrite (NoDup_fmap_inj_on tab_id strip a t Hnd Ha Hin (eq_sym Hid)) in Hm.
    by rewrite Hm in Hmt.
Qed.

(** X18. Deleting a container that the browser has closes the tabs of the
    container in every window, leaves the other tabs open, and removes the
    identity of the container.  In both files. *)
Theorem deleteContainer_closes_tabs (f : Variant) (u : JSId) (s : State) :
  V1.getCookieStoreId u ∈ identities s →
  NoDup (tab_id <$> tabs s) →
  Forall (λ t, is_Some (tab_id t)) (tabs s) →
  let r := deleteContainer f u false s in
  tabs r.2
  = List.filter (λ t, negb (bool_decide (tab_cookieStoreId t = Some (V1.getCookieStoreId u))))
      (tabs s)
  ∧ V1.getCookieStoreId u ∉ identities r.2.
Proof.
  intros Hid Hnd Hsome r. unfold r.
  assert (Hq : ∀ t, browser.matches (mkQuery (Some (V1.getCookieStoreId u)) None) t
                    = bool_decide (tab_cookieStoreId t = Some (V1.getCookieStoreId u))).
  { intros t. unfold browser.matches. cbn. by rewrite andb_true_r. }
  assert (Hgone : V1.getCookieStoreId u
                  ∉ List.filter (λ c, negb (bool_decide (c = V1.getCookieStoreId u)))
                      (identities s)).
  { intros Hin%list_elem_of_In%filter_In. destruct Hin as [_ Hin].
    by rewrite bool_decide_eq_true_2 in Hin. }
  destruct f; unfold deleteContainer.
  - unfold V0.deleteContainer, V0._closeTabs, V0.assignManager_deleteContainer,
      V0.storageArea_deleteContainer, V0.storageArea_getByContainer,
      browser.tabs_query, browser.tabs_remove, browser.contextualIdentities_remove,
      browser.storage_get_all, browser.storage_remove.
    change (V0.cookieStoreId u) with (V1.getCookieStoreId u).
    run_unfold. run_eval. rewrite bool_decide_eq_true_2 by done. run_eval.
    split; [|done]. rewrite remove_matching_all by done.
    apply List.filter_ext. intros t. by rewrite Hq.
  - unfold V1.deleteContainer, V1._closeTabs, V1.storageAreaDeleteContainer,
      V1.getByContainer,
      browser.tabs_query, browser.tabs_remove, browser.contextualIdentities_remove,
      browser.storage_get_all, browser.storage_remove.
    run_unfold. run_eval. rewrite bool_decide_eq_true_2 by done. run_eval.
    split; [|done]. rewrite remove_matching by done.
    apply List.filter_ext. intros t. by rewrite Hq.
Qed.

Lemma deleteContainer_closes_tabs_witness :
  let r := deleteContainer BackgroundPage1 (IdStr "5") false Sample4.state in
  tabs r.2
  = List.filter (λ t, negb (bool_decide
                              (tab_cookieStoreId t = Some (V1.getCookieStoreId (IdStr "5")))))
      (tabs Sample4.state)
  ∧ V1.getCookieStoreId (IdStr "5") ∉ identities r.2.
Proof.
  apply (deleteContainer_closes_tabs BackgroundPage1 (IdStr "5") Sample4.state).
  - apply (bool_decide_unpack _). by vm_compute.
  - apply (bool_decide_unpack _). by vm_compute.
  - repeat constructor; by eexists.
Defined.

(** ** The ledger and the tab of a rerouted request *)

(** X19. When the request of a tab completes or fails, or the timer of its
    ledger entry fires, the entry is forgotten and the entries of the other
    tabs are kept; a request of the tab that is a candidate for a reroute
    is then rerouted, whatever the ledger held for it.  In both files. *)
Theorem expire_reopens_ledger (f : Variant) (rq : Request) (s s1 : State)
    (x : Tab * StoreVal * JSId) :
  let s' := (expire (Some (req_tabId rq)) s).2 in
  candidate f rq s' = (Normal (Some x), s1) →
  canceledRequests s' = delete (Some (req_tabId rq)) (canceledRequests s)
  ∧ length (reloads (calls (onBeforeRequest f rq s').2)) = S (length (reloads (calls s'))).
Proof.
  intros s' Hc.
  assert (Hl : canceledRequests s' = delete (Some (req_tabId rq)) (canceledRequests s)).
  { unfold s', expire. run_unfold. case_bool_decide as Hs; run_eval; [done|].
    symmetry. apply delete_id. by apply eq_None_not_Some. }
  split; [done|]. apply (first_one_reroute f rq s' x s1); [|done].
  rewrite Hl. apply lookup_delete_eq.
Qed.

Lemma expire_reopens_ledger_witness :
  let s0 := (onBeforeRequest BackgroundPage1 Sample.first Sample.assigned).2 in
  let s' := (expire (Some (req_tabId Sample.same_url)) s0).2 in
  canceledRequests s' = delete (Some (req_tabId Sample.same_url)) (canceledRequests s0)
  ∧ length (reloads (calls (onBeforeRequest BackgroundPage1 Sample.same_url s').2))
    = S (length (reloads (calls s'))).
Proof.
  intros s0 s'.
  apply (expire_reopens_ledger BackgroundPage1 Sample.same_url s0
           (candidate BackgroundPage1 Sample.same_url s').2
           (Sample.tab 7 "firefox-container-1" "http://start.org/",
            VSite (IdStr "3") false, IdStr "1")).
  by vm_compute.
Defined.

(** A request that passes every check of the first part. *)
Lemma V1_candidate_some rq s tab k v :
  req_frameId rq = 0%Z → req_tabId rq ≠ (-1)%Z →
  List.find (λ x, bool_decide (tab_id x = Some (req_tabId rq))) (tabs s) = Some tab →
  JS.truthy (req_url rq) = true →
  V1.getSiteStoreKey (Some (req_url rq)) = Normal k →
  storage s !! k = Some v →
  val_truthy (Some v) = true →
  V1.getCookieStoreId (val_userContextId v) ∈ identities s →
  JSId_truthy (V1.getUserContextIdFromCookieStore tab) = true →
  strict_eq (V1.getUserContextIdFromCookieStore tab) (val_userContextId v) = false →
  tab_incognito tab = false →
  (∀ l, exemptedTabs s !! k = Some l → tab_id tab ∉ l) →
  ∃ s1, V1.candidate rq s
        = (Normal (Some (tab, v, V1.getUserContextIdFromCookieStore tab)), s1)
        ∧ tabs s1 = tabs s ∧ canceledRequests s1 = canceledRequests s
        ∧ lastCreatedTab s1 = lastCreatedTab s ∧ extensionURL s1 = extensionURL s
        ∧ created (calls s1) = created (calls s).
Proof.
  intros Hf Ht Hfind Hu Hk Hv Hvt Hid Hc Hne Hinc Hex.
  pose proof (find_tab_id _ _ _ Hfind) as Htid.
  assert (Hgate : negb (req_frameId rq =? 0)%Z || (req_tabId rq =? -1)%Z = false).
  { rewrite Hf. cbn. by apply Z.eqb_neq. }
  unfold V1.candidate, V1.storageAreaGet, V1.isExempted, browser.tabs_get,
    removeContextMenu, browser.storage_get, browser.contextualIdentities_get.
  unfold mbind, M_bind, bind, mret, M_ret, ret, throw, lift, promise_all2, try_catch,
    detach, get_state, log, modify.
  rewrite Hgate. run_eval. rewrite Hfind, Hu, Hk. run_eval.
  rewrite Hv. rewrite Hvt. run_eval. rewrite bool_decide_eq_true_2 by done. run_eval.
  rewrite Hc, Hne, Hinc, Htid. run_eval.
  destruct (exemptedTabs s !! k) as [l|] eqn:Hl.
  - rewrite bool_decide_eq_false_2 by (rewrite <- Htid; by apply Hex).
    eexists. split; [reflexivity|]. run_eval. split_and!; try done.
    rewrite !created_app. cbn. by rewrite !app_nil_r.
  - eexists. split; [reflexivity|]. run_eval. split_and!; try done.
    rewrite !created_app. cbn. by rewrite !app_nil_r.
Qed.

(** The second part, for a tab without a ledger entry. *)
Lemma V1_reroute_first rq tab v u s i :
  tab_id tab = Some i →
  canceledRequests s !! Some i = None →
  JSId_truthy (val_userContextId v) = true →
  ∃ s2 p,
    V1.reroute rq tab v u s = (Normal true, s2)
    ∧ tabs s2 = (if removes_tab s tab
                 then List.filter (λ t, negb (bool_decide (tab_id t ∈ [Some i]))) (tabs s)
                 else tabs s)
    ∧ created (calls s2) = created (calls s) ++ [p]
    ∧ cp_index p = Some (tab_index tab + 1)%Z
    ∧ cp_active p = Some (tab_active tab)
    ∧ cp_openerTabId p = (if removes_tab s tab then tab_openerTabId tab else Some i)
    ∧ cp_cookieStoreId p
      = (if val_neverAsk v then Some (V1.getCookieStoreId (val_userContextId v))
         else if JSId_truthy u then Some (V1.getCookieStoreId u) else None).
Proof.
  intros Hi Hc Hv.
  unfold V1.reroute, V1.reloadPageInContainer, browser.setTimeout,
    browser.tabs_create, browser.history_deleteUrl, browser.extension_getURL,
    browser.tabs_remove, calculateContextMenu.
  unfold mbind, M_bind, bind, mret, M_ret, ret, throw, get_state, log, modify.
  fold (removes_tab s tab). rewrite Hi, Hc. run_eval. rewrite Hv. run_eval.
  destruct (val_neverAsk v), (removes_tab s tab); run_eval.
  all: eexists; eexists; split; [reflexivity|]; run_eval.
  all: rewrite !created_app; cbn [created omap app]; rewrite ?app_nil_r.
  all: split_and!; reflexivity.
Qed.

(** X23. A first top-level request for a site assigned to a container the
    browser has, in a tab of another container that is neither private nor
    exempted, is canceled, and one tab is asked for: just after the tab of
    the request, active as that tab is, in the assigned container when the
    user asked not to be asked again and in the container of the tab (for
    the confirmation page) otherwise.  The tab of the request is closed
    when it shows a new-tab page or is the tab created last, and then its
    opener is the opener of the new tab; otherwise it stays, and is the
    opener. *)
Theorem onBeforeRequest_reroutes (rq : Request) (s : State) (tab : Tab) (k : string)
    (v : StoreVal) :
  req_frameId rq = 0%Z → req_tabId rq ≠ (-1)%Z →
  List.find (λ x, bool_decide (tab_id x = Some (req_tabId rq))) (tabs s) = Some tab →
  JS.truthy (req_url rq) = true →
  V1.getSiteStoreKey (Some (req_url rq)) = Normal k →
  storage s !! k = Some v →
  JSId_truthy (val_userContextId v) = true →
  V1.getCookieStoreId (val_userContextId v) ∈ identities s →
  JSId_truthy (V1.getUserContextIdFromCookieStore tab) = true →
  strict_eq (V1.getUserContextIdFromCookieStore tab) (val_userContextId v) = false →
  tab_incognito tab = false →
  (∀ l, exemptedTabs s !! k = Some l → tab_id tab ∉ l) →
  canceledRequests s !! Some (req_tabId rq) = None →
  let r := V1.onBeforeRequest rq s in
  r.1 = Normal true
  ∧ tabs r.2 = (if removes_tab s tab
                then List.filter (λ t, negb (bool_decide (tab_id t = Some (req_tabId rq))))
                       (tabs s)
                else tabs s)
  ∧ ∃ p, created (calls r.2) = created (calls s) ++ [p]
         ∧ cp_index p = Some (tab_index tab + 1)%Z
         ∧ cp_active p = Some (tab_active tab)
         ∧ cp_openerTabId p
           = (if removes_tab s tab then tab_openerTabId tab else Some (req_tabId rq))
         ∧ cp_cookieStoreId p
           = Some (V1.getCookieStoreId
                     (if val_neverAsk v then val_userContextId v
                      else V1.getUserContextIdFromCookieStore tab)).
Proof.
  intros Hf Ht Hfind Hu Hk Hv Hvu Hid Hc Hne Hinc Hex Hled r. unfold r.
  pose proof (find_tab_id _ _ _ Hfind) as Htid.
  assert (Hvt : val_truthy (Some v) = true).
  { destruct v as [| |n|]; try done. }
  destruct (V1_candidate_some rq s tab k v Hf Ht Hfind Hu Hk Hv Hvt Hid Hc Hne Hinc Hex)
    as (s1 & Hcand & Htabs & Hcanc & Hlast & _ & Hcreated).
  rewrite <- Hcanc in Hled.
  destruct (V1_reroute_first rq tab v (V1.getUserContextIdFromCookieStore tab) s1
              (req_tabId rq) Htid Hled Hvu)
    as (s2 & p & Hre & Htabs2 & Hcr2 & Hidx & Hact & Hop & Hcs).
  unfold V1.onBeforeRequest, mbind, M_bind, bind. rewrite Hcand, Hre. cbn [fst snd].
  assert (Hrm : removes_tab s1 tab = removes_tab s tab).
  { unfold removes_tab. by rewrite Hlast. }
  rewrite Hrm in *. split_and!; [done| |].
  - rewrite Htabs2, Htabs. destruct (removes_tab s tab); [|done].
    apply List.filter_ext. intros t. f_equal. apply bool_decide_ext.
    by rewrite list_elem_of_singleton.
  - exists p. rewrite Hcr2, Hcreated. split_and!; try done.
    rewrite Hcs, Hc. by destruct (val_neverAsk v).
Qed.

Lemma onBeforeRequest_reroutes_witness :
  let r := V1.onBeforeRequest Sample.first Sample.assigned in
  let tab := Sample.tab 7 "firefox-container-1" "http://start.org/" in
  r.1 = Normal true
  ∧ tabs r.2 = (if removes_tab Sample.assigned tab
                then List.filter
                       (λ t, negb (bool_decide (tab_id t = Some (req_tabId Sample.first))))
                       (tabs Sample.assigned)
                else tabs Sample.assigned)
  ∧ ∃ p, created (calls r.2) = created (calls Sample.assigned) ++ [p]
         ∧ cp_index p = Some (tab_index tab + 1)%Z
         ∧ cp_active p = Some (tab_active tab)
         ∧ cp_openerTabId p
           = (if removes_tab Sample.assigned tab then tab_openerTabId tab
              else Some (req_tabId Sample.first))
         ∧ cp_cookieStoreId p
           = Some (V1.getCookieStoreId
                     (if val_neverAsk (VSite (IdStr "3") false)
                      then val_userContextId (VSite (IdStr "3") false)
                      else V1.getUserContextIdFromCookieStore tab)).
Proof.
  apply (onBeforeRequest_reroutes Sample.first Sample.assigned
           (Sample.tab 7 "firefox-container-1" "http://start.org/")
           "siteContainerMap@@_a.com" (VSite (IdStr "3") false)).
  - reflexivity.
  - discriminate.
  - reflexivity.
  - reflexivity.
  - reflexivity.
  - reflexivity.
  - reflexivity.
  - apply (bool_decide_unpack _). by vm_compute.
  - reflexivity.
  - reflexivity.
  - reflexivity.
  - intros l Hl. by vm_compute in Hl.
  - reflexivity.
Defined.

(** ** What [sortTabs] makes of a window *)

Lemma ascii_compare_trans a b c :
  Ascii.compare a b = Lt → Ascii.compare b c = Lt → Ascii.compare a c = Lt.
Proof.
  unfold Ascii.compare. rewrite !N.compare_lt_iff. lia.
Qed.

Lemma string_compare_refl s : String.compare s s = Eq.
Proof.
  induction s as [|a s IH]; [done|]. cbn.
  unfold Ascii.compare. by rewrite N.compare_refl.
Qed.

Lemma string_compare_trans s1 : ∀ s2 s3,
  String.compare s1 s2 = Lt → String.compare s2 s3 = Lt → String.compare s1 s3 = Lt.
Proof.
  induction s1 as [|a s1 IH]; intros [|b s2] [|c s3]; cbn; try done.
  destruct (Ascii.compare a b) eqn:Hab; [|clear IH|done].
  - apply Ascii.compare_eq_iff in Hab as ->.
    destruct (Ascii.compare b c); [apply IH|done|done].
  - intros _. destruct (Ascii.compare b c) eqn:Hbc; [| |done].
    + apply Ascii.compare_eq_iff in Hbc as <-. by rewrite Hab.
    + by rewrite (ascii_compare_trans a b c).
Qed.

Lemma localeCompare_le a b :
  (V1.localeCompare a b <=? 0)%Z = true ↔ a = b ∨ String.compare a b = Lt.
Proof.
  unfold V1.localeCompare. destruct (String.compare a b) eqn:H; cbn.
  - apply String.compare_eq_iff in H. naive_solver.
  - naive_solver.
  - split; [done|]. intros [->|]; [|done]. by rewrite string_compare_refl in H.
Qed.

Lemma localeCompare_trans a b c :
  (V1.localeCompare a b <=? 0)%Z = true → (V1.localeCompare b c <=? 0)%Z = true →
  (V1.localeCompare a c <=? 0)%Z = true.
Proof.
  rewrite !localeCompare_le. intros [->|Hab] [->|Hbc]; eauto.
  right. by eapply string_compare_trans.
Qed.

#[local] Instance key_le_trans : Transitive key_le.
Proof. intros a b c. apply localeCompare_trans. Qed.

(** The tabs of sorted groups are in the order of their keys. *)
Lemma flatten_sorted gs :
  keyed gs → StronglySorted key_le gs →
  StronglySorted (λ a b, (V1.localeCompare (tab_key a) (tab_key b) <=? 0)%Z = true)
    (flatten gs).
Proof.
  intros [_ Hk]. induction 1 as [|[k ts] gs Hs IH Hle]; [constructor|].
  apply Forall_cons in Hk as [[_ Hts] Hk]. cbn [fst snd] in Hts.
  rewrite flatten_cons. apply StronglySorted_app. split_and!; [|  |by apply IH].
  - intros a b Ha Hb.
    apply list_elem_of_In, in_concat in Hb as (l & Hl & Hb).
    apply in_map_iff in Hl as ([k' ts'] & <- & Hg). cbn [snd] in Hb.
    apply list_elem_of_In in Hg.
    rewrite Forall_forall in Hts. rewrite Forall_forall in Hk.
    rewrite Forall_forall in Hle.
    rewrite (Hts a Ha). destruct (Hk _ Hg) as [_ Hts']. cbn [fst snd] in Hts'.
    rewrite Forall_forall in Hts'. rewrite (Hts' b (proj2 (list_elem_of_In _ _) Hb)).
    apply (Hle _ Hg).
  - clear -Hts. induction Hts as [|a ts Ha Hts IH]; [constructor|].
    constructor; [done|].
    apply Forall_forall. intros b Hb. rewrite Forall_forall in Hts.
    rewrite Ha, (Hts b Hb). apply localeCompare_le. by left.
Qed.

Lemma by_container_sorted l :
  StronglySorted (λ a b, (V1.localeCompare (tab_key a) (tab_key b) <=? 0)%Z = true)
    (by_container l).
Proof.
  unfold by_container. apply flatten_sorted.
  - apply (keyed_perm (group_into [] l)); [by rewrite sort_entries_perm|].
    apply keyed_group_into, keyed_nil.
  - apply Sorted_StronglySorted; [apply _|]. apply sort_entries_sorted.
Qed.

(** A window of container tabs, split into its pinned and its other
    tabs. *)
Lemma window_ok_split strip :
  window_ok strip →
  ∃ P U, strip = P ++ U
         ∧ NoDup (tab_id <$> (P ++ U)) ∧ Forall (λ t, is_Some (tab_id t)) (P ++ U)
         ∧ Forall (λ t, tab_pinned t = true) P ∧ Forall (λ t, tab_pinned t = false) U
         ∧ Forall in_container (P ++ U).
Proof.
  intros [(Hnd & Hsome & n & HP & HU) HC].
  exists (take n strip), (drop n strip). by rewrite take_drop.
Qed.

(** X20. [sortTabs] loses no tab and makes none twice: on windows of
    container tabs, every window has the tabs it had, with the pinned tabs
    still in front. *)
Theorem sortTabs_permutes (windows : list (list Tab)) :
  Forall window_ok windows →
  Forall2 (≡ₚ) (V1.sortTabs windows) windows
  ∧ Forall window_ok (V1.sortTabs windows).
Proof.
  unfold V1.sortTabs. induction 1 as [|strip windows Hok _ [IH1 IH2]]; [by split|].
  cbn [map].
  destruct (window_ok_split strip Hok) as (P & U & -> & Hnd & Hsome & HP & HU & HC).
  rewrite (sort_window P U) by done.
  assert (Hperm : by_container P ++ by_container U ≡ₚ P ++ U)
    by (by rewrite !by_container_perm).
  split; constructor; try done.
  split; [split_and!|].
  - by rewrite Hperm.
  - by rewrite Hperm.
  - exists (length (by_container P)).
    rewrite take_app_length, drop_app_length. by rewrite !by_container_perm.
  - by rewrite Hperm.
Qed.

Lemma sortTabs_permutes_witness :
  Forall window_ok [Sample7.contained]
  ∧ Forall2 (≡ₚ) (V1.sortTabs [Sample7.contained]) [Sample7.contained]
  ∧ Forall window_ok (V1.sortTabs [Sample7.contained]).
Proof.
  assert (H : Forall window_ok [Sample7.contained]).
  { constructor; [apply window_ok_contained | constructor]. }
  split; [exact H | exact (sortTabs_permutes _ H)].
Defined.

(** X21. After [sortTabs], in every window of container tabs, the pinned
    tabs are in the order of their container ids, and so are the other
    tabs; the ids are compared as strings. *)
Theorem sortTabs_orders_containers (windows : list (list Tab)) :
  Forall window_ok windows →
  Forall (StronglySorted container_le) (V1.sortTabs windows).
Proof.
  unfold V1.sortTabs. induction 1 as [|strip windows Hok _ IH]; [constructor|].
  cbn [map]. constructor; [|done].
  destruct (window_ok_split strip Hok) as (P & U & -> & Hnd & Hsome & HP & HU & HC).
  rewrite (sort_window P U) by done.
  assert (Hweak : ∀ l,
            StronglySorted (λ a b, (V1.localeCompare (tab_key a) (tab_key b) <=? 0)%Z = true) l →
            StronglySorted container_le l).
  { induction 1 as [|a l _ IHl Hall]; [constructor|]. constructor; [done|].
    eapply Forall_impl; [exact Hall|]. by intros b Hb _. }
  apply StronglySorted_app. split_and!; [|by apply Hweak, by_container_sorted..].
  intros a b Ha Hb Hpin. exfalso.
  rewrite by_container_perm in Ha, Hb.
  rewrite Forall_forall in HP. rewrite Forall_forall in HU.
  rewrite (HP a Ha), (HU b Hb) in Hpin. done.
Qed.

Lemma sortTabs_orders_containers_witness :
  Forall window_ok [Sample7.contained]
  ∧ Forall (StronglySorted container_le) (V1.sortTabs [Sample7.contained]).
Proof.
  assert (H : Forall window_ok [Sample7.contained]).
  { constructor; [apply window_ok_contained | constructor]. }
  split; [exact H | exact (sortTabs_orders_containers _ H)].
Defined.

Lemma with_key_app k a b : with_key k (a ++ b) = with_key k a ++ with_key k b.
Proof. apply List.filter_app. Qed.

Lemma with_key_other k k' ts :
  Forall (λ t, tab_key t = k') ts → k' ≠ k → with_key k ts = [].
Proof.
  intros Hts Hne. induction Hts as [|t ts Ht _ IH]; [done|].
  unfold with_key in *. cbn [List.filter]. by rewrite bool_decide_eq_false_2 by congruence.
Qed.

Lemma with_key_perm k gs gs' :
  gs ≡ₚ gs' → keyed gs → with_key k (flatten gs) = with_key k (flatten gs').
Proof.
  induction 1 as [|[k1 t1] gs gs' _ IH|[k1 t1] [k2 t2] gs|gs1 gs2 gs3 H12 IH1 _ IH2];
    intros Hk.
  - done.
  - rewrite !flatten_cons, !with_key_app. f_equal. apply IH.
    destruct Hk as [Hnd Hall]. rewrite fmap_cons in Hnd.
    apply NoDup_cons in Hnd as [_ Hnd]. apply Forall_cons in Hall as [_ Hall]. by split.
  - rewrite !flatten_cons, !with_key_app, !(assoc_L (++)). f_equal.
    destruct Hk as [Hnd Hall]. rewrite !fmap_cons in Hnd. cbn [fst] in Hnd.
    apply NoDup_cons in Hnd as [Hne _]. apply not_elem_of_cons in Hne as [Hne _].
    apply Forall_cons in Hall as [[_ H2] Hall]. apply Forall_cons in Hall as [[_ H1] _].
    cbn [fst snd] in *.
    destruct (decide (k1 = k)) as [->|Hk1].
    + rewrite (with_key_other k k2 t2 H2) by done. by rewrite app_nil_r.
    + rewrite (with_key_other k k1 t1 H1) by done. by rewrite app_nil_r.
  - rewrite IH1 by done. apply IH2. by apply (keyed_perm gs1).
Qed.

Lemma with_key_absent k gs :
  keyed gs → k ∉ gs.*1 → with_key k (flatten gs) = [].
Proof.
  intros [_ Hall]. induction Hall as [|[k' ts] gs [_ Hts] _ IH]; [done|].
  rewrite fmap_cons, not_elem_of_cons. cbn [fst snd] in *. intros [Hne Hk].
  rewrite flatten_cons, with_key_app, IH by done.
  by rewrite (with_key_other k k' ts Hts) by done.
Qed.

Lemma with_key_map_push k t m :
  keyed m →
  with_key k (flatten (V1.map_push (tab_key t) t m))
  = with_key k (flatten m) ++ with_key k [t].
Proof.
  intros Hk. pose proof Hk as [Hnd Hall].
  destruct (decide (tab_key t ∈ m.*1)) as [Hin|Hin].
  - apply list_elem_of_fmap in Hin as ([kt l] & Hkt & Hin). cbn [fst] in Hkt. subst kt.
    apply list_elem_of_split in Hin as (m1 & m2 & ->).
    rewrite fmap_app, fmap_cons in Hnd. cbn [fst] in Hnd.
    assert (Hm1 : tab_key t ∉ m1.*1).
    { apply NoDup_app in Hnd as (_ & Hd & _). intros Hin. apply (Hd _ Hin). by left. }
    assert (Hm2 : tab_key t ∉ m2.*1).
    { apply NoDup_app in Hnd as (_ & _ & Hd). by apply NoDup_cons in Hd as [Hd _]. }
    rewrite map_push_old by done.
    rewrite !flatten_app, !flatten_cons, !with_key_app, <- !(assoc_L (++)).
    do 2 f_equal.
    destruct (decide (tab_key t = k)) as [<-|Hne].
    + rewrite (with_key_absent (tab_key t) m2); [by rewrite app_nil_r| |done].
      apply Forall_app in Hall as [_ Hall]. apply Forall_cons in Hall as [_ Hall].
      split; [|done]. apply NoDup_app in Hnd as (_ & _ & Hd).
      by apply NoDup_cons in Hd as [_ Hd].
    + assert (with_key k [t] = []) as ->.
      { unfold with_key. cbn [List.filter]. by rewrite bool_decide_eq_false_2. }
      by rewrite app_nil_r.
  - rewrite map_push_new by done. by rewrite flatten_app, with_key_app.
Qed.

Lemma with_key_group_into k l : ∀ m,
  keyed m → with_key k (flatten (group_into m l)) = with_key k (flatten m) ++ with_key k l.
Proof.
  induction l as [|t l IH]; intros m Hm.
  - by rewrite app_nil_r.
  - change (group_into m (t :: l)) with (group_into (V1.map_push (tab_key t) t m) l).
    rewrite IH by (by apply keyed_map_push).
    rewrite with_key_map_push by done.
    change (t :: l) with ([t] ++ l). by rewrite with_key_app, <- (assoc_L (++)).
Qed.

Lemma with_key_by_container k l : with_key k (by_container l) = with_key k l.
Proof.
  unfold by_container.
  rewrite <- (with_key_perm k (group_into [] l)).
  - by rewrite with_key_group_into by apply keyed_nil.
  - by rewrite sort_entries_perm.
  - apply keyed_group_into, keyed_nil.
Qed.

(** X22. [sortTabs] keeps the tabs of a container in the order they had:
    in every window of container tabs, the tabs with a given container id
    come in the same order before and after. *)
Theorem sortTabs_stable (windows : list (list Tab)) (k : string) :
  Forall window_ok windows →
  map (with_key k) (V1.sortTabs windows) = map (with_key k) windows.
Proof.
  unfold V1.sortTabs. induction 1 as [|strip windows Hok _ IH]; [done|].
  cbn [map]. f_equal; [|done].
  destruct (window_ok_split strip Hok) as (P & U & -> & Hnd & Hsome & HP & HU & HC).
  rewrite (sort_window P U) by done.
  by rewrite !with_key_app, !with_key_by_container.
Qed.

Lemma sortTabs_stable_witness :
  Forall window_ok [Sample7.contained]
  ∧ map (with_key "2") (V1.sortTabs [Sample7.contained])
    = map (with_key "2") [Sample7.contained].
Proof.
  assert (H : Forall window_ok [Sample7.contained]).
  { constructor; [apply window_ok_contained | constructor]. }
  split; [exact H | exact (sortTabs_stable _ "2" H)].
Defined.

(** ** Hiding the tabs of a cookie store that is no container *)

Lemma V0_snapshot_runs tabs : ∀ l,
  Forall (λ t, ∃ b, V0.isPermissibleURL (tab_url t) = Normal b) tabs →
  V0.snapshot (VState l) tabs = Normal (VState (l ++ map set_hidden (List.filter kept tabs))).
Proof.
  induction tabs as [|t tabs IH]; intros l Hp.
  - cbn. by rewrite app_nil_r.
  - apply Forall_cons in Hp as [[b Hb] Hp]. cbn [V0.snapshot List.filter].
    rewrite Hb, <- (V0_permissible_kept _ _ Hb). destruct b.
    + cbn [push_hidden _createTabObject]. rewrite IH by done.
      cbn [map]. by rewrite <- (assoc_L (++)).
    + by apply IH.
Qed.

Lemma V0_id_outside c :
  V1.getUserContextIdFromCookieStoreId (Some c) = IdUndef →
  V0.getUserContextIdFromCookieStoreId (Some c) = IdFalse.
Proof.
  unfold V1.getUserContextIdFromCookieStoreId, V0.getUserContextIdFromCookieStoreId.
  destruct (negb (JS.truthy c)); [done|]. by case_bool_decide.
Qed.

Lemma remove_none (ids : list (option Z)) (strip : list Tab) :
  ids = [] → List.filter (λ t, negb (bool_decide (tab_id t ∈ ids))) strip = strip.
Proof.
  intros ->. induction strip as [|t strip IH]; [done|]. cbn [List.filter].
  rewrite bool_decide_eq_false_2 by apply not_elem_of_nil. cbn. by rewrite IH.
Qed.

Lemma filter_none {A} (f : A → bool) (l : list A) :
  Forall (λ x, f x = false) l → List.filter f l = [].
Proof. induction 1 as [|x l Hx _ IH]; [done|]. cbn. by rewrite Hx. Qed.

(** X24. [hideTabs] for a cookie store that is not the store of a
    container, such as [firefox-default].  The file background-page-1.ts
    refuses before it reads or writes anything.  The file
    background-page.ts stores the snapshots of the tabs of the cookie
    store as hidden tabs and then closes the tabs of the cookie store
    [firefox-container-false]: the tabs it stored stay open. *)
Theorem hideTabs_outside_container (c : string) (w : Z) (l : list Tab) (s : State) :
  JS.truthy c = true → w ≠ 0%Z →
  V1.getUserContextIdFromCookieStoreId (Some c) = IdUndef →
  hiddenTabs_of s c = VState l →
  let q := mkQuery (Some c) (Some w) in
  let options := mkTabsOptions (Present (Some c)) (Present (Some w)) in
  Forall (λ t, ∃ b, V0.isPermissibleURL (tab_url t) = Normal b)
         (List.filter (browser.matches q) (tabs s)) →
  Forall (λ t, tab_cookieStoreId t ≠ Some "firefox-container-false") (tabs s) →
  V1.hideTabs options s = (Throw "no userContextId!", s)
  ∧ (V0.hideTabs options s).1 = Normal tt
  ∧ tabs (V0.hideTabs options s).2 = tabs s
  ∧ hiddenTabs_of (V0.hideTabs options s).2 c
    = VState (l ++ map set_hidden
                     (List.filter kept (List.filter (browser.matches q) (tabs s)))).
Proof.
  intros Hc Hw Hout Hh q options Hp Hfalse. subst options.
  split.
  - assert (Hargs : V1.checkArgs ["cookieStoreId"; "windowId"]
                      (mkTabsOptions (Present (Some c)) (Present (Some w))) "hideTabs"
                    = Normal (c, w)).
    { unfold V1.checkArgs. destruct c; [done|]. cbn. by destruct w. }
    unfold V1.hideTabs. unfold mbind at 1, M_bind at 1, bind at 1, lift at 1.
    by rewrite Hargs, Hout.
  - unfold V0.hideTabs, V0.checkArgs, V0.storeHidden, V0._closeTabs, identityStateGet,
      identityStateSet, browser.storage_get, browser.storage_set, browser.tabs_query,
      browser.tabs_remove.
    cbn [o_cookieStoreId o_windowId field_value].
    rewrite (V0_id_outside c Hout).
    unfold mbind, M_bind, bind, lift, log, modify, get_state, mret, M_ret, ret. run_eval.
    change (mkQuery (Some c) (Some w)) with q. clearbody q.
    unfold hiddenTabs_of in *.
    assert (Hnone : List.filter
                      (browser.matches
                         (mkQuery (Some (V0.cookieStoreId IdFalse)) (Some w))) (tabs s)
                    = []).
    { apply filter_none. eapply Forall_impl; [exact Hfalse|]. intros t Ht.
      unfold browser.matches. cbn [q_cookieStoreId q_windowId].
      by rewrite bool_decide_eq_false_2. }
    destruct (storage s !! getContainerStoreKey (Some c)) as [v|] eqn:Hv;
      simpl in Hh; subst.
    + run_eval. rewrite (V0_snapshot_runs _ _ Hp). run_eval.
      rewrite Hnone. cbn [map]. rewrite remove_none by done.
      by rewrite lookup_insert_eq.
    + injection Hh as <-. unfold _createIdentityState. run_eval.
      rewrite (V0_snapshot_runs _ _ Hp). run_eval.
      rewrite Hnone. cbn [map]. rewrite remove_none by done.
      by rewrite lookup_insert_eq.
Qed.

Lemma hideTabs_outside_container_witness :
  let q := mkQuery (Some "firefox-default") (Some 2%Z) in
  let options := mkTabsOptions (Present (Some "firefox-default")) (Present (Some 2%Z)) in
  V1.hideTabs options Sample5.state = (Throw "no userContextId!", Sample5.state)
  ∧ (V0.hideTabs options Sample5.state).1 = Normal tt
  ∧ tabs (V0.hideTabs options Sample5.state).2 = tabs Sample5.state
  ∧ hiddenTabs_of (V0.hideTabs options Sample5.state).2 "firefox-default"
    = VState ([] ++ map set_hidden
                      (List.filter kept
                         (List.filter (browser.matches q) (tabs Sample5.state)))).
Proof.
  apply (hideTabs_outside_container "firefox-default" 2 [] Sample5.state).
  - reflexivity.
  - discriminate.
  - reflexivity.
  - reflexivity.
  - repeat constructor; eexists; reflexivity.
  - repeat constructor; discriminate.
Defined.

(** ** Removing and listing assignments *)

(** A request for a site without assignment is let through. *)
Lemma V1_candidate_unassigned rq s t k :
  List.find (λ x, bool_decide (tab_id x = Some (req_tabId rq))) (tabs s) = Some t →
  JS.truthy (req_url rq) = true →
  V1.getSiteStoreKey (Some (req_url rq)) = Normal k →
  storage s !! k = None →
  (V1.candidate rq s).1 = Normal None.
Proof.
  intros Hfind Ht Hk Hv.
  unfold V1.candidate, V1.storageAreaGet, V1.isExempted, browser.tabs_get,
    removeContextMenu, browser.storage_get, browser.contextualIdentities_get.
  run_unfold. destruct (negb _ || _); [done|].
  run_eval. rewrite Hfind, Ht, Hk. run_eval. by rewrite Hv.
Qed.

(** X25. Removing the assignment of a site deletes its key from the
    store, and a navigation to the site is then let through and opens
    nothing. *)
Theorem removed_assignment_lets_through (tabId : Z) (pageUrl k : string) (u : JSId)
    (s : State) (tab t : Tab) (rq : Request) :
  V1.getSiteStoreKey (Some pageUrl) = Normal k →
  List.find (λ x, bool_decide (tab_id x = Some tabId)) (tabs s) = Some tab →
  List.find (λ x, bool_decide (tab_id x = Some (req_tabId rq))) (tabs s) = Some t →
  JS.truthy (req_url rq) = true →
  V1.getSiteStoreKey (Some (req_url rq)) = Normal k →
  let r := V1._setOrRemoveAssignment tabId pageUrl u true s in
  r.1 = Normal tt
  ∧ storage r.2 = delete k (storage s)
  ∧ (V1.onBeforeRequest rq r.2).1 = Normal false
  ∧ reloads (calls (V1.onBeforeRequest rq r.2).2) = reloads (calls r.2).
Proof.
  intros Hk Hfind Ht Htr Hrk r.
  assert (Hrun : r.1 = Normal tt ∧ storage r.2 = delete k (storage s)
                 ∧ tabs r.2 = tabs s).
  { unfold r, V1._setOrRemoveAssignment, V1.storageAreaRemove, V1.removeExempted,
      browser.storage_remove, browser.tabs_get, calculateContextMenu.
    run_unfold. run_eval. rewrite Hk. run_eval. by rewrite Hfind. }
  destruct Hrun as (Hr1 & Hst & Htabs). split_and!; [done|done| |].
  - rewrite <- Htabs in Ht.
    pose proof (V1_candidate_unassigned rq r.2 t k Ht Htr Hrk) as Hc.
    rewrite Hst, lookup_delete_eq in Hc. specialize (Hc eq_refl).
    unfold V1.onBeforeRequest, mbind, M_bind, bind.
    destruct (V1.candidate rq r.2) as [[c|e] s2]; cbn [fst] in *; [|done].
    by injection Hc as ->.
  - rewrite <- Htabs in Ht.
    pose proof (V1_candidate_unassigned rq r.2 t k Ht Htr Hrk) as Hc.
    rewrite Hst, lookup_delete_eq in Hc. specialize (Hc eq_refl).
    pose proof (candidate_frame BackgroundPage1 rq r.2) as [Hr _].
    cbn [candidate] in Hr. unfold V1.onBeforeRequest, mbind, M_bind, bind.
    destruct (V1.candidate rq r.2) as [[c|e] s2]; cbn [fst snd] in *; [|done].
    by injection Hc as ->.
Qed.

Lemma removed_assignment_lets_through_witness :
  let r := V1._setOrRemoveAssignment 1 "http://example.com" (IdStr "3") true
             Sample3.assigned in
  r.1 = Normal tt
  ∧ storage r.2 = delete "siteContainerMap@@_example.com" (storage Sample3.assigned)
  ∧ (V1.onBeforeRequest (mkRequest "r1" "http://example.com/news" 0 2) r.2).1 = Normal false
  ∧ reloads (calls (V1.onBeforeRequest (mkRequest "r1" "http://example.com/news" 0 2) r.2).2)
    = reloads (calls r.2).
Proof.
  apply (removed_assignment_lets_through 1 "http://example.com"
           "siteContainerMap@@_example.com" (IdStr "3") Sample3.assigned
           (Sample.tab 1 "firefox-container-3" "http://example.com/")
           Sample3.tab2 (mkRequest "r1" "http://example.com/news" 0 2));
    reflexivity.
Defined.

(** X26. An assignment that [_setOrRemoveAssignment] stores for a
    container is listed by [getByContainer] for that container, under the
    key of the site, with the key without its prefix as host name; the
    container may be named by a number or by its string. *)
Theorem assignment_listed (tabId : Z) (pageUrl h : string) (u : JSId)
    (s : State) (tab : Tab) :
  V1.getSiteStoreKey (Some pageUrl) = Normal ("siteContainerMap@@_" +:+ h) →
  Forall (λ t, ∃ k', V1.getSiteStoreKey (tab_url t) = Normal k') (tabs s) →
  List.find (λ t, bool_decide (tab_id t = Some tabId)) (tabs s) = Some tab →
  let s1 := (V1._setOrRemoveAssignment tabId pageUrl u false s).2 in
  ∃ m, (V1.getByContainer u s1).1 = Normal m
       ∧ m !! ("siteContainerMap@@_" +:+ h) = Some (VSite (IdStr (String_of u)) false, h).
Proof.
  intros Hk Hparse Hfind s1. unfold s1.
  destruct (run_setAssignment tabId pageUrl _ u s tab Hk Hparse Hfind) as [l ->].
  unfold V1.getByContainer, browser.storage_get_all. run_unfold. run_eval.
  eexists. split; [reflexivity|].
  rewrite map_lookup_imap, lookup_insert_eq. cbn [mbind option_bind val_userContextId String_of].
  rewrite bool_decide_eq_true_2 by done.
  unfold JS.replace_anchored.
  by rewrite (prefix_app "siteContainerMap@@_" h), (drop_app "siteContainerMap@@_" h).
Qed.

Lemma assignment_listed_witness :
  let s1 := (V1._setOrRemoveAssignment 1 "http://example.com:8080/" (IdNum 3) false
               Sample3.before).2 in
  ∃ m, (V1.getByContainer (IdNum 3) s1).1 = Normal m
       ∧ m !! ("siteContainerMap@@_" +:+ "example.com8080")
         = Some (VSite (IdStr (String_of (IdNum 3))) false, "example.com8080").
Proof.
  apply (assignment_listed 1 "http://example.com:8080/" "example.com8080" (IdNum 3)
           Sample3.before (Sample.tab 1 "firefox-container-3" "http://example.com/")).
  - reflexivity.
  - repeat constructor; eexists; reflexivity.
  - reflexivity.
Defined.

(** ** Messages from other extensions *)

(** X27. An extension that gets an answer from the listener of external
    messages is in the table of checked extensions afterwards, and it was
    there before or the browser lists [contextualIdentities] among its
    permissions: no extension without that permission, now or when it was
    checked, reads an assignment. *)
Theorem external_answer_needs_permission
    (management : gmap string (option (list string))) (method : string)
    (url : option string) (ext : string) (e e' : External) (v : option StoreVal) :
  JS.truthy ext = true →
  onMessageExternal management method url (Some ext) e = (Normal v, e') →
  ext ∈ externalExtensionAllowed e'
  ∧ (ext ∈ externalExtensionAllowed e
     ∨ ∃ permissions, management !! ext = Some (Some permissions)
                      ∧ "contextualIdentities" ∈ permissions).
Proof.
  intros Hid. unfold onMessageExternal, management_get. cbn [JS.truthy_opt].
  change (default EmptyString (Some ext)) with ext.
  rewrite Hid. cbn [andb].
  case_bool_decide as Hin; cbn [negb].
  - case_bool_decide; [|done]. destruct url as [u|]; [|done].
    destruct (V1.storageAreaGet _ _) as [r s]. intros [= -> <-]. cbn. by split; [|left].
  - destruct (management !! ext) as [[permissions|]|] eqn:Hm; [|done|done].
    case_bool_decide as Hp; cbn [negb]; [|done].
    case_bool_decide; [|done]. destruct url as [u|]; [|done].
    destruct (V1.storageAreaGet _ _) as [r s]. intros [= -> <-]. cbn.
    split; [apply elem_of_union; left; by apply elem_of_singleton|].
    right. by exists permissions.
Qed.

Lemma external_answer_needs_permission_witness :
  let r := onMessageExternal Sample10.management "getAssignment" (Some "http://a.com/x")
             (Some "good@example.org") Sample10.fresh in
  JS.truthy "good@example.org" = true
  ∧ "good@example.org" ∈ externalExtensionAllowed r.2
  ∧ ("good@example.org" ∈ externalExtensionAllowed Sample10.fresh
     ∨ ∃ permissions, Sample10.management !! "good@example.org" = Some (Some permissions)
                      ∧ "contextualIdentities" ∈ permissions).
Proof.
  intros r. split; [reflexivity|].
  apply (external_answer_needs_permission Sample10.management "getAssignment"
           (Some "http://a.com/x") "good@example.org" Sample10.fresh r.2
           (Some (VSite (IdStr "3") false))); reflexivity.
Defined.

(** X28. The listener checks an extension once.  An extension in the
    table of checked extensions is answered as [storageAreaGet] answers,
    also when the browser no longer lists [contextualIdentities] among its
    permissions; once the browser reports it installed or uninstalled it
    is checked again, and refused. *)
Theorem external_check_is_cached
    (management : gmap string (option (list string))) (u ext : string)
    (permissions : list string) (e : External) :
  JS.truthy ext = true →
  ext ∈ externalExtensionAllowed e →
  management !! ext = Some (Some permissions) →
  "contextualIdentities" ∉ permissions →
  (onMessageExternal management "getAssignment" (Some u) (Some ext) e).1
  = (V1.storageAreaGet (Some u) (background e)).1
  ∧ onMessageExternal management "getAssignment" (Some u) (Some ext) (onInstalled ext e)
    = (Throw "Missing contextualIdentities permission", onInstalled ext e).
Proof.
  intros Hid Hin Hm Hp. split.
  - unfold onMessageExternal. cbn [JS.truthy_opt].
    change (default EmptyString (Some ext)) with ext. rewrite Hid.
    rewrite (bool_decide_eq_true_2 _ Hin). cbn [andb negb].
    rewrite bool_decide_eq_true_2 by done.
    by destruct (V1.storageAreaGet _ _).
  - unfold onInstalled. rewrite (bool_decide_eq_true_2 _ Hin).
    unfold onMessageExternal, management_get. cbn [JS.truthy_opt].
    change (default EmptyString (Some ext)) with ext. rewrite Hid.
    cbn [externalExtensionAllowed andb].
    rewrite bool_decide_eq_false_2; cycle 1.
    { rewrite elem_of_difference. intros [_ Hn]. apply Hn. by apply elem_of_singleton. }
    cbn [negb].
    rewrite Hm. by rewrite bool_decide_eq_false_2.
Qed.

Lemma external_check_is_cached_witness :
  (onMessageExternal Sample10.management "getAssignment" (Some "http://a.com/x")
     (Some "bad@example.org") Sample10.cached).1
  = (V1.storageAreaGet (Some "http://a.com/x") (background Sample10.cached)).1
  ∧ onMessageExternal Sample10.management "getAssignment" (Some "http://a.com/x")
      (Some "bad@example.org") (onInstalled "bad@example.org" Sample10.cached)
    = (Throw "Missing contextualIdentities permission",
       onInstalled "bad@example.org" Sample10.cached).
Proof.
  apply (external_check_is_cached Sample10.management "http://a.com/x" "bad@example.org"
           ["tabs"] Sample10.cached).
  - reflexivity.
  - apply (bool_decide_unpack _). by vm_compute.
  - reflexivity.
  - apply (bool_decide_unpack _). by vm_compute.
Defined.

(** ** The assignment of a tab *)

(** X29. After a site is assigned to a container, [_getAssignment]
    answers with the stored assignment for every tab that sits in a
    container and shows a page of the site, unless the tab is private;
    for a tab outside any container it answers [false] and does not read
    the store. *)
Theorem getAssignment_after_assignment (tabId : Z) (pageUrl k : string) (u : JSId)
    (s : State) (tab t t' : Tab) :
  V1.getSiteStoreKey (Some pageUrl) = Normal k →
  Forall (λ t, ∃ k', V1.getSiteStoreKey (tab_url t) = Normal k') (tabs s) →
  List.find (λ x, bool_decide (tab_id x = Some tabId)) (tabs s) = Some tab →
  in_container t →
  isTabPermittedAssign t = Normal true →
  V1.getSiteStoreKey (tab_url t) = Normal k →
  ¬ in_container t' →
  let s1 := (V1._setOrRemoveAssignment tabId pageUrl u false s).2 in
  (_getAssignment t s1).1 = Normal (Some (Some (VSite (IdStr (String_of u)) false)))
  ∧ _getAssignment t' s1 = (Normal None, s1).
Proof.
  intros Hk Hparse Hfind Hin Hperm Htk Hout s1. unfold s1.
  destruct (run_setAssignment tabId pageUrl k u s tab Hk Hparse Hfind) as [l ->].
  cbn [snd]. unfold _getAssignment. split.
  - unfold in_container in Hin. rewrite Hin.
    unfold mbind, M_bind, bind, lift. rewrite Hperm.
    unfold V1.storageAreaGet, browser.storage_get.
    assert (Ht : JS.truthy_opt (tab_url t) = true).
    { unfold isTabPermittedAssign in Hperm. by destruct (JS.truthy_opt (tab_url t)). }
    rewrite Ht. run_unfold. run_eval. rewrite Htk. run_eval.
    by rewrite lookup_insert_eq.
  - unfold in_container in Hout. by destruct (JSId_truthy _).
Qed.

Lemma getAssignment_after_assignment_witness :
  let s1 := (V1._setOrRemoveAssignment 1 "http://example.com" (IdStr "3") false
               Sample3.before).2 in
  (_getAssignment (Sample.tab 3 "firefox-container-0" "http://example.com/about") s1).1
  = Normal (Some (Some (VSite (IdStr (String_of (IdStr "3"))) false)))
  ∧ _getAssignment Sample5.tab2 s1 = (Normal None, s1).
Proof.
  apply (getAssignment_after_assignment 1 "http://example.com"
           "siteContainerMap@@_example.com" (IdStr "3") Sample3.before
           (Sample.tab 1 "firefox-container-3" "http://example.com/")
           (Sample.tab 3 "firefox-container-0" "http://example.com/about")
           Sample5.tab2).
  - reflexivity.
  - repeat constructor; eexists; reflexivity.
  - reflexivity.
  - reflexivity.
  - reflexivity.
  - reflexivity.
  - discriminate.
Defined.
